(** * youtube_whisper_text.py: the four-stage pipeline, embedded and verified

    The Python source drives three external tools (yt-dlp, ffmpeg, whisper)
    through [subprocess.Popen], looks at the file system between the stages
    and reports to a logger.  The embedding below keeps that shape:

    - Python [str] values are Rocq [string]s, read as UTF-8 byte strings;
    - the file system is a list of directory entries;
    - an external process is an oracle [exec] (a Section variable): given the
      command and the current file system it yields the printed lines, the
      exit status and the file system it leaves behind;
    - effects are threaded by a small state-and-exception monad that also
      accumulates the trace of observable events (logger calls, process
      launches and exits, unlinks). *)

From Stdlib Require Import String Ascii List ZArith Lia Bool DecimalString.
Import ListNotations.
Local Open Scope string_scope.

(* ================================================================== *)
(** ** Python [str] operations used by the source *)
(* ================================================================== *)

Module PyStr.

Definition chr (n : nat) : ascii := ascii_of_nat n.
Definition ord (c : ascii) : nat := nat_of_ascii c.

Definition LF : string := String (chr 10) "".
Definition DQUOTE : string := String (chr 34) "".
Definition SQUOTE : string := "'".

(** [s.startswith(p)] and [s.endswith(p)]. *)
Definition startswith (s p : string) : bool := String.prefix p s.

Definition rev (s : string) : string :=
  string_of_list_ascii (List.rev (list_ascii_of_string s)).

Definition endswith (s p : string) : bool := String.prefix (rev p) (rev s).

(** [s.lower()].  Only the ASCII letters are folded: the single use in the
    source is [f.lower().endswith(".txt")], and no code point outside ASCII
    lower-cases to one of the four ASCII characters of that suffix. *)
Definition lower_char (c : ascii) : ascii :=
  let n := ord c in
  if (65 <=? n)%nat && (n <=? 90)%nat then chr (n + 32) else c.

Fixpoint lower (s : string) : string :=
  match s with
  | EmptyString => EmptyString
  | String c r => String (lower_char c) (lower r)
  end.

(** White space in the sense of [str.isspace]: the ASCII separators and, in
    their UTF-8 encoding, U+0085, U+00A0, U+1680, U+2000..U+200A, U+2028,
    U+2029, U+202F, U+205F and U+3000. *)
Definition space1 (a : nat) : bool :=
  ((9 <=? a) && (a <=? 13) || (28 <=? a) && (a <=? 32))%nat.

Definition space2 (a b : nat) : bool :=
  ((a =? 194) && ((b =? 133) || (b =? 160)))%nat.

Definition space3 (a b c : nat) : bool :=
  ((a =? 225) && (b =? 154) && (c =? 128)
   || (a =? 226) && (b =? 128)
      && ((128 <=? c) && (c <=? 138) || (c =? 168) || (c =? 169) || (c =? 175))
   || (a =? 226) && (b =? 129) && (c =? 159)
   || (a =? 227) && (b =? 128) && (c =? 128))%nat.

(** The rest of [s] after one leading white-space code point, if any.
    With [back = true] the string is read backwards (bytes reversed). *)
Definition drop_space (back : bool) (s : string) : option string :=
  match s with
  | EmptyString => None
  | String c1 r1 =>
      if space1 (ord c1) then Some r1 else
      match r1 with
      | EmptyString => None
      | String c2 r2 =>
          if (if back then space2 (ord c2) (ord c1) else space2 (ord c1) (ord c2))
          then Some r2 else
          match r2 with
          | EmptyString => None
          | String c3 r3 =>
              if (if back then space3 (ord c3) (ord c2) (ord c1)
                  else space3 (ord c1) (ord c2) (ord c3))
              then Some r3 else None
          end
      end
  end.

Fixpoint strip_from (back : bool) (fuel : nat) (s : string) : string :=
  match fuel with
  | O => s
  | S k => match drop_space back s with
           | Some r => strip_from back k r
           | None => s
           end
  end.

Definition lstrip (s : string) : string := strip_from false (String.length s) s.
Definition rstrip (s : string) : string :=
  rev (strip_from true (String.length s) (rev s)).

(** [s.strip()]. *)
Definition strip (s : string) : string := rstrip (lstrip s).

(** Truthiness of a string: [if s] holds for the non-empty ones. *)
Definition truthy (s : string) : bool :=
  match s with EmptyString => false | _ => true end.

(** Line boundaries of [str.splitlines]: LF, CR, CR LF, VT, FF, FS, GS, RS
    and, in UTF-8, U+0085, U+2028, U+2029. *)
Definition brk1 (a : nat) : bool :=
  ((a =? 10) || (a =? 11) || (a =? 12) || (a =? 13)
   || (a =? 28) || (a =? 29) || (a =? 30))%nat.

Definition brk2 (a b : nat) : bool := ((a =? 194) && (b =? 133))%nat.

Definition brk3 (a b c : nat) : bool :=
  ((a =? 226) && (b =? 128) && ((c =? 168) || (c =? 169)))%nat.

(** [cur] is the line being read, reversed. *)
Fixpoint splitlines_from (cur : string) (s : string) : list string :=
  match s with
  | EmptyString => if truthy cur then [rev cur] else []
  | String c1 r1 =>
      match r1 with
      | EmptyString =>
          if brk1 (ord c1) then [rev cur] else [rev (String c1 cur)]
      | String c2 r2 =>
          if (ord c1 =? 13)%nat && (ord c2 =? 10)%nat
          then rev cur :: splitlines_from "" r2
          else if brk1 (ord c1) then rev cur :: splitlines_from "" r1
          else if brk2 (ord c1) (ord c2) then rev cur :: splitlines_from "" r2
          else
            match r2 with
            | EmptyString => splitlines_from (String c1 cur) r1
            | String c3 r3 =>
                if brk3 (ord c1) (ord c2) (ord c3)
                then rev cur :: splitlines_from "" r3
                else splitlines_from (String c1 cur) r1
            end
      end
  end.

(** [s.splitlines()]. *)
Definition splitlines (s : string) : list string := splitlines_from "" s.

(** [sep.join(xs)]. *)
Definition join (sep : string) (xs : list string) : string :=
  String.concat sep xs.

(** [s.replace(a, b)] for a one-character [a]. *)
Fixpoint replace_char (a : ascii) (b : string) (s : string) : string :=
  match s with
  | EmptyString => EmptyString
  | String c r =>
      if Ascii.eqb c a then b ++ replace_char a b r
      else String c (replace_char a b r)
  end.

(** [str(n)] and the [{n}] of an f-string, for an integer. *)
Definition of_int (n : Z) : string := NilZero.string_of_int (Z.to_int n).

(** [needle in s]. *)
Fixpoint contains (s needle : string) : bool :=
  String.prefix needle s
  || match s with
     | EmptyString => false
     | String _ r => contains r needle
     end.

(** [xs[-1] if xs else ""]. *)
Definition last_or_empty (xs : list string) : string := List.last xs "".

(** No line boundary of [str.splitlines] starts at the head of [s]. *)
Definition no_break_at (s : string) : bool :=
  match s with
  | EmptyString => true
  | String c1 r1 =>
      negb (brk1 (ord c1))
      && match r1 with
         | EmptyString => true
         | String c2 r2 =>
             negb (brk2 (ord c1) (ord c2))
             && match r2 with
                | EmptyString => true
                | String c3 _ => negb (brk3 (ord c1) (ord c2) (ord c3))
                end
         end
  end.

(** [s] holds no line boundary at all: [str.splitlines] leaves it whole. *)
Fixpoint one_line (s : string) : bool :=
  match s with
  | EmptyString => true
  | String _ r => no_break_at s && one_line r
  end.

End PyStr.

(* ================================================================== *)
(** ** [shlex.quote] and [_pretty_cmd] *)
(* ================================================================== *)

(** A character that [shlex.quote] leaves alone: [[A-Za-z0-9_@%+=:,./-]]. *)
Definition shlex_safe (c : ascii) : bool :=
  let n := PyStr.ord c in
  ((65 <=? n) && (n <=? 90) || (97 <=? n) && (n <=? 122)
   || (48 <=? n) && (n <=? 57)
   || (n =? 95) || (n =? 64) || (n =? 37) || (n =? 43) || (n =? 61)
   || (n =? 58) || (n =? 44) || (n =? 46) || (n =? 47) || (n =? 45))%nat.

Definition shlex_quote (s : string) : string :=
  match s with
  | EmptyString => "''"
  | _ =>
      if forallb shlex_safe (list_ascii_of_string s) then s
      else
        PyStr.SQUOTE
        ++ PyStr.replace_char "'"%char
             (PyStr.SQUOTE ++ PyStr.DQUOTE ++ PyStr.SQUOTE ++ PyStr.DQUOTE ++ PyStr.SQUOTE) s
        ++ PyStr.SQUOTE
  end.

(** [_pretty_cmd(cmd)] for a command given as an argument list. *)
Definition _pretty_cmd (cmd : list string) : string :=
  PyStr.join " " (map shlex_quote cmd).

(* ================================================================== *)
(** ** [os.path] on POSIX *)
(* ================================================================== *)

Module OsPath.

(** [p[:i+1], p[i+1:]] for [i = p.rfind("/")]. *)
Fixpoint split_sep (p : string) : string * string :=
  match p with
  | EmptyString => ("", "")
  | String c r =>
      let (h, t) := split_sep r in
      if PyStr.truthy h then (String c h, t)
      else if Ascii.eqb c "/"%char then ("/", r)
      else ("", String c t)
  end.

(** [p[:i], p[i:]] for [i = p.rfind(".")], when there is a dot. *)
Fixpoint split_dot (p : string) : option (string * string) :=
  match p with
  | EmptyString => None
  | String c r =>
      match split_dot r with
      | Some (a, b) => Some (String c a, b)
      | None => if Ascii.eqb c "."%char then Some ("", p) else None
      end
  end.

Definition all_char (a : ascii) (s : string) : bool :=
  forallb (Ascii.eqb a) (list_ascii_of_string s).

Fixpoint rstrip_rev_sep (s : string) : string :=
  match s with
  | String c r => if Ascii.eqb c "/"%char then rstrip_rev_sep r else s
  | EmptyString => EmptyString
  end.

(** [os.path.join(a, b)]. *)
Definition join (a b : string) : string :=
  if PyStr.startswith b "/" then b
  else if negb (PyStr.truthy a) || PyStr.endswith a "/" then a ++ b
  else a ++ "/" ++ b.

(** [os.path.basename(p)]. *)
Definition basename (p : string) : string := snd (split_sep p).

(** [os.path.dirname(p)]. *)
Definition dirname (p : string) : string :=
  let h := fst (split_sep p) in
  if PyStr.truthy h && negb (all_char "/"%char h)
  then PyStr.rev (rstrip_rev_sep (PyStr.rev h)) else h.

(** [os.path.splitext(p)]: the extension starts at the last dot of the last
    path component, unless only dots precede it in that component. *)
Definition splitext (p : string) : string * string :=
  let (h, t) := split_sep p in
  match split_dot t with
  | Some (a, b) =>
      if all_char "."%char a then (p, "") else (h ++ a, b)
  | None => (p, "")
  end.

End OsPath.

(* ================================================================== *)
(** ** The file system *)
(* ================================================================== *)

Inductive kind := RegularFile | Directory.

(** One directory entry.  [e_pinned] marks an entry the operating system
    refuses to unlink (no write permission on its directory, say). *)
Record entry := {
  e_dir : string;
  e_name : string;
  e_kind : kind;
  e_pinned : bool
}.

Definition FS := list entry.

Definition entry_path (e : entry) : string := OsPath.join (e_dir e) (e_name e).

Definition is_file_at (p : string) (e : entry) : bool :=
  match e_kind e with
  | RegularFile => String.eqb (entry_path e) p
  | Directory => false
  end.

(** [os.path.isfile(p)]. *)
Definition isfile (fs : FS) (p : string) : bool := existsb (is_file_at p) fs.

(** [os.path.isdir(p)]. *)
Definition isdir (fs : FS) (p : string) : bool :=
  existsb (fun e => match e_kind e with
                    | Directory => String.eqb (entry_path e) p
                    | RegularFile => false
                    end) fs.

(** [os.listdir(d)], in the order the file system happens to keep. *)
Definition listdir (fs : FS) (d : string) : list string :=
  map e_name (filter (fun e => String.eqb (e_dir e) d) fs).

Definition exists_at (fs : FS) (p : string) : bool :=
  existsb (fun e => String.eqb (entry_path e) p) fs.

Definition pinned_at (fs : FS) (p : string) : bool :=
  existsb (fun e => String.eqb (entry_path e) p && e_pinned e) fs.

(** [os.remove(p)]: [None] when the call raises (no regular file there, or
    the entry is pinned). *)
Definition unlink (fs : FS) (p : string) : option FS :=
  if isfile fs p && negb (pinned_at fs p)
  then Some (filter (fun e => negb (String.eqb (entry_path e) p)) fs)
  else None.

(** [os.makedirs(p, exist_ok=True)].  Directory creation is outside the
    pipeline core and is taken to succeed: the leaf is added when nothing
    sits at [p] yet. *)
Definition makedirs (fs : FS) (p : string) : FS :=
  if exists_at fs p then fs
  else (fs ++ [ {| e_dir := OsPath.dirname p; e_name := OsPath.basename p;
                   e_kind := Directory; e_pinned := false |} ])%list.

(* ================================================================== *)
(** ** Observable events *)
(* ================================================================== *)

(** Every [logger.log] call is an Observer notification.  [Log] is a call
    made by the controller or a stage itself, [Out] is the call of
    [run_cmd_stream] that forwards one line printed by the running process.
    [Spawn] and [Exit] bracket the life of an external process that was
    launched and waited for; [Spawn] remembers the file system the process
    was launched on.  [NoSpawn] is a call of [subprocess.Popen] that raised:
    no process exists.  [Undecoded] is the loop over [p.stdout] raising on
    bytes it cannot decode: the process is left behind, never waited for.
    [Unlink] is a successful [os.remove]. *)
Inductive event :=
| Log (msg : string)
| Out (line : string)
| Spawn (cmd : list string) (cwd : string) (env : list (string * string)) (at_launch : FS)
| Exit (rc : Z)
| Unlink (path : string)
| NoSpawn (cmd : list string) (cwd : string) (env : list (string * string)) (at_launch : FS)
| Undecoded (cmd : list string).

(** What the Observer (and the persisted run log) receives, in order. *)
Definition notifications (tr : list event) : list string :=
  flat_map (fun e => match e with
                     | Log m => [m]
                     | Out l => [l]
                     | _ => []
                     end) tr.

(** The exceptions the program meets.  [PopenError] is the [OSError] that
    [subprocess.Popen] raises when the program or the working directory
    cannot be used; [UnicodeDecodeError] is raised by the text-mode read of
    the output of a process. *)
Inductive exn :=
| RuntimeError (msg : string)
| OSError (msg : string)
| PopenError (errno : Z) (detail : string)
| UnicodeDecodeError (codec detail : string).

(** [str(e)]: an [OSError] with an error number prints as
    [[Errno n] detail], a [UnicodeDecodeError] starts with the quoted name
    of the codec. *)
Definition str_exn (e : exn) : string :=
  match e with
  | RuntimeError m => m
  | OSError m => m
  | PopenError n d => "[Errno " ++ PyStr.of_int n ++ "] " ++ d
  | UnicodeDecodeError c d => "'" ++ c ++ "' codec can't decode " ++ d
  end.

(* ------------------------------------------------------------------ *)
(** ** Configuration constants *)

Definition FFMPEG_BIN : string := "ffmpeg".
Definition YTDLP_BIN : string := "yt-dlp".
Definition DEFAULT_MODEL : string := "medium".
Definition DEFAULT_LANG : string := "fr".

(** Messages of the source, named once. *)
Definition banner_check : string := "[0/4] Vérification whisper…".
Definition banner_fetch : string := "[1/4] Téléchargement YouTube…".
Definition banner_normalize : string := "[2/4] Conversion/remux en MP4…".
Definition banner_extract : string := "[3/4] Extraction WAV 16k mono…".
Definition banner_transcribe : string := "[4/4] Transcription Whisper…".

Definition msg_cmd_failed (rc : Z) : string :=
  "Commande échouée (code " ++ PyStr.of_int rc ++ ").".
Definition msg_download_missing : string :=
  "Téléchargement terminé, mais fichier vidéo introuvable dans /video.".
Definition msg_mp4_missing : string :=
  "Conversion MP4 terminée, mais fichier MP4 introuvable.".
Definition msg_wav_missing : string :=
  "Extraction WAV terminée, mais WAV introuvable.".
Definition msg_txt_missing : string :=
  "Transcription terminée, mais TXT introuvable.".
Definition msg_remux_fallback : string :=
  "⚠️ Remux/copy échoué. Fallback: ré-encodage H.264…".
Definition msg_wav_removed : string := "🧹 WAV temporaire supprimé.".

(** [sorted(xs)] on strings (code-point order, which is byte order in UTF-8). *)
Fixpoint insert_sorted (x : string) (xs : list string) : list string :=
  match xs with
  | [] => [x]
  | y :: ys => if String.leb x y then x :: xs else y :: insert_sorted x ys
  end.

Definition sorted (xs : list string) : list string :=
  fold_right insert_sorted [] xs.

(** What one call of [run_cmd_stream] adds to the trace when the process
    is launched and waited for: the command line is logged, the process is
    launched, its lines are forwarded, it exits. *)
Definition proc_trace (cmd : list string) (cwd : string) (env : list (string * string))
           (fs : FS) (lines : list string) (rc : Z) : list event :=
  Log ("$ " ++ _pretty_cmd cmd) :: Spawn cmd cwd env fs :: (map Out lines ++ [Exit rc])%list.

(** The same when [subprocess.Popen] raises: the command line was logged,
    nothing was launched. *)
Definition refused_trace (cmd : list string) (cwd : string) (env : list (string * string))
           (fs : FS) : list event :=
  [Log ("$ " ++ _pretty_cmd cmd); NoSpawn cmd cwd env fs].

(** The same when the output cannot be decoded: the lines read so far were
    forwarded, the process is left behind. *)
Definition undecoded_trace (cmd : list string) (cwd : string) (env : list (string * string))
           (fs : FS) (lines : list string) : list event :=
  Log ("$ " ++ _pretty_cmd cmd) :: Spawn cmd cwd env fs
      :: (map Out lines ++ [Undecoded cmd])%list.

(** How a launch can go wrong before an exit status is seen. *)
Inductive fault :=
| SpawnError (errno : Z) (detail : string)
| DecodeError (codec detail : string).

(* ================================================================== *)
(** ** The effect monad and the source functions *)
(* ================================================================== *)

Section Pipeline.

(** The part of the machine the program cannot see (network, clocks, the
    tools' own state), and the behaviour of an external process: from the
    hidden state, the file system, the argument vector, the working
    directory and the environment overrides to the printed lines (standard
    output and error merged, line ends removed), the exit status and the
    state left behind.  [x_fault] tells whether the launch went wrong before
    an exit status was seen: with [SpawnError] no process was started and
    the other fields but [x_hid] mean nothing; with [DecodeError] the
    process was started, [x_lines] are the lines read before the bytes that
    could not be decoded, [x_disk] is the file system at that moment and
    [x_rc] means nothing; what the process left behind does afterwards
    belongs to the hidden state, and shows in the results of the launches
    that follow. *)
Variable H : Type.

Record exec_result := {
  x_fault : option fault;
  x_lines : list string;
  x_rc : Z;
  x_disk : FS;
  x_hid : H
}.

(** The exit status [p.wait()] returned, when the run got that far. *)
Definition x_status (x : exec_result) : option Z :=
  match x_fault x with
  | None => Some (x_rc x)
  | Some _ => None
  end.

(** The launch was made, the output read to its end and the status was 0. *)
Definition succeeded (x : exec_result) : bool :=
  match x_fault x with
  | None => (x_rc x =? 0)%Z
  | Some _ => false
  end.

(** What [run_cmd_stream] raises when the launch did not succeed. *)
Definition failure_of (x : exec_result) : exn :=
  match x_fault x with
  | Some (SpawnError n d) => PopenError n d
  | Some (DecodeError c d) => UnicodeDecodeError c d
  | None => RuntimeError (msg_cmd_failed (x_rc x))
  end.

(** The file system after the call of [run_cmd_stream], launched on [fs]. *)
Definition disk_after (fs : FS) (x : exec_result) : FS :=
  match x_fault x with
  | Some (SpawnError _ _) => fs
  | _ => x_disk x
  end.

(** The whole trace of a call of [run_cmd_stream]. *)
Definition launch_trace (cmd : list string) (cwd : string) (env : list (string * string))
           (fs : FS) (x : exec_result) : list event :=
  match x_fault x with
  | Some (SpawnError _ _) => refused_trace cmd cwd env fs
  | Some (DecodeError _ _) => undecoded_trace cmd cwd env fs (x_lines x)
  | None => proc_trace cmd cwd env fs (x_lines x) (x_rc x)
  end.

Variable exec : H -> FS -> list string -> string -> list (string * string) -> exec_result.

(** [os.path.expanduser("~/whisper-gpu")]. *)
Variable WHISPER_PROJECT_DIR : string.

Record OS := { disk : FS; hid : H }.

Record Res (A : Type) := mkRes {
  r_trace : list event;
  r_os : OS;
  r_val : exn + A
}.
Arguments mkRes {A}.
Arguments r_trace {A}.
Arguments r_os {A}.
Arguments r_val {A}.

Definition M (A : Type) : Type := OS -> Res A.

Definition ret {A} (a : A) : M A := fun os => mkRes [] os (inr a).

Definition raise {A} (e : exn) : M A := fun os => mkRes [] os (inl e).

Definition bind {A B} (c : M A) (k : A -> M B) : M B :=
  fun os =>
    let r := c os in
    match r_val r with
    | inl e => mkRes (r_trace r) (r_os r) (inl e)
    | inr a =>
        let r' := k a (r_os r) in
        mkRes (r_trace r ++ r_trace r')%list (r_os r') (r_val r')
    end.

(** [try: c / except Exception as e: ...] with the handler left to the caller. *)
Definition catch {A} (c : M A) : M (exn + A) :=
  fun os => let r := c os in mkRes (r_trace r) (r_os r) (inr (r_val r)).

Notation "x <- c ;; k" := (bind c (fun x => k))
  (at level 61, c at next level, right associativity).
Notation "c ;;; k" := (bind c (fun _ => k))
  (at level 61, right associativity).

(** [logger.log(msg)]. *)
Definition log (msg : string) : M unit := fun os => mkRes [Log msg] os (inr tt).

Definition os_isfile (p : string) : M bool :=
  fun os => mkRes [] os (inr (isfile (disk os) p)).

Definition os_listdir (d : string) : M (list string) :=
  fun os => mkRes [] os (inr (listdir (disk os) d)).

(** Any other look at the file system that changes nothing. *)
Definition peek {A} (f : FS -> A) : M A :=
  fun os => mkRes [] os (inr (f (disk os))).

Definition os_remove (p : string) : M unit :=
  fun os =>
    match unlink (disk os) p with
    | Some fs' => mkRes [Unlink p] {| disk := fs'; hid := hid os |} (inr tt)
    | None => mkRes [] os (inl (OSError p))
    end.

Definition safe_makedirs (p : string) : M unit :=
  fun os => mkRes [] {| disk := makedirs (disk os) p; hid := hid os |} (inr tt).

(** [subprocess.Popen(...)], the loop over [p.stdout] and [p.wait()]:
    the lines are forwarded one by one while the process runs.  [Popen]
    raises when the program or the working directory cannot be used, and
    then nothing on disk has changed; the loop raises on a line it cannot
    decode, and then [p.wait()] is never reached. *)
Definition popen_stream (cmd : list string) (cwd : string)
           (env : list (string * string)) : M (list string * Z) :=
  fun os =>
    let x := exec (hid os) (disk os) cmd cwd env in
    match x_fault x with
    | Some (SpawnError n d) =>
        mkRes [NoSpawn cmd cwd env (disk os)]
              {| disk := disk os; hid := x_hid x |}
              (inl (PopenError n d))
    | Some (DecodeError c d) =>
        mkRes (Spawn cmd cwd env (disk os) :: map Out (x_lines x) ++ [Undecoded cmd])%list
              {| disk := x_disk x; hid := x_hid x |}
              (inl (UnicodeDecodeError c d))
    | None =>
        mkRes (Spawn cmd cwd env (disk os) :: map Out (x_lines x) ++ [Exit (x_rc x)])%list
              {| disk := x_disk x; hid := x_hid x |}
              (inr (x_lines x, x_rc x))
    end.

Definition run_cmd_stream (cmd : list string) (cwd : string)
           (env : list (string * string)) : M string :=
  log ("$ " ++ _pretty_cmd cmd) ;;;
  p <- popen_stream cmd cwd env ;;
  let (out_lines, rc) := p in
  if negb (rc =? 0)%Z then raise (RuntimeError (msg_cmd_failed rc))
  else ret (PyStr.join PyStr.LF out_lines).

Definition unbuffered : list (string * string) := [("PYTHONUNBUFFERED", "1")].

Definition whisper_check_cmd (python_exe : string) : list string :=
  [python_exe; "-c"; "import whisper; print('OK: whisper importable')"].

Definition ensure_whisper_available (python_exe : string) : M unit :=
  run_cmd_stream (whisper_check_cmd python_exe) WHISPER_PROJECT_DIR unbuffered ;;;
  ret tt.

Definition ytdlp_cmd (url video_dir base_with_date : string) : list string :=
  [YTDLP_BIN; "--no-playlist"; "--restrict-filenames";
   "-f"; "bv*+ba/best";
   "-o"; OsPath.join video_dir (base_with_date ++ ".%(ext)s");
   "--print"; "after_move:filepath";
   url].

(** The last non-blank line of a list of lines, stripped; the empty string
    when every line is blank. *)
Definition last_nonblank_line (lines : list string) : string :=
  PyStr.last_or_empty
    (map PyStr.strip (filter (fun l => PyStr.truthy (PyStr.strip l)) lines)).

(** [lines[-1] if lines else ""] for
    [lines = [l.strip() for l in out.splitlines() if l.strip()]]. *)
Definition printed_path (out : string) : string :=
  PyStr.last_or_empty
    (map PyStr.strip
         (filter (fun l => PyStr.truthy (PyStr.strip l)) (PyStr.splitlines out))).

(** The [for fn in os.listdir(video_dir)] loop of [download_youtube]. *)
Fixpoint scan_video (fs : FS) (video_dir prefix : string) (names : list string)
  : option string :=
  match names with
  | [] => None
  | fn :: rest =>
      if PyStr.startswith fn prefix
      then let cand := OsPath.join video_dir fn in
           if isfile fs cand then Some cand
           else scan_video fs video_dir prefix rest
      else scan_video fs video_dir prefix rest
  end.

Definition download_youtube (url video_dir base_with_date : string) : M string :=
  safe_makedirs video_dir ;;;
  out <- run_cmd_stream (ytdlp_cmd url video_dir base_with_date) video_dir [] ;;
  let downloaded := printed_path out in
  found <- (if PyStr.truthy downloaded then os_isfile downloaded else ret false) ;;
  if found then ret downloaded
  else
    names <- os_listdir video_dir ;;
    hit <- peek (fun fs => scan_video fs video_dir (base_with_date ++ ".") names) ;;
    match hit with
    | Some cand => ret cand
    | None => raise (RuntimeError msg_download_missing)
    end.

Definition remux_cmd (input_video mp4_path : string) : list string :=
  [FFMPEG_BIN; "-y"; "-i"; input_video;
   "-c:v"; "copy"; "-c:a"; "aac"; "-b:a"; "192k";
   "-movflags"; "+faststart"; mp4_path].

Definition reencode_cmd (input_video mp4_path : string) : list string :=
  [FFMPEG_BIN; "-y"; "-i"; input_video;
   "-c:v"; "libx264"; "-preset"; "veryfast"; "-crf"; "22";
   "-c:a"; "aac"; "-b:a"; "192k";
   "-movflags"; "+faststart"; mp4_path].

Definition to_mp4 (input_video mp4_dir mp4_path : string) : M unit :=
  safe_makedirs mp4_dir ;;;
  r <- catch (run_cmd_stream (remux_cmd input_video mp4_path) mp4_dir []) ;;
  match r with
  | inr _ => ret tt
  | inl _ =>
      log msg_remux_fallback ;;;
      run_cmd_stream (reencode_cmd input_video mp4_path) mp4_dir [] ;;;
      ret tt
  end.

Definition wav_cmd (mp4_path wav_path : string) : list string :=
  [FFMPEG_BIN; "-y"; "-i"; mp4_path;
   "-vn"; "-ac"; "1"; "-ar"; "16000"; "-c:a"; "pcm_s16le"; wav_path].

Definition mp4_to_wav (mp4_path wav_path : string) : M unit :=
  run_cmd_stream (wav_cmd mp4_path wav_path) (OsPath.dirname mp4_path) [] ;;;
  ret tt.

Definition explain_whisper_command
           (python_exe wav_path out_dir model lang : string) : list string :=
  let cmd := [python_exe; "-m"; "whisper"; wav_path;
              "--model"; model;
              "--device"; "cuda";
              "--task"; "transcribe";
              "--output_dir"; out_dir;
              "--output_format"; "txt";
              "--verbose"; "True"] in
  if negb (String.eqb lang "auto") then (cmd ++ ["--language"; lang])%list else cmd.

Definition run_whisper (python_exe wav_path out_dir model lang : string) : M unit :=
  run_cmd_stream (explain_whisper_command python_exe wav_path out_dir model lang)
                 WHISPER_PROJECT_DIR unbuffered ;;;
  ret tt.

(* ------------------------------------------------------------------ *)
(** ** The application object and the pipeline thread *)

Inductive widget_state := normal | disabled.

(** The attributes of [App] the pipeline reads and writes. *)
Record App := {
  python_exe : string;
  url_var : string;
  workdir_var : string;
  model_var : string;
  lang_var : string;
  output_txt_var : string;
  status_var : string;
  btn_run : widget_state;
  btn_copy : widget_state;
  logfile_path : option string
}.

(** What the program asks of its host: [os.getcwd()], today's date as
    [datetime.now().strftime("%Y%m%d")] and [shutil.which]. *)
Record Host := {
  getcwd : string;
  today : string;
  which : string -> option string
}.

Definition which_ok (host : Host) (cmd : string) : bool :=
  match which host cmd with Some _ => true | None => false end.

(** [a or b] on strings. *)
Definition str_or (a b : string) : string := if PyStr.truthy a then a else b.

Definition set_status (a : App) (s : string) : App :=
  {| python_exe := python_exe a; url_var := url_var a; workdir_var := workdir_var a;
     model_var := model_var a; lang_var := lang_var a;
     output_txt_var := output_txt_var a; status_var := s;
     btn_run := btn_run a; btn_copy := btn_copy a; logfile_path := logfile_path a |}.

Definition set_output_txt (a : App) (s : string) : App :=
  {| python_exe := python_exe a; url_var := url_var a; workdir_var := workdir_var a;
     model_var := model_var a; lang_var := lang_var a;
     output_txt_var := s; status_var := status_var a;
     btn_run := btn_run a; btn_copy := btn_copy a; logfile_path := logfile_path a |}.

Definition set_btn_run (a : App) (w : widget_state) : App :=
  {| python_exe := python_exe a; url_var := url_var a; workdir_var := workdir_var a;
     model_var := model_var a; lang_var := lang_var a;
     output_txt_var := output_txt_var a; status_var := status_var a;
     btn_run := w; btn_copy := btn_copy a; logfile_path := logfile_path a |}.

Definition set_btn_copy (a : App) (w : widget_state) : App :=
  {| python_exe := python_exe a; url_var := url_var a; workdir_var := workdir_var a;
     model_var := model_var a; lang_var := lang_var a;
     output_txt_var := output_txt_var a; status_var := status_var a;
     btn_run := btn_run a; btn_copy := w; logfile_path := logfile_path a |}.

Definition set_logfile (a : App) (p : string) : App :=
  {| python_exe := python_exe a; url_var := url_var a; workdir_var := workdir_var a;
     model_var := model_var a; lang_var := lang_var a;
     output_txt_var := output_txt_var a; status_var := status_var a;
     btn_run := btn_run a; btn_copy := btn_copy a; logfile_path := Some p |}.

Definition status_done : string := "Terminé ✅".
Definition status_error : string := "Erreur ❌ (voir log)".
Definition status_running : string := "En cours…".

(** The values [_pipeline_thread] derives from the request (lines 358-365). *)
Definition run_url (a : App) : string := PyStr.strip (url_var a).
Definition run_model (a : App) : string := str_or (PyStr.strip (model_var a)) DEFAULT_MODEL.
Definition run_lang (a : App) : string := str_or (PyStr.strip (lang_var a)) DEFAULT_LANG.
Definition run_workdir (host : Host) (a : App) : string :=
  str_or (PyStr.strip (workdir_var a)) (getcwd host).
Definition video_dir_of (workdir : string) : string := OsPath.join workdir "video".
Definition mp4_dir_of (workdir : string) : string := OsPath.join workdir "mp4".
Definition txt_dir_of (workdir : string) : string := OsPath.join workdir "txt".

(** Lines 395-402: the common base and the three declared paths. *)
Definition base_of (downloaded_path : string) : string :=
  fst (OsPath.splitext (OsPath.basename downloaded_path)).
Definition mp4_path_of (workdir base : string) : string :=
  OsPath.join (mp4_dir_of workdir) (base ++ ".mp4").
Definition wav_path_of (workdir base : string) : string :=
  OsPath.join (mp4_dir_of workdir) (base ++ ".wav").
Definition txt_path_of (workdir base : string) : string :=
  OsPath.join (txt_dir_of workdir) (base ++ ".txt").

(** Lines 358-393: directories, the engine check and the Fetch stage. *)
Definition pipeline_fetch (host : Host) (a : App) : M string :=
  let url := run_url a in
  let model := run_model a in
  let lang := run_lang a in
  let workdir := run_workdir host a in
  let video_dir := video_dir_of workdir in
  let mp4_dir := mp4_dir_of workdir in
  let txt_dir := txt_dir_of workdir in
  safe_makedirs video_dir ;;;
  safe_makedirs mp4_dir ;;;
  safe_makedirs txt_dir ;;;
  let date_tag := today host in
  log ("Langue=" ++ lang ++ " | Modèle=" ++ model) ;;;
  log ("Workdir: " ++ workdir) ;;;
  log ("video/: " ++ video_dir) ;;;
  log ("mp4/:   " ++ mp4_dir) ;;;
  log banner_check ;;;
  ensure_whisper_available (python_exe a) ;;;
  let base_template := "%(title).80s_%(id)s_" ++ date_tag in
  log banner_fetch ;;;
  download_youtube url video_dir base_template.

(** Lines 404-407: the Normalize stage and its postcondition. *)
Definition pipeline_normalize (downloaded_path mp4_dir mp4_path : string) : M unit :=
  log banner_normalize ;;;
  to_mp4 downloaded_path mp4_dir mp4_path ;;;
  ok <- os_isfile mp4_path ;;
  if negb ok then raise (RuntimeError msg_mp4_missing) else ret tt.

(** Lines 409-412: the ExtractAudio stage and its postcondition. *)
Definition pipeline_extract (mp4_path wav_path : string) : M unit :=
  log banner_extract ;;;
  mp4_to_wav mp4_path wav_path ;;;
  ok <- os_isfile wav_path ;;
  if negb ok then raise (RuntimeError msg_wav_missing) else ret tt.

(** The candidates of the fallback scan (line 421). *)
Definition txt_candidates (names : list string) (base : string) : list string :=
  filter (fun f => PyStr.endswith (PyStr.lower f) ".txt" && PyStr.startswith f base) names.

(** Lines 414-441: the Transcribe stage, the fallback scan, the removal of
    the WAV and the final check.  Returns the text path that is reported. *)
Definition pipeline_transcribe (python_exe wav_path txt_dir workdir base model lang : string)
  : M string :=
  log banner_transcribe ;;;
  run_whisper python_exe wav_path txt_dir model lang ;;;
  let txt_path := OsPath.join txt_dir (base ++ ".txt") in
  ok <- os_isfile txt_path ;;
  txt_path <- (if negb ok then
                 names <- os_listdir workdir ;;
                 match sorted (txt_candidates names base) with
                 | c :: _ => ret (OsPath.join workdir c)
                 | [] => ret txt_path
                 end
               else ret txt_path) ;;
  catch (os_remove wav_path ;;; log msg_wav_removed) ;;;
  ok <- os_isfile txt_path ;;
  if ok then ret txt_path else raise (RuntimeError msg_txt_missing).

(** Lines 395-441: everything after the Fetch stage. *)
Definition pipeline_rest (host : Host) (a : App) (downloaded_path : string) : M string :=
  let workdir := run_workdir host a in
  let base := base_of downloaded_path in
  log ("✅ Vidéo: " ++ downloaded_path) ;;;
  log ("Base commune: " ++ base) ;;;
  let mp4_path := mp4_path_of workdir base in
  let wav_path := wav_path_of workdir base in
  pipeline_normalize downloaded_path (mp4_dir_of workdir) mp4_path ;;;
  pipeline_extract mp4_path wav_path ;;;
  pipeline_transcribe (python_exe a) wav_path (txt_dir_of workdir) workdir base
                      (run_model a) (run_lang a).

(** The body of the [try] block; on success the three paths it logs. *)
Definition pipeline_body (host : Host) (a : App) : M (string * string * string) :=
  downloaded_path <- pipeline_fetch host a ;;
  txt_path <- pipeline_rest host a downloaded_path ;;
  ret (downloaded_path,
       mp4_path_of (run_workdir host a) (base_of downloaded_path),
       txt_path).

(** [App._pipeline_thread]: try / except / finally around the body. *)
Definition _pipeline_thread (host : Host) (a : App) : M App :=
  r <- catch (pipeline_body host a) ;;
  a' <- match r with
        | inr (downloaded_path, mp4_path, txt_path) =>
            log "=== Terminé ✅ ===" ;;;
            log ("VIDEO: " ++ downloaded_path) ;;;
            log ("MP4:   " ++ mp4_path) ;;;
            log ("TXT:   " ++ txt_path) ;;;
            ret (set_status (set_btn_copy (set_output_txt a txt_path) normal) status_done)
        | inl e =>
            log "=== Erreur ❌ ===" ;;;
            log (str_exn e) ;;;
            ret (set_status a status_error)
        end ;;
  ret (set_btn_run a' normal).

(** [App.start_pipeline]: the validated request either starts a worker
    thread ([true]) or is turned down with a message ([false]). *)
Definition start_pipeline (host : Host) (a : App) : M (App * bool) :=
  let url := PyStr.strip (url_var a) in
  if negb (PyStr.truthy url)
     || negb (PyStr.startswith url "http://" || PyStr.startswith url "https://")
  then log "❌ Erreur: colle une URL YouTube valide." ;;;
       ret (set_status a "Erreur: URL invalide", false)
  else if negb (which_ok host YTDLP_BIN)
  then log "❌ Erreur: yt-dlp introuvable (pip install -U yt-dlp)." ;;;
       ret (set_status a "Erreur: yt-dlp introuvable", false)
  else if negb (which_ok host FFMPEG_BIN)
  then log "❌ Erreur: ffmpeg introuvable." ;;;
       ret (set_status a "Erreur: ffmpeg introuvable", false)
  else
    let workdir := str_or (PyStr.strip (workdir_var a)) (getcwd host) in
    dir_ok <- peek (fun fs => isdir fs workdir) ;;
    if negb dir_ok
    then log "❌ Erreur: dossier de sortie invalide." ;;;
         ret (set_status a "Erreur: dossier de sortie invalide", false)
    else
      let a1 := set_logfile a (OsPath.join workdir "whisper_youtube_log.txt") in
      let a2 := set_btn_copy (set_btn_run a1 disabled) disabled in
      let a3 := set_status (set_output_txt a2 "") status_running in
      log "=== Début du process ===" ;;;
      ret (a3, true).

End Pipeline.

Arguments mkRes {H A}.
Arguments r_trace {H A}.
Arguments r_os {H A}.
Arguments r_val {H A}.
Arguments disk {H}.
Arguments hid {H}.
Arguments x_fault {H}.
Arguments x_lines {H}.
Arguments x_rc {H}.
Arguments x_disk {H}.
Arguments x_hid {H}.
Arguments x_status {H}.
Arguments succeeded {H}.
Arguments failure_of {H}.
Arguments disk_after {H}.
Arguments launch_trace {H}.

Arguments ret {H A}.
Arguments raise {H A}.
Arguments bind {H A B}.
Arguments catch {H A}.
Arguments log {H}.
Arguments os_isfile {H}.
Arguments os_listdir {H}.
Arguments peek {H A}.
Arguments os_remove {H}.
Arguments safe_makedirs {H}.
Arguments popen_stream {H}.
Arguments run_cmd_stream {H}.
Arguments ensure_whisper_available {H}.
Arguments download_youtube {H}.
Arguments to_mp4 {H}.
Arguments mp4_to_wav {H}.
Arguments run_whisper {H}.
Arguments pipeline_fetch {H}.
Arguments pipeline_normalize {H}.
Arguments pipeline_extract {H}.
Arguments pipeline_transcribe {H}.
Arguments pipeline_rest {H}.
Arguments pipeline_body {H}.
Arguments _pipeline_thread {H}.
Arguments start_pipeline {H}.

(* ================================================================== *)
(** ** Reading a trace *)
(* ================================================================== *)

Inductive stage := Fetch | Normalize | ExtractAudio | Transcribe.

Definition all_stages : list stage := [Fetch; Normalize; ExtractAudio; Transcribe].

Definition banner_of (s : stage) : string :=
  match s with
  | Fetch => banner_fetch
  | Normalize => banner_normalize
  | ExtractAudio => banner_extract
  | Transcribe => banner_transcribe
  end.

Definition stage_of_msg (m : string) : option stage :=
  if String.eqb m banner_fetch then Some Fetch
  else if String.eqb m banner_normalize then Some Normalize
  else if String.eqb m banner_extract then Some ExtractAudio
  else if String.eqb m banner_transcribe then Some Transcribe
  else None.

Definition stage_eqb (s t : stage) : bool :=
  match s, t with
  | Fetch, Fetch | Normalize, Normalize
  | ExtractAudio, ExtractAudio | Transcribe, Transcribe => true
  | _, _ => false
  end.

(** The stage-start notifications of a trace, in order. *)
Definition stage_starts (tr : list event) : list stage :=
  flat_map (fun e => match e with
                     | Log m => match stage_of_msg m with Some s => [s] | None => [] end
                     | _ => []
                     end) tr.

(** The commands launched, and the exit statuses collected, in order. *)
Definition spawned (tr : list event) : list (list string) :=
  flat_map (fun e => match e with Spawn cmd _ _ _ => [cmd] | _ => [] end) tr.

Definition exits (tr : list event) : list Z :=
  flat_map (fun e => match e with Exit rc => [rc] | _ => [] end) tr.

Definition unlinked (tr : list event) : list string :=
  flat_map (fun e => match e with Unlink p => [p] | _ => [] end) tr.

(** The calls of [subprocess.Popen], whether they started a process or
    raised, with working directory and environment overrides, in order. *)
Definition attempts (tr : list event)
  : list (list string * string * list (string * string)) :=
  flat_map (fun e => match e with
                     | Spawn cmd cwd env _ => [(cmd, cwd, env)]
                     | NoSpawn cmd cwd env _ => [(cmd, cwd, env)]
                     | _ => []
                     end) tr.

(** The commands of the processes left behind, never waited for. *)
Definition abandoned (tr : list event) : list (list string) :=
  flat_map (fun e => match e with Undecoded cmd => [cmd] | _ => [] end) tr.

(** The file systems on which the processes of stage [s] were launched:
    [cur] is the stage whose banner was seen last. *)
Fixpoint launches_from (cur : option stage) (s : stage) (tr : list event) : list FS :=
  match tr with
  | [] => []
  | Log m :: rest =>
      match stage_of_msg m with
      | Some s' => launches_from (Some s') s rest
      | None => launches_from cur s rest
      end
  | Spawn _ _ _ fs :: rest =>
      match cur with
      | Some c => if stage_eqb c s then fs :: launches_from cur s rest
                  else launches_from cur s rest
      | None => launches_from cur s rest
      end
  | _ :: rest => launches_from cur s rest
  end.

Definition launches_in (s : stage) (tr : list event) : list FS :=
  launches_from None s tr.

(** A message that is the engine-check banner or a stage banner. *)
Definition is_banner (m : string) : bool :=
  String.eqb m banner_check
  || match stage_of_msg m with Some _ => true | None => false end.

(** *** The ordering monitor

    A run is followed event by event.  The monitor refuses a trace in which
    a launch is attempted before the engine-check banner or while the output
    of another process is still being read, in which an exit or a decoding
    failure has no process, or in which a stage banner appears out of turn:
    the banner of a stage is accepted only when the phase before it (the
    engine check for Fetch) is the current one, no process is being read,
    and the last launch of that phase was waited for and left with status 0.
    A launch that raised and a process given up on a decoding failure leave
    the phase unclean.

    The monitor follows the calls of the program.  A process given up
    unwaited is over for it, since nothing of that process is read or
    notified any more, although the operating system may still be running
    it; [abandoned] lists these processes.  In a trace where [abandoned] is
    empty, a process the monitor holds alive is exactly one that was
    spawned and not yet waited for. *)
Inductive phase := Booting | Checking | InStage (s : stage).

Record monitor := {
  m_phase : phase;
  m_alive : bool;
  m_clean : bool
}.

Definition monitor_init : monitor :=
  {| m_phase := Booting; m_alive := false; m_clean := false |}.

Definition follows (p : phase) (s : stage) : bool :=
  match p, s with
  | Checking, Fetch => true
  | InStage Fetch, Normalize => true
  | InStage Normalize, ExtractAudio => true
  | InStage ExtractAudio, Transcribe => true
  | _, _ => false
  end.

Definition monitor_step (m : monitor) (e : event) : option monitor :=
  match e with
  | Log msg =>
      if String.eqb msg banner_check then
        match m_phase m with
        | Booting => Some {| m_phase := Checking; m_alive := false; m_clean := false |}
        | _ => None
        end
      else
        match stage_of_msg msg with
        | Some s =>
            if follows (m_phase m) s && negb (m_alive m) && m_clean m
            then Some {| m_phase := InStage s; m_alive := false; m_clean := false |}
            else None
        | None => Some m
        end
  | Out _ => Some m
  | Spawn _ _ _ _ =>
      match m_phase m with
      | Booting => None
      | p => if m_alive m then None
             else Some {| m_phase := p; m_alive := true; m_clean := false |}
      end
  | Exit rc =>
      if m_alive m
      then Some {| m_phase := m_phase m; m_alive := false; m_clean := (rc =? 0)%Z |}
      else None
  | Unlink _ => Some m
  | NoSpawn _ _ _ _ =>
      match m_phase m with
      | Booting => None
      | p => if m_alive m then None
             else Some {| m_phase := p; m_alive := false; m_clean := false |}
      end
  | Undecoded _ =>
      if m_alive m
      then Some {| m_phase := m_phase m; m_alive := false; m_clean := false |}
      else None
  end.

Fixpoint monitor_run (m : monitor) (tr : list event) : option monitor :=
  match tr with
  | [] => Some m
  | e :: rest =>
      match monitor_step m e with
      | Some m' => monitor_run m' rest
      | None => None
      end
  end.

Definition ordered (tr : list event) : bool :=
  match monitor_run monitor_init tr with Some _ => true | None => false end.

(** The same monitor with the eyes of the operating system: a process given
    up unwaited stays alive, so that nothing may be launched and no stage may
    start after it. *)
Definition strict_step (m : monitor) (e : event) : option monitor :=
  match e with
  | Undecoded _ => if m_alive m then Some m else None
  | _ => monitor_step m e
  end.

Fixpoint strict_run (m : monitor) (tr : list event) : option monitor :=
  match tr with
  | [] => Some m
  | e :: rest =>
      match strict_step m e with
      | Some m' => strict_run m' rest
      | None => None
      end
  end.

Definition quiescent (tr : list event) : bool :=
  match strict_run monitor_init tr with Some _ => true | None => false end.

(** An external world whose tools never remove a regular file. *)
Definition preserves_files {H : Type}
  (exec : H -> FS -> list string -> string -> list (string * string) -> exec_result H) : Prop :=
  forall h fs cmd cwd env p,
    isfile fs p = true -> isfile (x_disk (exec h fs cmd cwd env)) p = true.

(** The fallback of the Fetch stage in the words of the specification: the
    first directory entry whose name starts with the literal prefix and that
    is a regular file. *)
Definition first_entry_with_prefix (fs : FS) (dir prefix : string) : option string :=
  option_map (OsPath.join dir)
    (find (fun fn => PyStr.startswith fn prefix && isfile fs (OsPath.join dir fn))
          (listdir fs dir)).

(** An observer reads a trace piece by piece: it keeps a summary [o : O] of
    the events seen so far and extends it with the events that follow. *)
Record observer (O : Type) := {
  ext : O -> list event -> O;
  ext_nil : forall o, ext o [] = o;
  ext_app : forall o t1 t2, ext o (t1 ++ t2)%list = ext (ext o t1) t2
}.
Arguments ext {O}.
Arguments ext_nil {O}.
Arguments ext_app {O}.

(** The weakest precondition of a computation, relative to an observer.
    [Q] is what must hold of the result, the machine and the summary when the
    computation returns, [E] when it raises. *)
Definition wp {H A O} (ob : observer O) (c : OS H -> Res H A)
           (Q : A -> OS H -> O -> Prop)
           (E : exn -> OS H -> O -> Prop)
           (os : OS H) (o : O) : Prop :=
  let r := c os in
  match r_val r with
  | inr a => Q a (r_os r) (ext ob o (r_trace r))
  | inl e => E e (r_os r) (ext ob o (r_trace r))
  end.

(** The observer that keeps the whole trace. *)
Definition trace_observer : observer (list event) :=
  {| ext := fun o t => (o ++ t)%list;
     ext_nil := @app_nil_r event;
     ext_app := @app_assoc event |}.

(** The summary kept for the ordering of a run: the state of the monitor
    (if it has not refused the trace), the stages started and the launches
    attempted. *)
Record order_obs := {
  o_mon : option monitor;
  o_starts : list stage;
  o_cmds : list (list string * string * list (string * string))
}.

Definition monitor_then (o : option monitor) (tr : list event) : option monitor :=
  match o with Some m => monitor_run m tr | None => None end.

Definition order_ext (o : order_obs) (tr : list event) : order_obs :=
  {| o_mon := monitor_then (o_mon o) tr;
     o_starts := (o_starts o ++ stage_starts tr)%list;
     o_cmds := (o_cmds o ++ attempts tr)%list |}.

Definition order_init : order_obs :=
  {| o_mon := Some monitor_init; o_starts := []; o_cmds := [] |}.

(** The summary of a run that has completed phase [p] with [n] stages
    started: the monitor accepted everything, the last process of the phase
    left with status 0, and the first launch attempted was [check]. *)
Definition order_at (p : phase) (n : nat)
           (check : list string * string * list (string * string))
           (o : order_obs) : Prop :=
  o_mon o = Some {| m_phase := p; m_alive := false; m_clean := true |}
  /\ o_starts o = firstn n all_stages
  /\ hd_error (o_cmds o) = Some check.

(** The summary of a run that has just raised [e]. *)
Definition order_failed (check : list string * string * list (string * string))
           (e : exn) (o : order_obs) : Prop :=
  o_mon o <> None
  /\ (exists n, o_starts o = firstn n all_stages)
  /\ hd_error (o_cmds o) = Some check
  /\ is_banner (str_exn e) = false.

(** The stage in force after a piece of trace. *)
Fixpoint stage_after (cur : option stage) (tr : list event) : option stage :=
  match tr with
  | [] => cur
  | Log m :: rest =>
      match stage_of_msg m with
      | Some s => stage_after (Some s) rest
      | None => stage_after cur rest
      end
  | _ :: rest => stage_after cur rest
  end.

(** The files a stage works from: nothing for Fetch, then the artifacts of
    all the stages before it. *)
Definition inputs_of (video mp4 wav : string) (s : stage) : list string :=
  match s with
  | Fetch => []
  | Normalize => [video]
  | ExtractAudio => [video; mp4]
  | Transcribe => [video; mp4; wav]
  end.

(** Every process was launched on a file system holding the files that the
    stage in force works from ([cur] is the stage whose banner was seen
    last; before the first stage banner nothing is asked). *)
Fixpoint inputs_ready (need : stage -> list string) (cur : option stage)
         (tr : list event) : bool :=
  match tr with
  | [] => true
  | Log m :: rest =>
      match stage_of_msg m with
      | Some s => inputs_ready need (Some s) rest
      | None => inputs_ready need cur rest
      end
  | Spawn _ _ _ fs :: rest =>
      match cur with
      | Some s => forallb (isfile fs) (need s)
      | None => true
      end && inputs_ready need cur rest
  | NoSpawn _ _ _ fs :: rest =>
      match cur with
      | Some s => forallb (isfile fs) (need s)
      | None => true
      end && inputs_ready need cur rest
  | _ :: rest => inputs_ready need cur rest
  end.

(** The summary kept for the artifacts: the stage in force and whether every
    launch so far found its inputs. *)
Definition input_ext (need : stage -> list string) (o : option stage * bool)
           (tr : list event) : option stage * bool :=
  (stage_after (fst o) tr, snd o && inputs_ready need (fst o) tr).

(** The text path the Transcribe stage settles on, on the file system the
    engine left (lines 418-423). *)
Definition chosen_txt (fs : FS) (txt_dir workdir base : string) : string :=
  let txt_path := OsPath.join txt_dir (base ++ ".txt") in
  if isfile fs txt_path then txt_path
  else match sorted (txt_candidates (listdir fs workdir) base) with
       | c :: _ => OsPath.join workdir c
       | [] => txt_path
       end.

(** The fallback in the words of the specification: the lexicographically
    first [.txt] entry of the output directory whose name starts with the
    base. *)
Definition spec_txt_fallback (fs : FS) (out_dir base : string) : option string :=
  option_map (OsPath.join out_dir)
             (hd_error (sorted (txt_candidates (listdir fs out_dir) base))).

(** Whether a computation ended by raising. *)
Definition raised {H A} (r : Res H A) : bool :=
  match r_val r with inl _ => true | inr _ => false end.

(* ================================================================== *)
(** ** The controller as a state machine *)
(* ================================================================== *)

Section Controller.

Variable H : Type.
Variable exec : H -> FS -> list string -> string -> list (string * string) -> exec_result H.
Variable WHISPER_PROJECT_DIR : string.

(** The application object, the requests of the worker threads that were
    started and have not finished, and the machine. *)
Record Ctl := {
  c_app : App;
  c_jobs : list App;
  c_os : OS H
}.

Inductive input :=
| Edit (url workdir model lang : string)
| Press
| Finish.

Definition edit_fields (a : App) (url workdir model lang : string) : App :=
  {| python_exe := python_exe a; url_var := url; workdir_var := workdir;
     model_var := model; lang_var := lang;
     output_txt_var := output_txt_var a; status_var := status_var a;
     btn_run := btn_run a; btn_copy := btn_copy a; logfile_path := logfile_path a |}.

(** What the worker thread writes into the application object when it ends. *)
Definition publish (live done : App) : App :=
  {| python_exe := python_exe live; url_var := url_var live;
     workdir_var := workdir_var live;
     model_var := model_var live; lang_var := lang_var live;
     output_txt_var := output_txt_var done; status_var := status_var done;
     btn_run := btn_run done; btn_copy := btn_copy done;
     logfile_path := logfile_path live |}.

(** A press on the run button: Tk invokes the command of a button only while
    the button is not disabled. *)
Definition press_run (host : Host) (c : Ctl) : Ctl :=
  match btn_run (c_app c) with
  | disabled => c
  | normal =>
      let r := start_pipeline host (c_app c) (c_os c) in
      match r_val r with
      | inr (a', true) => {| c_app := a'; c_jobs := a' :: c_jobs c; c_os := r_os r |}
      | inr (a', false) => {| c_app := a'; c_jobs := c_jobs c; c_os := r_os r |}
      | inl _ => c
      end
  end.

Definition finish_job (host : Host) (c : Ctl) : Ctl :=
  match c_jobs c with
  | [] => c
  | job :: rest =>
      let r := _pipeline_thread exec WHISPER_PROJECT_DIR host job (c_os c) in
      match r_val r with
      | inr done => {| c_app := publish (c_app c) done; c_jobs := rest; c_os := r_os r |}
      | inl _ => c
      end
  end.

Definition ctl_step (host : Host) (c : Ctl) (i : input) : Ctl :=
  match i with
  | Edit u w m l =>
      {| c_app := edit_fields (c_app c) u w m l; c_jobs := c_jobs c; c_os := c_os c |}
  | Press => press_run host c
  | Finish => finish_job host c
  end.

(** The states the application can be in: it starts with an enabled run
    button and no worker, and moves by [ctl_step]. *)
Inductive reachable : Ctl -> Prop :=
| reach_init : forall a os,
    btn_run a = normal ->
    reachable {| c_app := a; c_jobs := []; c_os := os |}
| reach_step : forall host c i,
    reachable c -> reachable (ctl_step host c i).

Definition idle (c : Ctl) : bool :=
  match c_jobs c with [] => true | _ => false end.

End Controller.

Arguments c_app {H}.
Arguments c_jobs {H}.
Arguments c_os {H}.
Arguments Build_Ctl {H}.
Arguments press_run {H}.
Arguments finish_job {H}.
Arguments ctl_step {H}.
Arguments reachable {H}.
Arguments idle {H}.

(* ================================================================== *)
(** ** A scripted world, to run the model on concrete requests *)
(* ================================================================== *)

Module Demo.

(** How the three tools behave in one scripted world. *)
Record script := {
  s_check_rc : Z;
  s_fetch_rc : Z;
  s_fetch_prints : list string;
  s_video_name : option string;
  s_remux_rc : Z;
  s_reencode_rc : Z;
  s_wav_rc : Z;
  s_wav_pinned : bool;
  s_whisper_rc : Z;
  s_txt_suffix : option string
}.

Definition new_file (dir name : string) (pin : bool) : entry :=
  {| e_dir := dir; e_name := name; e_kind := RegularFile; e_pinned := pin |}.

Definition ffmpeg_writes (cmd : list string) (pin : bool) : list entry :=
  let out := List.last cmd "" in
  [new_file (OsPath.dirname out) (OsPath.basename out) pin].

Definition is_arg (cmd : list string) (n : nat) (s : string) : bool :=
  String.eqb (nth n cmd "") s.

(** What a tool prints, its exit status and the files it adds; the tool is
    recognised by its first arguments. *)
Definition tools_do (s : script) (cmd : list string) (cwd : string)
  : list string * Z * list entry :=
  if is_arg cmd 1 "-c" then (["OK: whisper importable"], s_check_rc s, [])
  else if is_arg cmd 0 "yt-dlp" then
    if (s_fetch_rc s =? 0)%Z then
      (s_fetch_prints s, 0%Z,
       match s_video_name s with
       | Some n => [new_file cwd n false]
       | None => []
       end)
    else (["ERROR: unable to download"], s_fetch_rc s, [])
  else if is_arg cmd 0 "ffmpeg" then
    if is_arg cmd 4 "-c:v" then
      if is_arg cmd 5 "copy" then
        if (s_remux_rc s =? 0)%Z then (["muxing"], 0%Z, ffmpeg_writes cmd false)
        else (["codec not supported"], s_remux_rc s, [])
      else
        if (s_reencode_rc s =? 0)%Z then (["encoding"], 0%Z, ffmpeg_writes cmd false)
        else (["encoder failed"], s_reencode_rc s, [])
    else
      if (s_wav_rc s =? 0)%Z then (["pcm"], 0%Z, ffmpeg_writes cmd (s_wav_pinned s))
      else (["no audio"], s_wav_rc s, [])
  else if is_arg cmd 1 "-m" && is_arg cmd 2 "whisper" then
    if (s_whisper_rc s =? 0)%Z then
      (["[00:00.000 --> 00:02.000] bonjour"], 0%Z,
       match s_txt_suffix s with
       | Some suf =>
           [new_file (nth 11 cmd "")
                     (fst (OsPath.splitext (OsPath.basename (nth 3 cmd ""))) ++ suf) false]
       | None => []
       end)
    else (["CUDA out of memory"], s_whisper_rc s, [])
  else ([], 127%Z, []).

(** The tools only ever add files. *)
Definition tools (s : script) (h : unit) (fs : FS) (cmd : list string) (cwd : string)
           (env : list (string * string)) : exec_result unit :=
  let '(lines, rc, new) := tools_do s cmd cwd in
  {| x_fault := None; x_lines := lines; x_rc := rc;
     x_disk := (fs ++ new)%list; x_hid := h |}.

(** The same tools, except that the output of the commands picked by [hit]
    cannot be decoded. *)
Definition undecodable (hit : list string -> bool)
           (oracle : unit -> FS -> list string -> string -> list (string * string)
                     -> exec_result unit)
           (h : unit) (fs : FS) (cmd : list string) (cwd : string)
           (env : list (string * string)) : exec_result unit :=
  let x := oracle h fs cmd cwd env in
  if hit cmd then
    {| x_fault := Some (DecodeError "utf-8" "byte 0xe9 in position 12: invalid continuation byte");
       x_lines := []; x_rc := 0; x_disk := x_disk x; x_hid := x_hid x |}
  else x.

(** The same tools, except that the commands picked by [hit] cannot be
    launched. *)
Definition unlaunchable (hit : list string -> bool)
           (oracle : unit -> FS -> list string -> string -> list (string * string)
                     -> exec_result unit)
           (h : unit) (fs : FS) (cmd : list string) (cwd : string)
           (env : list (string * string)) : exec_result unit :=
  let x := oracle h fs cmd cwd env in
  if hit cmd then
    {| x_fault := Some (SpawnError 2 "No such file or directory: '/home/u/whisper-gpu'");
       x_lines := []; x_rc := 0; x_disk := fs; x_hid := x_hid x |}
  else x.

(** The same tools, except that the commands picked by [hit] also remove
    the file at [victim]. *)
Definition removing (hit : list string -> bool) (victim : string)
           (oracle : unit -> FS -> list string -> string -> list (string * string)
                     -> exec_result unit)
           (h : unit) (fs : FS) (cmd : list string) (cwd : string)
           (env : list (string * string)) : exec_result unit :=
  let x := oracle h fs cmd cwd env in
  if hit cmd then
    {| x_fault := x_fault x; x_lines := x_lines x; x_rc := x_rc x;
       x_disk := filter (fun e => negb (String.eqb (entry_path e) victim)) (x_disk x);
       x_hid := x_hid x |}
  else x.

(** The commands told apart by their arguments. *)
Definition is_remux (cmd : list string) : bool := is_arg cmd 4 "-c:v" && is_arg cmd 5 "copy".
Definition is_wav_extract (cmd : list string) : bool := is_arg cmd 4 "-vn".
Definition is_check (cmd : list string) : bool := is_arg cmd 1 "-c".

(** Every tool does its work and writes the file it is asked for. *)
Definition all_well : script :=
  {| s_check_rc := 0; s_fetch_rc := 0;
     s_fetch_prints := ["/tmp/run1/video/Talk_abc_20240101.webm"];
     s_video_name := Some "Talk_abc_20240101.webm";
     s_remux_rc := 0; s_reencode_rc := 0; s_wav_rc := 0; s_wav_pinned := false;
     s_whisper_rc := 0; s_txt_suffix := Some ".txt" |}.

Definition with_txt (s : script) (suf : option string) : script :=
  {| s_check_rc := s_check_rc s; s_fetch_rc := s_fetch_rc s;
     s_fetch_prints := s_fetch_prints s; s_video_name := s_video_name s;
     s_remux_rc := s_remux_rc s; s_reencode_rc := s_reencode_rc s;
     s_wav_rc := s_wav_rc s; s_wav_pinned := s_wav_pinned s;
     s_whisper_rc := s_whisper_rc s; s_txt_suffix := suf |}.

Definition with_pinned_wav (s : script) : script :=
  {| s_check_rc := s_check_rc s; s_fetch_rc := s_fetch_rc s;
     s_fetch_prints := s_fetch_prints s; s_video_name := s_video_name s;
     s_remux_rc := s_remux_rc s; s_reencode_rc := s_reencode_rc s;
     s_wav_rc := s_wav_rc s; s_wav_pinned := true;
     s_whisper_rc := s_whisper_rc s; s_txt_suffix := s_txt_suffix s |}.

Definition with_remux_rc (s : script) (rc : Z) : script :=
  {| s_check_rc := s_check_rc s; s_fetch_rc := s_fetch_rc s;
     s_fetch_prints := s_fetch_prints s; s_video_name := s_video_name s;
     s_remux_rc := rc; s_reencode_rc := s_reencode_rc s;
     s_wav_rc := s_wav_rc s; s_wav_pinned := s_wav_pinned s;
     s_whisper_rc := s_whisper_rc s; s_txt_suffix := s_txt_suffix s |}.

Definition with_prints (s : script) (ls : list string) : script :=
  {| s_check_rc := s_check_rc s; s_fetch_rc := s_fetch_rc s;
     s_fetch_prints := ls; s_video_name := s_video_name s;
     s_remux_rc := s_remux_rc s; s_reencode_rc := s_reencode_rc s;
     s_wav_rc := s_wav_rc s; s_wav_pinned := s_wav_pinned s;
     s_whisper_rc := s_whisper_rc s; s_txt_suffix := s_txt_suffix s |}.

Definition host : Host :=
  {| getcwd := "/home/u"; today := "20240101";
     which := fun c => Some ("/usr/bin/" ++ c) |}.

(** The request of the end-to-end scenario. *)
Definition app : App :=
  {| python_exe := "/usr/bin/python3";
     url_var := "https://x/y"; workdir_var := "/tmp/run1";
     model_var := "small"; lang_var := "en";
     output_txt_var := ""; status_var := "Prêt";
     btn_run := normal; btn_copy := disabled; logfile_path := None |}.

Definition disk0 : FS :=
  [ {| e_dir := "/tmp"; e_name := "run1"; e_kind := Directory; e_pinned := false |} ].

Definition os0 : OS unit := {| disk := disk0; hid := tt |}.

Definition whisper_dir : string := "/home/u/whisper-gpu".

Definition run (s : script) : Res unit App :=
  _pipeline_thread (tools s) whisper_dir host app os0.

Definition video : string := "/tmp/run1/video/Talk_abc_20240101.webm".
Definition mp4 : string := "/tmp/run1/mp4/Talk_abc_20240101.mp4".
Definition wav : string := "/tmp/run1/mp4/Talk_abc_20240101.wav".
Definition txt : string := "/tmp/run1/txt/Talk_abc_20240101.txt".

Definition final_status (r : Res unit App) : string :=
  match r_val r with inr a => status_var a | inl _ => "" end.

Definition final_output (r : Res unit App) : string :=
  match r_val r with inr a => output_txt_var a | inl _ => "" end.

End Demo.

(* ================================================================== *)
(** ** Facts about strings, paths and the file system *)
(* ================================================================== *)

Lemma prefix_refl_app (b c : string) : String.prefix b (b ++ c) = true.
Proof.
  induction b as [|a b IH]; simpl; [destruct c; reflexivity|].
  destruct (ascii_dec a a); [exact IH | congruence].
Qed.

Lemma contains_middle (a b c : string) : PyStr.contains (a ++ b ++ c) b = true.
Proof.
  induction a as [|x a IH]; simpl.
  - assert (P := prefix_refl_app b c).
    destruct (b ++ c)%string; cbn [PyStr.contains]; rewrite P; reflexivity.
  - rewrite IH. apply orb_true_r.
Qed.

Lemma split_dot_concat (p a b : string) :
  OsPath.split_dot p = Some (a, b) -> (a ++ b = p)%string.
Proof.
  revert a b. induction p as [|c r IH]; simpl; intros a b E; [discriminate|].
  destruct (OsPath.split_dot r) as [[a' b']|].
  - inversion E; subst. simpl. f_equal. apply IH. reflexivity.
  - destruct (Ascii.eqb c "."); inversion E; subst. reflexivity.
Qed.

Lemma split_sep_concat (p : string) :
  (fst (OsPath.split_sep p) ++ snd (OsPath.split_sep p) = p)%string.
Proof.
  induction p as [|c r IH]; simpl; [reflexivity|].
  destruct (OsPath.split_sep r) as [h t]. simpl in IH.
  destruct (PyStr.truthy h) eqn:T; simpl.
  - f_equal. exact IH.
  - destruct h; [|discriminate]. simpl in IH. subst t.
    destruct (Ascii.eqb c "/") eqn:C; [|reflexivity].
    apply Ascii.eqb_eq in C. subst c. reflexivity.
Qed.

Lemma append_empty_r (s : string) : (s ++ "" = s)%string.
Proof. induction s; simpl; [reflexivity | f_equal; assumption]. Qed.

Lemma append_assoc3 (a b c : string) : ((a ++ b) ++ c = a ++ b ++ c)%string.
Proof. induction a; simpl; [reflexivity | f_equal; assumption]. Qed.

Lemma splitext_concat (p : string) :
  (fst (OsPath.splitext p) ++ snd (OsPath.splitext p) = p)%string.
Proof.
  unfold OsPath.splitext.
  pose proof (split_sep_concat p) as S.
  destruct (OsPath.split_sep p) as [h t]. simpl in S.
  destruct (OsPath.split_dot t) as [[a b]|] eqn:D.
  - destruct (OsPath.all_char "." a); simpl.
    + apply append_empty_r.
    + apply split_dot_concat in D. subst t.
      rewrite <- S. apply append_assoc3.
  - simpl. apply append_empty_r.
Qed.

(** The downloaded file's name is the common base followed by its extension. *)
Lemma base_of_names_video (d : string) :
  OsPath.basename d = (base_of d ++ snd (OsPath.splitext (OsPath.basename d)))%string.
Proof. unfold base_of. symmetry. apply splitext_concat. Qed.

Lemma isfile_app (fs1 fs2 : FS) (p : string) :
  isfile (fs1 ++ fs2)%list p = isfile fs1 p || isfile fs2 p.
Proof. unfold isfile. apply existsb_app. Qed.

Lemma isfile_makedirs (fs : FS) (d p : string) :
  isfile (makedirs fs d) p = isfile fs p.
Proof.
  unfold makedirs. destruct (exists_at fs d); [reflexivity|].
  rewrite isfile_app. simpl. unfold is_file_at. simpl. rewrite !orb_false_r. reflexivity.
Qed.

Lemma unlink_removes (fs fs' : FS) (p : string) :
  unlink fs p = Some fs' -> isfile fs' p = false.
Proof.
  unfold unlink. destruct (isfile fs p && negb (pinned_at fs p)); [|discriminate].
  intros E. inversion E; subst. clear E.
  unfold isfile. induction fs as [|e fs IH]; simpl; [reflexivity|].
  destruct (String.eqb (entry_path e) p) eqn:Q; simpl; [exact IH|].
  rewrite IH. unfold is_file_at. rewrite Q. destruct (e_kind e); reflexivity.
Qed.

Lemma unlink_keeps_others (fs fs' : FS) (p q : string) :
  unlink fs p = Some fs' -> q <> p -> isfile fs' q = isfile fs q.
Proof.
  unfold unlink. destruct (isfile fs p && negb (pinned_at fs p)); [|discriminate].
  intros E N. inversion E; subst. clear E.
  unfold isfile. induction fs as [|e fs IH]; simpl; [reflexivity|].
  destruct (String.eqb (entry_path e) p) eqn:Q; simpl.
  - rewrite IH. apply String.eqb_eq in Q.
    unfold is_file_at. destruct (e_kind e); [|reflexivity].
    destruct (String.eqb (entry_path e) q) eqn:Q'; [|reflexivity].
    apply String.eqb_eq in Q'. congruence.
  - rewrite IH. reflexivity.
Qed.

Lemma unlink_needs_file (fs : FS) (p : string) :
  isfile fs p = false -> unlink fs p = None.
Proof. unfold unlink. intros ->. reflexivity. Qed.

Lemma scan_video_find (fs : FS) (dir prefix : string) (names : list string) :
  scan_video fs dir prefix names =
  option_map (OsPath.join dir)
    (find (fun fn => PyStr.startswith fn prefix && isfile fs (OsPath.join dir fn)) names).
Proof.
  induction names as [|fn rest IH]; simpl; [reflexivity|].
  destruct (PyStr.startswith fn prefix); simpl; [|exact IH].
  destruct (isfile fs (OsPath.join dir fn)); simpl; [reflexivity | exact IH].
Qed.

(** The last element of a filtered-and-mapped list, when the tail after the
    last kept element is known. *)
Lemma last_nonblank (pre post : list string) (l : string) :
  PyStr.truthy (PyStr.strip l) = true ->
  Forall (fun b => PyStr.truthy (PyStr.strip b) = false) post ->
  PyStr.last_or_empty
    (map PyStr.strip
       (filter (fun l => PyStr.truthy (PyStr.strip l)) (pre ++ l :: post)%list))
  = PyStr.strip l.
Proof.
  intros T B. rewrite filter_app. simpl. rewrite T.
  assert (filter (fun l0 => PyStr.truthy (PyStr.strip l0)) post = []) as ->.
  { induction B as [|b post Hb _ IH]; simpl; [reflexivity|]. rewrite Hb. exact IH. }
  rewrite map_app. simpl. unfold PyStr.last_or_empty. apply last_last.
Qed.

Lemma all_blank_gives_empty (ls : list string) :
  Forall (fun b => PyStr.truthy (PyStr.strip b) = false) ls ->
  PyStr.last_or_empty
    (map PyStr.strip (filter (fun l => PyStr.truthy (PyStr.strip l)) ls)) = ""%string.
Proof.
  intros B.
  assert (filter (fun l0 => PyStr.truthy (PyStr.strip l0)) ls = []) as ->.
  { induction B as [|b post Hb _ IH]; simpl; [reflexivity|]. rewrite Hb. exact IH. }
  reflexivity.
Qed.

(* ================================================================== *)
(** ** Joining lines and splitting them again *)
(* ================================================================== *)

Lemma rev_cons (c : ascii) (s : string) :
  PyStr.rev (String c s) = PyStr.rev s ++ String c "".
Proof.
  unfold PyStr.rev. cbn [list_ascii_of_string List.rev].
  generalize (List.rev (list_ascii_of_string s)). intros l.
  induction l as [|x l IH]; cbn; [reflexivity | f_equal; exact IH].
Qed.

Lemma brk1_not_cr (a : nat) : PyStr.brk1 a = false -> (a =? 13)%nat = false.
Proof.
  intros B. destruct (Nat.eqb_spec a 13) as [E|N]; [subst a; discriminate B | reflexivity].
Qed.

(** Where no boundary starts, [splitlines] moves one byte on. *)
Lemma splitlines_step (cur : string) (c1 c2 : ascii) (r2 : string) :
  PyStr.no_break_at (String c1 (String c2 r2)) = true ->
  PyStr.splitlines_from cur (String c1 (String c2 r2))
  = PyStr.splitlines_from (String c1 cur) (String c2 r2).
Proof.
  cbn [PyStr.no_break_at]. intros N.
  apply andb_true_iff in N as [N1 N]. apply andb_true_iff in N as [N2 N3].
  apply negb_true_iff in N1, N2.
  cbn [PyStr.splitlines_from].
  rewrite (brk1_not_cr _ N1), N1, N2. cbn [andb].
  destruct r2 as [|c3 r3]; [reflexivity|].
  apply negb_true_iff in N3. rewrite N3. reflexivity.
Qed.

Lemma ord_lf : PyStr.ord (PyStr.chr 10) = 10%nat.
Proof. reflexivity. Qed.

(** A line without boundary, followed by a line feed, is cut at the feed. *)
Lemma splitlines_line (l cur rest : string) :
  PyStr.one_line l = true ->
  PyStr.splitlines_from cur (l ++ String (PyStr.chr 10) rest)
  = (PyStr.rev cur ++ l) :: PyStr.splitlines_from "" rest.
Proof.
  revert cur. induction l as [|c1 l IH]; intros cur O.
  - cbn [append]. rewrite append_empty_r.
    destruct rest as [|c2 r2]; cbn [PyStr.splitlines_from]; rewrite ord_lf; reflexivity.
  - cbn [PyStr.one_line] in O. apply andb_true_iff in O as [N O].
    cbn [append].
    assert (N' : PyStr.no_break_at (String c1 (l ++ String (PyStr.chr 10) rest)) = true).
    { cbn [PyStr.no_break_at] in N |- *.
      apply andb_true_iff in N as [N1 N]. rewrite N1. cbn [andb].
      destruct l as [|c2 l]; cbn [append].
      - rewrite ord_lf. unfold PyStr.brk2, PyStr.brk3. cbn [Nat.eqb].
        rewrite !andb_false_r. cbn [negb andb]. destruct rest; reflexivity.
      - apply andb_true_iff in N as [N2 N]. rewrite N2. cbn [andb].
        destruct l as [|c3 l]; cbn [append]; [|exact N].
        rewrite ord_lf. unfold PyStr.brk3. cbn [Nat.eqb orb].
        rewrite !andb_false_r. reflexivity. }
    pose proof (IH (String c1 cur) O) as IH'. clear IH.
    destruct (l ++ String (PyStr.chr 10) rest) as [|c2 r2] eqn:E.
    { destruct l; discriminate E. }
    rewrite (splitlines_step cur c1 c2 r2 N'), IH', rev_cons, append_assoc3.
    reflexivity.
Qed.

(** A last line without boundary comes out whole, unless it is empty. *)
Lemma splitlines_last (l cur : string) :
  PyStr.one_line l = true ->
  PyStr.splitlines_from cur l
  = if PyStr.truthy cur || PyStr.truthy l then [PyStr.rev cur ++ l] else [].
Proof.
  revert cur. induction l as [|c1 l IH]; intros cur O.
  - cbn [PyStr.splitlines_from PyStr.truthy]. rewrite orb_false_r, append_empty_r.
    reflexivity.
  - cbn [PyStr.one_line] in O. apply andb_true_iff in O as [N O].
    cbn [PyStr.truthy]. rewrite orb_true_r.
    destruct l as [|c2 l].
    + cbn [PyStr.no_break_at] in N. rewrite andb_true_r in N. apply negb_true_iff in N.
      cbn [PyStr.splitlines_from]. rewrite N, rev_cons. reflexivity.
    + rewrite (splitlines_step cur c1 c2 l N), (IH (String c1 cur) O).
      cbn [PyStr.truthy orb]. rewrite rev_cons, append_assoc3. reflexivity.
Qed.

(** Splitting the joined output gives the non-blank lines back: only an
    empty last line can be lost. *)
Lemma splitlines_join_nonblank (lines : list string) :
  forallb PyStr.one_line lines = true ->
  filter (fun l => PyStr.truthy (PyStr.strip l))
         (PyStr.splitlines (PyStr.join PyStr.LF lines))
  = filter (fun l => PyStr.truthy (PyStr.strip l)) lines.
Proof.
  unfold PyStr.splitlines, PyStr.join.
  induction lines as [|l ls IH]; intros O; [reflexivity|].
  cbn [forallb] in O. apply andb_true_iff in O as [Ol O].
  destruct ls as [|l2 ls].
  - cbn [String.concat]. rewrite (splitlines_last l "" Ol).
    cbn [PyStr.truthy orb]. destruct l as [|c l]; [reflexivity|].
    cbn [PyStr.truthy]. reflexivity.
  - change (String.concat PyStr.LF (l :: l2 :: ls))
      with (l ++ String (PyStr.chr 10) (String.concat PyStr.LF (l2 :: ls))).
    rewrite (splitlines_line l "" _ Ol).
    change (PyStr.rev "" ++ l) with l.
    cbn [filter]. rewrite (IH O). reflexivity.
Qed.

(** The candidate path of the Fetch stage is the last non-blank line the
    downloader printed, when no printed line holds a line boundary. *)
Lemma printed_path_last_line (lines : list string) :
  forallb PyStr.one_line lines = true ->
  printed_path (PyStr.join PyStr.LF lines) = last_nonblank_line lines.
Proof.
  intros O. unfold printed_path, last_nonblank_line.
  rewrite (splitlines_join_nonblank lines O). reflexivity.
Qed.

(* ================================================================== *)
(** ** The program logic *)
(* ================================================================== *)

Section Logic.
Variable H : Type.
Variable exec : H -> FS -> list string -> string -> list (string * string) -> exec_result H.
Variable W : string.

Lemma run_cmd_stream_eq cmd cwd env (os : OS H) :
  run_cmd_stream exec cmd cwd env os =
  let x := exec (hid os) (disk os) cmd cwd env in
  mkRes (launch_trace cmd cwd env (disk os) x)
        {| disk := disk_after (disk os) x; hid := x_hid x |}
        (if succeeded x then inr (PyStr.join PyStr.LF (x_lines x))
         else inl (failure_of x)).
Proof.
  unfold run_cmd_stream, bind, log, popen_stream, launch_trace, disk_after, succeeded,
    failure_of, proc_trace, refused_trace, undecoded_trace.
  cbn [r_val r_trace r_os]. cbv zeta.
  destruct (x_fault (exec (hid os) (disk os) cmd cwd env)) as [[n d|c d]|];
    cbn [r_val r_trace r_os app]; try reflexivity.
  destruct (x_rc _ =? 0)%Z; cbn; rewrite app_nil_r; reflexivity.
Qed.

(** *** Rules of the weakest precondition *)
Section Rules.
Context {O : Type}.
Variable ob : observer O.

Lemma wp_bind {A B} (c : OS H -> Res H A) (k : A -> OS H -> Res H B)
      (Q : B -> OS H -> O -> Prop) E os o :
  wp ob c (fun a os' o' => wp ob (k a) Q E os' o') E os o ->
  wp ob (bind c k) Q E os o.
Proof.
  unfold wp, bind. cbn zeta. destruct (r_val (c os)) as [e|a]; cbn [r_val r_os r_trace].
  - auto.
  - rewrite ext_app. auto.
Qed.

Lemma wp_mono {A} (c : OS H -> Res H A) (Q Q' : A -> OS H -> O -> Prop)
      (E E' : exn -> OS H -> O -> Prop) os o :
  wp ob c Q E os o ->
  (forall a os' o', Q a os' o' -> Q' a os' o') ->
  (forall e os' o', E e os' o' -> E' e os' o') ->
  wp ob c Q' E' os o.
Proof. unfold wp. cbn zeta. destruct (r_val (c os)); auto. Qed.

Lemma wp_ret {B} (b : B) (Q : B -> OS H -> O -> Prop) E os o :
  Q b os o -> wp ob (ret b) Q E os o.
Proof. unfold wp, ret. cbn. rewrite ext_nil. auto. Qed.

Lemma wp_raise {B} (e : exn) (Q : B -> OS H -> O -> Prop) E os o :
  E e os o -> wp ob (@raise H B e) Q E os o.
Proof. unfold wp, raise. cbn. rewrite ext_nil. auto. Qed.

Lemma wp_catch {A} (c : OS H -> Res H A) (Q : exn + A -> OS H -> O -> Prop) E os o :
  wp ob c (fun a => Q (inr a)) (fun e => Q (inl e)) os o ->
  wp ob (catch c) Q E os o.
Proof. unfold wp, catch. cbn. destruct (r_val (c os)); auto. Qed.

Lemma wp_log m (Q : unit -> OS H -> O -> Prop) E os o :
  Q tt os (ext ob o [Log m]) -> wp ob (log m) Q E os o.
Proof. unfold wp, log. cbn. auto. Qed.

Lemma wp_isfile p (Q : bool -> OS H -> O -> Prop) E os o :
  Q (isfile (disk os) p) os o -> wp ob (os_isfile p) Q E os o.
Proof. unfold wp, os_isfile. cbn. rewrite ext_nil. auto. Qed.

Lemma wp_listdir d (Q : list string -> OS H -> O -> Prop) E os o :
  Q (listdir (disk os) d) os o -> wp ob (os_listdir d) Q E os o.
Proof. unfold wp, os_listdir. cbn. rewrite ext_nil. auto. Qed.

Lemma wp_peek {A} (f : FS -> A) (Q : A -> OS H -> O -> Prop) E os o :
  Q (f (disk os)) os o -> wp ob (peek f) Q E os o.
Proof. unfold wp, peek. cbn. rewrite ext_nil. auto. Qed.

Lemma wp_makedirs p (Q : unit -> OS H -> O -> Prop) E os o :
  Q tt {| disk := makedirs (disk os) p; hid := hid os |} o ->
  wp ob (safe_makedirs p) Q E os o.
Proof. unfold wp, safe_makedirs. cbn. rewrite ext_nil. auto. Qed.

Lemma wp_remove p (Q : unit -> OS H -> O -> Prop) E os o :
  match unlink (disk os) p with
  | Some fs' => Q tt {| disk := fs'; hid := hid os |} (ext ob o [Unlink p])
  | None => E (OSError p) os o
  end ->
  wp ob (os_remove p) Q E os o.
Proof.
  unfold wp, os_remove. destruct (unlink (disk os) p); cbn; [|rewrite ext_nil]; auto.
Qed.

Lemma wp_run_cmd_stream cmd cwd env (Q : string -> OS H -> O -> Prop) E os o :
  (forall f lines rc fs' h',
      exec (hid os) (disk os) cmd cwd env
      = {| x_fault := f; x_lines := lines; x_rc := rc; x_disk := fs'; x_hid := h' |} ->
      match f with
      | None =>
          let o' := ext ob o (proc_trace cmd cwd env (disk os) lines rc) in
          let os' := {| disk := fs'; hid := h' |} in
          ((rc =? 0)%Z = true -> Q (PyStr.join PyStr.LF lines) os' o')
          /\ ((rc =? 0)%Z = false -> E (RuntimeError (msg_cmd_failed rc)) os' o')
      | Some (SpawnError n d) =>
          E (PopenError n d) {| disk := disk os; hid := h' |}
            (ext ob o (refused_trace cmd cwd env (disk os)))
      | Some (DecodeError c d) =>
          E (UnicodeDecodeError c d) {| disk := fs'; hid := h' |}
            (ext ob o (undecoded_trace cmd cwd env (disk os) lines))
      end) ->
  wp ob (run_cmd_stream exec cmd cwd env) Q E os o.
Proof.
  intros Hx. unfold wp. rewrite run_cmd_stream_eq. cbn zeta.
  destruct (exec (hid os) (disk os) cmd cwd env) as [f lines rc fs' h'] eqn:X.
  specialize (Hx f lines rc fs' h' eq_refl).
  unfold launch_trace, disk_after, succeeded, failure_of.
  cbn [x_fault x_rc x_lines x_disk x_hid].
  destruct f as [[n d|c d]|]; cbn [r_val r_os r_trace]; [exact Hx | exact Hx |].
  cbn in Hx. destruct Hx as [H0 H1]. destruct (rc =? 0)%Z; auto.
Qed.

End Rules.

(** A computation is known once its weakest precondition, with the whole
    trace as summary, pins down result, machine and trace. *)
Lemma wp_known {A} (c : OS H -> Res H A) (R : Res H A) os :
  wp trace_observer c
     (fun a os' tr => mkRes tr os' (inr a) = R)
     (fun e os' tr => mkRes tr os' (inl e) = R) os [] ->
  c os = R.
Proof.
  unfold wp. cbn zeta. generalize (c os). intros r. destruct r as [tr os' v].
  cbn [r_val r_trace r_os ext trace_observer app]. destruct v; auto.
Qed.

(** What a summary says about a finished computation. *)
Lemma wp_read {O A} (ob : observer O) (c : OS H -> Res H A) Q E os o :
  wp ob c Q E os o ->
  match r_val (c os) with
  | inr a => Q a (r_os (c os)) (ext ob o (r_trace (c os)))
  | inl e => E e (r_os (c os)) (ext ob o (r_trace (c os)))
  end.
Proof. unfold wp. cbv zeta. auto. Qed.

End Logic.

(* ================================================================== *)
(** ** Reading traces *)
(* ================================================================== *)

Lemma stage_starts_app (t1 t2 : list event) :
  stage_starts (t1 ++ t2) = (stage_starts t1 ++ stage_starts t2)%list.
Proof. apply flat_map_app. Qed.

Lemma spawned_app (t1 t2 : list event) :
  spawned (t1 ++ t2) = (spawned t1 ++ spawned t2)%list.
Proof. apply flat_map_app. Qed.

Lemma exits_app (t1 t2 : list event) :
  exits (t1 ++ t2) = (exits t1 ++ exits t2)%list.
Proof. apply flat_map_app. Qed.

Lemma unlinked_app (t1 t2 : list event) :
  unlinked (t1 ++ t2) = (unlinked t1 ++ unlinked t2)%list.
Proof. apply flat_map_app. Qed.

Lemma not_banner_head (c : ascii) (s : string) :
  Ascii.eqb c "[" = false -> is_banner (String c s) = false.
Proof.
  intros N. unfold is_banner, stage_of_msg, banner_check, banner_fetch,
    banner_normalize, banner_extract, banner_transcribe.
  cbn [String.eqb]. rewrite N. reflexivity.
Qed.

Lemma plain_stage (m : string) : is_banner m = false -> stage_of_msg m = None.
Proof.
  unfold is_banner. intros N. apply orb_false_iff in N as [_ N].
  destruct (stage_of_msg m); [discriminate | reflexivity].
Qed.

Lemma stage_starts_outs (ls : list string) : stage_starts (map Out ls) = [].
Proof. induction ls; simpl; auto. Qed.

Lemma spawned_outs (ls : list string) : spawned (map Out ls) = [].
Proof. induction ls; simpl; auto. Qed.

Lemma exits_outs (ls : list string) : exits (map Out ls) = [].
Proof. induction ls; simpl; auto. Qed.

Lemma unlinked_outs (ls : list string) : unlinked (map Out ls) = [].
Proof. induction ls; simpl; auto. Qed.

Lemma cmdline_plain (cmd : list string) : is_banner ("$ " ++ _pretty_cmd cmd) = false.
Proof. apply not_banner_head. reflexivity. Qed.

Lemma stage_starts_plain (m : string) :
  is_banner m = false -> stage_starts [Log m] = [].
Proof. intros N. unfold stage_starts. simpl. rewrite (plain_stage _ N). reflexivity. Qed.

Lemma proc_trace_split cmd cwd env fs lines rc :
  proc_trace cmd cwd env fs lines rc =
  ([Log ("$ " ++ _pretty_cmd cmd)] ++ [Spawn cmd cwd env fs] ++ map Out lines ++ [Exit rc])%list.
Proof. reflexivity. Qed.

Lemma stage_starts_proc cmd cwd env fs lines rc :
  stage_starts (proc_trace cmd cwd env fs lines rc) = [].
Proof.
  rewrite proc_trace_split.
  rewrite !stage_starts_app, stage_starts_outs, (stage_starts_plain _ (cmdline_plain cmd)).
  reflexivity.
Qed.

Lemma spawned_proc cmd cwd env fs lines rc :
  spawned (proc_trace cmd cwd env fs lines rc) = [cmd].
Proof.
  rewrite proc_trace_split.
  rewrite !spawned_app, spawned_outs. reflexivity.
Qed.

Lemma exits_proc cmd cwd env fs lines rc :
  exits (proc_trace cmd cwd env fs lines rc) = [rc].
Proof.
  rewrite proc_trace_split.
  rewrite !exits_app, exits_outs. reflexivity.
Qed.

Lemma unlinked_proc cmd cwd env fs lines rc :
  unlinked (proc_trace cmd cwd env fs lines rc) = [].
Proof.
  rewrite proc_trace_split.
  rewrite !unlinked_app, unlinked_outs. reflexivity.
Qed.

Lemma monitor_run_app (m : monitor) (t1 t2 : list event) :
  monitor_run m (t1 ++ t2) = monitor_then (monitor_run m t1) t2.
Proof.
  revert m. induction t1 as [|e t1 IH]; intros m; simpl; [reflexivity|].
  destruct (monitor_step m e); [apply IH | reflexivity].
Qed.

Lemma monitor_run_outs (m : monitor) (ls : list string) :
  monitor_run m (map Out ls) = Some m.
Proof. induction ls; simpl; auto. Qed.

Lemma monitor_plain (m : monitor) (msg : string) :
  is_banner msg = false -> monitor_run m [Log msg] = Some m.
Proof.
  intros N. simpl. unfold is_banner in N. apply orb_false_iff in N as [N1 N2].
  rewrite N1. destruct (stage_of_msg msg); [discriminate | reflexivity].
Qed.

Lemma monitor_proc (m : monitor) cmd cwd env fs lines rc :
  monitor_run m (proc_trace cmd cwd env fs lines rc) =
  match m_phase m with
  | Booting => None
  | p => if m_alive m then None
         else Some {| m_phase := p; m_alive := false; m_clean := (rc =? 0)%Z |}
  end.
Proof.
  rewrite proc_trace_split.
  rewrite monitor_run_app, (monitor_plain _ _ (cmdline_plain cmd)). cbn [monitor_then].
  rewrite monitor_run_app. cbn [monitor_run monitor_step].
  destruct (m_phase m); [reflexivity | |];
    (destruct (m_alive m); [reflexivity|]);
    cbn [monitor_then]; rewrite monitor_run_app, monitor_run_outs; reflexivity.
Qed.

Lemma monitor_banner_check (m : monitor) :
  monitor_run m [Log banner_check] =
  match m_phase m with
  | Booting => Some {| m_phase := Checking; m_alive := false; m_clean := false |}
  | _ => None
  end.
Proof. cbn. destruct (m_phase m); reflexivity. Qed.

Lemma monitor_banner (m : monitor) (s : stage) :
  monitor_run m [Log (banner_of s)] =
  if follows (m_phase m) s && negb (m_alive m) && m_clean m
  then Some {| m_phase := InStage s; m_alive := false; m_clean := false |}
  else None.
Proof.
  destruct s; cbn -[follows]; destruct (follows _ _ && _ && _); reflexivity.
Qed.

Lemma stage_starts_banner (s : stage) : stage_starts [Log (banner_of s)] = [s].
Proof. destruct s; reflexivity. Qed.

Lemma stage_starts_check : stage_starts [Log banner_check] = [].
Proof. reflexivity. Qed.

Lemma attempts_app (t1 t2 : list event) :
  attempts (t1 ++ t2) = (attempts t1 ++ attempts t2)%list.
Proof. apply flat_map_app. Qed.

Lemma abandoned_app (t1 t2 : list event) :
  abandoned (t1 ++ t2) = (abandoned t1 ++ abandoned t2)%list.
Proof. apply flat_map_app. Qed.

Lemma attempts_outs (ls : list string) : attempts (map Out ls) = [].
Proof. induction ls; simpl; auto. Qed.

Lemma abandoned_outs (ls : list string) : abandoned (map Out ls) = [].
Proof. induction ls; simpl; auto. Qed.

Lemma refused_trace_split cmd cwd env fs :
  refused_trace cmd cwd env fs
  = ([Log ("$ " ++ _pretty_cmd cmd)] ++ [NoSpawn cmd cwd env fs])%list.
Proof. reflexivity. Qed.

Lemma undecoded_trace_split cmd cwd env fs lines :
  undecoded_trace cmd cwd env fs lines
  = ([Log ("$ " ++ _pretty_cmd cmd)] ++ [Spawn cmd cwd env fs] ++ map Out lines
       ++ [Undecoded cmd])%list.
Proof. reflexivity. Qed.

Lemma attempts_proc cmd cwd env fs lines rc :
  attempts (proc_trace cmd cwd env fs lines rc) = [(cmd, cwd, env)].
Proof. rewrite proc_trace_split. rewrite !attempts_app, attempts_outs. reflexivity. Qed.

Lemma attempts_refused cmd cwd env fs :
  attempts (refused_trace cmd cwd env fs) = [(cmd, cwd, env)].
Proof. reflexivity. Qed.

Lemma attempts_undecoded cmd cwd env fs lines :
  attempts (undecoded_trace cmd cwd env fs lines) = [(cmd, cwd, env)].
Proof. rewrite undecoded_trace_split. rewrite !attempts_app, attempts_outs. reflexivity. Qed.

Lemma abandoned_proc cmd cwd env fs lines rc :
  abandoned (proc_trace cmd cwd env fs lines rc) = [].
Proof. rewrite proc_trace_split. rewrite !abandoned_app, abandoned_outs. reflexivity. Qed.

Lemma abandoned_refused cmd cwd env fs : abandoned (refused_trace cmd cwd env fs) = [].
Proof. reflexivity. Qed.

Lemma abandoned_undecoded cmd cwd env fs lines :
  abandoned (undecoded_trace cmd cwd env fs lines) = [cmd].
Proof. rewrite undecoded_trace_split. rewrite !abandoned_app, abandoned_outs. reflexivity. Qed.

Lemma stage_starts_refused cmd cwd env fs :
  stage_starts (refused_trace cmd cwd env fs) = [].
Proof.
  rewrite refused_trace_split, stage_starts_app, (stage_starts_plain _ (cmdline_plain cmd)).
  reflexivity.
Qed.

Lemma stage_starts_undecoded cmd cwd env fs lines :
  stage_starts (undecoded_trace cmd cwd env fs lines) = [].
Proof.
  rewrite undecoded_trace_split.
  rewrite !stage_starts_app, stage_starts_outs, (stage_starts_plain _ (cmdline_plain cmd)).
  reflexivity.
Qed.

Lemma spawned_refused cmd cwd env fs : spawned (refused_trace cmd cwd env fs) = [].
Proof. reflexivity. Qed.

Lemma spawned_undecoded cmd cwd env fs lines :
  spawned (undecoded_trace cmd cwd env fs lines) = [cmd].
Proof. rewrite undecoded_trace_split. rewrite !spawned_app, spawned_outs. reflexivity. Qed.

Lemma exits_refused cmd cwd env fs : exits (refused_trace cmd cwd env fs) = [].
Proof. reflexivity. Qed.

Lemma exits_undecoded cmd cwd env fs lines :
  exits (undecoded_trace cmd cwd env fs lines) = [].
Proof. rewrite undecoded_trace_split. rewrite !exits_app, exits_outs. reflexivity. Qed.

Lemma unlinked_refused cmd cwd env fs : unlinked (refused_trace cmd cwd env fs) = [].
Proof. reflexivity. Qed.

Lemma unlinked_undecoded cmd cwd env fs lines :
  unlinked (undecoded_trace cmd cwd env fs lines) = [].
Proof. rewrite undecoded_trace_split. rewrite !unlinked_app, unlinked_outs. reflexivity. Qed.

Lemma monitor_refused (m : monitor) cmd cwd env fs :
  monitor_run m (refused_trace cmd cwd env fs) =
  match m_phase m with
  | Booting => None
  | p => if m_alive m then None
         else Some {| m_phase := p; m_alive := false; m_clean := false |}
  end.
Proof.
  rewrite refused_trace_split.
  rewrite monitor_run_app, (monitor_plain _ _ (cmdline_plain cmd)). cbn [monitor_then].
  cbn [monitor_run monitor_step].
  destruct (m_phase m); [reflexivity | |]; destruct (m_alive m); reflexivity.
Qed.

Lemma monitor_undecoded (m : monitor) cmd cwd env fs lines :
  monitor_run m (undecoded_trace cmd cwd env fs lines) =
  match m_phase m with
  | Booting => None
  | p => if m_alive m then None
         else Some {| m_phase := p; m_alive := false; m_clean := false |}
  end.
Proof.
  rewrite undecoded_trace_split.
  rewrite monitor_run_app, (monitor_plain _ _ (cmdline_plain cmd)). cbn [monitor_then].
  rewrite monitor_run_app. cbn [monitor_run monitor_step].
  destruct (m_phase m); [reflexivity | |];
    (destruct (m_alive m); [reflexivity|]);
    cbn [monitor_then]; rewrite monitor_run_app, monitor_run_outs; reflexivity.
Qed.

(** The message of a failed launch and of a failed decoding are not banners. *)
Lemma popen_error_plain (n : Z) (d : string) : is_banner (str_exn (PopenError n d)) = false.
Proof. reflexivity. Qed.

Lemma decode_error_plain (c d : string) :
  is_banner (str_exn (UnicodeDecodeError c d)) = false.
Proof. apply not_banner_head. reflexivity. Qed.

(** Whatever the outcome, a call of [run_cmd_stream] is one launch attempt,
    starts no stage and unlinks nothing. *)
Lemma attempts_launch {H} cmd cwd env fs (x : exec_result H) :
  attempts (launch_trace cmd cwd env fs x) = [(cmd, cwd, env)].
Proof.
  unfold launch_trace. destruct (x_fault x) as [[n d|c d]|].
  - apply attempts_refused.
  - apply attempts_undecoded.
  - apply attempts_proc.
Qed.

Lemma stage_starts_launch {H} cmd cwd env fs (x : exec_result H) :
  stage_starts (launch_trace cmd cwd env fs x) = [].
Proof.
  unfold launch_trace. destruct (x_fault x) as [[n d|c d]|].
  - apply stage_starts_refused.
  - apply stage_starts_undecoded.
  - apply stage_starts_proc.
Qed.

Lemma unlinked_launch {H} cmd cwd env fs (x : exec_result H) :
  unlinked (launch_trace cmd cwd env fs x) = [].
Proof.
  unfold launch_trace. destruct (x_fault x) as [[n d|c d]|].
  - apply unlinked_refused.
  - apply unlinked_undecoded.
  - apply unlinked_proc.
Qed.

Lemma launch_trace_head {H} cmd cwd env fs (x : exec_result H) :
  exists t, launch_trace cmd cwd env fs x = Log ("$ " ++ _pretty_cmd cmd) :: t.
Proof.
  unfold launch_trace, refused_trace, undecoded_trace, proc_trace.
  destruct (x_fault x) as [[n d|c d]|]; eauto.
Qed.

Lemma succeeded_status {H} (x : exec_result H) :
  succeeded x = true <-> x_status x = Some 0%Z.
Proof.
  unfold succeeded, x_status. destruct (x_fault x); [split; discriminate|].
  split.
  - intros E. apply Z.eqb_eq in E. rewrite E. reflexivity.
  - intros E. inversion E as [E']. rewrite E'. reflexivity.
Qed.

(* ================================================================== *)
(** ** The ordering observer *)
(* ================================================================== *)

Lemma monitor_then_app (o : option monitor) (t1 t2 : list event) :
  monitor_then o (t1 ++ t2) = monitor_then (monitor_then o t1) t2.
Proof. destruct o; simpl; [apply monitor_run_app | reflexivity]. Qed.

Lemma order_ext_nil (o : order_obs) : order_ext o [] = o.
Proof.
  destruct o as [mo ss cs]. unfold order_ext. cbn.
  rewrite !app_nil_r. destruct mo; reflexivity.
Qed.

Lemma order_ext_app (o : order_obs) (t1 t2 : list event) :
  order_ext o (t1 ++ t2) = order_ext (order_ext o t1) t2.
Proof.
  unfold order_ext. cbn.
  rewrite monitor_then_app, stage_starts_app, attempts_app, !app_assoc. reflexivity.
Qed.

Definition order_observer : observer order_obs :=
  {| ext := order_ext; ext_nil := order_ext_nil; ext_app := order_ext_app |}.

Lemma order_plain mo ss cs (msg : string) :
  is_banner msg = false ->
  ext order_observer {| o_mon := mo; o_starts := ss; o_cmds := cs |} [Log msg]
  = {| o_mon := mo; o_starts := ss; o_cmds := cs |}.
Proof.
  intros N. cbn [ext order_observer]. unfold order_ext. cbn [o_mon o_starts o_cmds].
  rewrite (stage_starts_plain _ N). cbn [attempts flat_map app]. rewrite !app_nil_r.
  destruct mo; cbn [monitor_then]; [rewrite (monitor_plain _ _ N)|]; reflexivity.
Qed.

Lemma order_check m ss cs :
  ext order_observer {| o_mon := Some m; o_starts := ss; o_cmds := cs |} [Log banner_check]
  = {| o_mon := match m_phase m with
                | Booting => Some {| m_phase := Checking; m_alive := false;
                                     m_clean := false |}
                | _ => None
                end;
       o_starts := ss; o_cmds := cs |}.
Proof.
  cbn [ext order_observer]. unfold order_ext. cbn [o_mon o_starts o_cmds monitor_then].
  rewrite monitor_banner_check, stage_starts_check. cbn [attempts flat_map app].
  rewrite !app_nil_r. reflexivity.
Qed.

Lemma order_banner (s : stage) m ss cs :
  ext order_observer {| o_mon := Some m; o_starts := ss; o_cmds := cs |} [Log (banner_of s)]
  = {| o_mon := if follows (m_phase m) s && negb (m_alive m) && m_clean m
                then Some {| m_phase := InStage s; m_alive := false; m_clean := false |}
                else None;
       o_starts := (ss ++ [s])%list; o_cmds := cs |}.
Proof.
  cbn [ext order_observer]. unfold order_ext. cbn [o_mon o_starts o_cmds monitor_then].
  rewrite monitor_banner, stage_starts_banner. cbn [attempts flat_map app].
  rewrite !app_nil_r. reflexivity.
Qed.

Lemma order_proc m ss cs cmd cwd env fs lines rc :
  ext order_observer {| o_mon := Some m; o_starts := ss; o_cmds := cs |}
      (proc_trace cmd cwd env fs lines rc)
  = {| o_mon := match m_phase m with
                | Booting => None
                | p => if m_alive m then None
                       else Some {| m_phase := p; m_alive := false;
                                    m_clean := (rc =? 0)%Z |}
                end;
       o_starts := ss; o_cmds := (cs ++ [(cmd, cwd, env)])%list |}.
Proof.
  cbn [ext order_observer]. unfold order_ext. cbn [o_mon o_starts o_cmds monitor_then].
  rewrite monitor_proc, stage_starts_proc, attempts_proc, !app_nil_r. reflexivity.
Qed.

Lemma order_refused m ss cs cmd cwd env fs :
  ext order_observer {| o_mon := Some m; o_starts := ss; o_cmds := cs |}
      (refused_trace cmd cwd env fs)
  = {| o_mon := match m_phase m with
                | Booting => None
                | p => if m_alive m then None
                       else Some {| m_phase := p; m_alive := false; m_clean := false |}
                end;
       o_starts := ss; o_cmds := (cs ++ [(cmd, cwd, env)])%list |}.
Proof.
  cbn [ext order_observer]. unfold order_ext. cbn [o_mon o_starts o_cmds monitor_then].
  rewrite monitor_refused, stage_starts_refused, attempts_refused, !app_nil_r. reflexivity.
Qed.

Lemma order_undecoded m ss cs cmd cwd env fs lines :
  ext order_observer {| o_mon := Some m; o_starts := ss; o_cmds := cs |}
      (undecoded_trace cmd cwd env fs lines)
  = {| o_mon := match m_phase m with
                | Booting => None
                | p => if m_alive m then None
                       else Some {| m_phase := p; m_alive := false; m_clean := false |}
                end;
       o_starts := ss; o_cmds := (cs ++ [(cmd, cwd, env)])%list |}.
Proof.
  cbn [ext order_observer]. unfold order_ext. cbn [o_mon o_starts o_cmds monitor_then].
  rewrite monitor_undecoded, stage_starts_undecoded, attempts_undecoded, !app_nil_r.
  reflexivity.
Qed.

Lemma order_unlink mo ss cs p :
  ext order_observer {| o_mon := mo; o_starts := ss; o_cmds := cs |} [Unlink p]
  = {| o_mon := mo; o_starts := ss; o_cmds := cs |}.
Proof.
  cbn [ext order_observer]. unfold order_ext.
  cbn [o_mon o_starts o_cmds stage_starts attempts flat_map app].
  rewrite !app_nil_r. destruct mo; reflexivity.
Qed.

(** Where no process was given up, the two monitors agree. *)
Lemma strict_run_same (m : monitor) (tr : list event) :
  abandoned tr = [] -> strict_run m tr = monitor_run m tr.
Proof.
  revert m. induction tr as [|e tr IH]; intros m A; [reflexivity|].
  destruct e; cbn [abandoned flat_map app] in A; try discriminate A;
    cbn [strict_run monitor_run strict_step];
    (destruct (monitor_step m _) as [m'|]; [apply IH; exact A | reflexivity]).
Qed.

(* ================================================================== *)
(** ** Stage order *)
(* ================================================================== *)

Ltac wp_unfold :=
  match goal with
  | |- wp _ (_pipeline_thread _ _ _ _) _ _ _ _ => unfold _pipeline_thread
  | |- wp _ (pipeline_body _ _ _ _) _ _ _ _ => unfold pipeline_body
  | |- wp _ (pipeline_fetch _ _ _ _) _ _ _ _ => unfold pipeline_fetch
  | |- wp _ (pipeline_rest _ _ _ _ _) _ _ _ _ => unfold pipeline_rest
  | |- wp _ (pipeline_normalize _ _ _ _) _ _ _ _ => unfold pipeline_normalize
  | |- wp _ (pipeline_extract _ _ _) _ _ _ _ => unfold pipeline_extract
  | |- wp _ (pipeline_transcribe _ _ _ _ _ _ _ _ _) _ _ _ _ => unfold pipeline_transcribe
  | |- wp _ (ensure_whisper_available _ _ _) _ _ _ _ => unfold ensure_whisper_available
  | |- wp _ (download_youtube _ _ _ _) _ _ _ _ => unfold download_youtube
  | |- wp _ (to_mp4 _ _ _ _) _ _ _ _ => unfold to_mp4
  | |- wp _ (mp4_to_wav _ _ _) _ _ _ _ => unfold mp4_to_wav
  | |- wp _ (run_whisper _ _ _ _ _ _ _) _ _ _ _ => unfold run_whisper
  end.

(** One step through a program; [simp] tidies the summary after an event. *)
Ltac wp_step simp :=
  lazymatch goal with
  | |- wp _ (bind _ _) _ _ _ _ => apply wp_bind
  | |- wp _ (ret _) _ _ _ _ => apply wp_ret
  | |- wp _ (raise _) _ _ _ _ => apply wp_raise
  | |- wp _ (catch _) _ _ _ _ => apply wp_catch
  | |- wp _ (log _) _ _ _ _ => apply wp_log; simp
  | |- wp _ (os_isfile _) _ _ _ _ => apply wp_isfile
  | |- wp _ (os_listdir _) _ _ _ _ => apply wp_listdir
  | |- wp _ (peek _) _ _ _ _ => apply wp_peek
  | |- wp _ (safe_makedirs _) _ _ _ _ => apply wp_makedirs
  | |- wp _ (os_remove _) _ _ _ _ => apply wp_remove
  | |- wp _ (run_cmd_stream _ _ _ _) _ _ _ _ =>
      let f := fresh "f" in
      apply wp_run_cmd_stream; intros f ? ? ? ? ?;
      destruct f as [[? ?|? ?]|]; cbn beta iota zeta;
      [simp | simp | split; intros ?; simp]
  | |- wp _ (if ?b then _ else _) _ _ _ _ => destruct b eqn:?
  | |- wp _ (match ?x with _ => _ end) _ _ _ _ => destruct x eqn:?
  | |- match ?x with Some _ => _ | None => _ end => destruct x eqn:?; simp
  | |- _ => wp_unfold
  end.

Ltac wp_go simp := repeat (cbn beta iota zeta; cbn [disk hid]; wp_step simp).

Ltac plain :=
  first [ apply cmdline_plain
        | apply popen_error_plain
        | apply decode_error_plain
        | apply not_banner_head; reflexivity
        | unfold msg_cmd_failed, str_exn; cbn [append]; apply not_banner_head; reflexivity ].

Ltac use_rc :=
  repeat match goal with
         | Hx : (?rc =? 0)%Z = _ |- context [(?rc =? 0)%Z] => rewrite Hx
         end.

Ltac order_simp :=
  first
    [ rewrite order_proc; cbn [m_phase m_alive m_clean]; use_rc
    | rewrite order_refused; cbn [m_phase m_alive m_clean]
    | rewrite order_undecoded; cbn [m_phase m_alive m_clean]
    | rewrite order_unlink
    | rewrite order_check; cbn [m_phase m_alive m_clean]
    | rewrite (order_banner Fetch); cbn [m_phase m_alive m_clean follows negb andb app]
    | rewrite (order_banner Normalize); cbn [m_phase m_alive m_clean follows negb andb app]
    | rewrite (order_banner ExtractAudio); cbn [m_phase m_alive m_clean follows negb andb app]
    | rewrite (order_banner Transcribe); cbn [m_phase m_alive m_clean follows negb andb app]
    | rewrite order_plain by plain
    | idtac ].


Ltac prefix_of_stages :=
  first [ exists 0%nat; reflexivity | exists 1%nat; reflexivity | exists 2%nat; reflexivity
        | exists 3%nat; reflexivity | exists 4%nat; reflexivity ].

Lemma hd_error_app {A} (l l' : list A) (x : A) :
  hd_error l = Some x -> hd_error (l ++ l') = Some x.
Proof. destruct l; simpl; [discriminate | auto]. Qed.

Ltac order_leaf :=
  unfold order_at, order_failed;
  cbn [o_mon o_starts o_cmds str_exn firstn all_stages app];
  repeat match goal with
         | |- _ /\ _ => split
         | |- Some _ <> None => discriminate
         | |- exists n, _ = firstn n all_stages => prefix_of_stages
         | |- hd_error _ = Some _ => repeat apply hd_error_app; first [assumption | reflexivity]
         | |- is_banner _ = false => plain
         | |- _ = _ => reflexivity
         end.

Ltac order_open :=
  cbn beta in *;
  lazymatch goal with
  | Hat : order_at _ _ _ ?o |- _ =>
      destruct o as [mo ss cs]; destruct Hat as (Hm & Hs & Hc);
      cbn [o_mon o_starts o_cmds] in Hm, Hs, Hc; subst mo ss
  end.

Section Ordering.
Variable H : Type.
Variable exec : H -> FS -> list string -> string -> list (string * string) -> exec_result H.
Variable WHISPER_PROJECT_DIR : string.

Lemma order_fetch host a (os : OS H) :
  wp order_observer (pipeline_fetch exec WHISPER_PROJECT_DIR host a)
     (fun _ _ o => order_at (InStage Fetch) 1 (whisper_check_cmd (python_exe a), WHISPER_PROJECT_DIR, unbuffered) o)
     (fun e _ o => order_failed (whisper_check_cmd (python_exe a), WHISPER_PROJECT_DIR, unbuffered) e o)
     os order_init.
Proof.
  unfold order_init, monitor_init. wp_go order_simp. all: order_leaf.
Qed.

Lemma order_normalize c d dir p (os : OS H) o :
  order_at (InStage Fetch) 1 c o ->
  wp order_observer (pipeline_normalize exec d dir p)
     (fun _ _ o => order_at (InStage Normalize) 2 c o)
     (fun e _ o => order_failed c e o) os o.
Proof. intros Hat. order_open. wp_go order_simp. all: order_leaf. Qed.

Lemma order_extract c m w (os : OS H) o :
  order_at (InStage Normalize) 2 c o ->
  wp order_observer (pipeline_extract exec m w)
     (fun _ _ o => order_at (InStage ExtractAudio) 3 c o)
     (fun e _ o => order_failed c e o) os o.
Proof. intros Hat. order_open. wp_go order_simp. all: order_leaf. Qed.

Lemma order_transcribe c py w td wd b m l (os : OS H) o :
  order_at (InStage ExtractAudio) 3 c o ->
  wp order_observer (pipeline_transcribe exec WHISPER_PROJECT_DIR py w td wd b m l)
     (fun _ _ o => order_at (InStage Transcribe) 4 c o)
     (fun e _ o => order_failed c e o) os o.
Proof. intros Hat. order_open. wp_go order_simp. all: order_leaf. Qed.

Lemma order_rest c host a d (os : OS H) o :
  order_at (InStage Fetch) 1 c o ->
  wp order_observer (pipeline_rest exec WHISPER_PROJECT_DIR host a d)
     (fun _ _ o => order_at (InStage Transcribe) 4 c o)
     (fun e _ o => order_failed c e o) os o.
Proof.
  intros Hat. unfold pipeline_rest.
  apply wp_bind, wp_log. apply wp_bind, wp_log.
  assert (order_at (InStage Fetch) 1 c
            (ext order_observer
               (ext order_observer o [Log ("✅ Vidéo: " ++ d)])
               [Log ("Base commune: " ++ base_of d)])) as Hat'.
  { order_open. rewrite !order_plain by plain. order_leaf. }
  apply wp_bind.
  eapply wp_mono; [apply (order_normalize c); exact Hat' | | auto].
  intros u1 os1 o1 H1. cbn beta. apply wp_bind.
  eapply wp_mono; [apply (order_extract c); exact H1 | | auto].
  intros u2 os2 o2 H2. cbn beta.
  apply (order_transcribe c). exact H2.
Qed.

Lemma pipeline_thread_order host a (os : OS H) :
  wp order_observer (_pipeline_thread exec WHISPER_PROJECT_DIR host a)
     (fun a' _ o =>
        o_mon o <> None
        /\ (exists n, o_starts o = firstn n all_stages)
        /\ hd_error (o_cmds o) = Some (whisper_check_cmd (python_exe a), WHISPER_PROJECT_DIR, unbuffered)
        /\ (status_var a' = status_done -> o_starts o = all_stages))
     (fun _ _ _ => False) os order_init.
Proof.
  unfold _pipeline_thread, pipeline_body.
  apply wp_bind, wp_catch, wp_bind.
  eapply wp_mono; [apply order_fetch | | ].
  - intros d os1 o1 H1. cbn beta. apply wp_bind.
    eapply wp_mono; [apply (order_rest (whisper_check_cmd (python_exe a), WHISPER_PROJECT_DIR, unbuffered) host a d); exact H1 | | ].
    + intros t os2 o2 H2. clear H1. cbn beta. apply wp_ret.
      order_open. wp_go order_simp.
      cbn [o_mon o_starts o_cmds status_var set_btn_run set_status set_btn_copy
           set_output_txt].
      repeat split; [discriminate | prefix_of_stages | assumption].
    + intros e os2 o2 (M & S & C & N). cbn beta.
      destruct o2 as [mo ss cs]. cbn [o_mon o_starts o_cmds] in *.
      wp_go order_simp. rewrite order_plain by exact N.
      wp_go order_simp. cbn [o_mon o_starts o_cmds status_var set_btn_run set_status].
      repeat split; auto. intros X. unfold status_error, status_done in X. discriminate X.
  - intros e os2 o2 (M & S & C & N). cbn beta.
    destruct o2 as [mo ss cs]. cbn [o_mon o_starts o_cmds] in *.
    wp_go order_simp. rewrite order_plain by exact N.
    wp_go order_simp. cbn [o_mon o_starts o_cmds status_var set_btn_run set_status].
    repeat split; auto. intros X. unfold status_error, status_done in X. discriminate X.
Qed.

(** What the ordering summary of a finished computation says about its trace. *)
Lemma order_summary_read (check : list string * string * list (string * string))
      (c : OS H -> Res H App) (os : OS H) :
  wp order_observer c
     (fun a' _ o =>
        o_mon o <> None
        /\ (exists n, o_starts o = firstn n all_stages)
        /\ hd_error (o_cmds o) = Some check
        /\ (status_var a' = status_done -> o_starts o = all_stages))
     (fun _ _ _ => False) os order_init ->
  let r := c os in
  let tr := r_trace r in
  ordered tr = true
  /\ (exists n, stage_starts tr = firstn n all_stages)
  /\ hd_error (attempts tr) = Some check
  /\ raised r = false
  /\ (forall a', r_val r = inr a' -> status_var a' = status_done ->
                 stage_starts tr = all_stages).
Proof.
  unfold wp, raised, ordered. cbn zeta. generalize (c os). intros r.
  destruct r as [tr os' v]. cbn [r_val r_trace r_os].
  destruct v as [e|a']; [contradiction|].
  cbn [ext order_observer order_ext order_init o_mon o_starts o_cmds monitor_then app].
  intros (M & S & C & D). repeat split; auto.
  - destruct (monitor_run monitor_init tr); [reflexivity | congruence].
  - intros a'' E. inversion E; subst. exact D.
Qed.


End Ordering.

(* ================================================================== *)
(** ** The stages one by one *)
(* ================================================================== *)

Section Stages.
Variable H : Type.
Variable exec : H -> FS -> list string -> string -> list (string * string) -> exec_result H.
Variable WHISPER_PROJECT_DIR : string.

(** C7 (as amended).  [run_cmd_stream] raises whenever the process exits
    with a non-zero status; the failure is a [RuntimeError] whose message is
    made of the exit code alone, with nothing of the command in it; the
    command line is what is notified first, before anything is launched. *)
Theorem run_cmd_stream_failure cmd cwd env (os : OS H) :
  let x := exec (hid os) (disk os) cmd cwd env in
  let r := run_cmd_stream exec cmd cwd env os in
  (forall rc, x_status x = Some rc -> rc <> 0%Z ->
     r_val r = inl (RuntimeError ("Commande échouée (code " ++ PyStr.of_int rc ++ ").")))
  /\ (forall rc, PyStr.contains ("Commande échouée (code " ++ PyStr.of_int rc ++ ").")
                                (PyStr.of_int rc) = true)
  /\ hd_error (r_trace r) = Some (Log ("$ " ++ _pretty_cmd cmd))
  /\ hd_error (notifications (r_trace r)) = Some ("$ " ++ _pretty_cmd cmd).
Proof.
  cbn zeta. rewrite run_cmd_stream_eq. cbn zeta. cbn [r_val r_trace r_os].
  generalize (exec (hid os) (disk os) cmd cwd env). intros x.
  split; [|split; [|split]].
  - intros rc S N. unfold x_status in S. unfold succeeded, failure_of.
    destruct (x_fault x); [discriminate S|]. injection S as S'. rewrite S'.
    apply Z.eqb_neq in N. rewrite N. reflexivity.
  - intros rc. apply contains_middle.
  - destruct (launch_trace_head cmd cwd env (disk os) x) as [t ->]. reflexivity.
  - destruct (launch_trace_head cmd cwd env (disk os) x) as [t ->]. reflexivity.
Qed.

(** C8.  The command of the Transcribe stage is the fixed sixteen-argument
    head (module whisper on the WAV, the model, device cuda, task transcribe,
    the output directory, format txt, verbose True) followed by the language
    flag exactly when the language is not "auto"; [run_whisper] attempts that
    command and no other, once, with unbuffered output, in the whisper
    directory, and its trace is that of this one launch whatever becomes of
    it. *)
Theorem whisper_command python_exe wav_path out_dir model lang (os : OS H) :
  let cmd := explain_whisper_command python_exe wav_path out_dir model lang in
  let x := exec (hid os) (disk os) cmd WHISPER_PROJECT_DIR unbuffered in
  let tr := r_trace (run_whisper exec WHISPER_PROJECT_DIR python_exe wav_path out_dir
                                 model lang os) in
  firstn 16 cmd =
    [python_exe; "-m"; "whisper"; wav_path; "--model"; model; "--device"; "cuda";
     "--task"; "transcribe"; "--output_dir"; out_dir; "--output_format"; "txt";
     "--verbose"; "True"]
  /\ (skipn 16 cmd = ["--language"; lang] <-> lang <> "auto")
  /\ (skipn 16 cmd = [] <-> lang = "auto")
  /\ tr = launch_trace cmd WHISPER_PROJECT_DIR unbuffered (disk os) x
  /\ attempts tr = [(cmd, WHISPER_PROJECT_DIR, [("PYTHONUNBUFFERED", "1")])]
  /\ (x_fault x = None ->
      tr = proc_trace cmd WHISPER_PROJECT_DIR unbuffered (disk os) (x_lines x) (x_rc x)).
Proof.
  cbn zeta.
  assert (T : r_trace (run_whisper exec WHISPER_PROJECT_DIR python_exe wav_path out_dir
                                   model lang os)
              = launch_trace (explain_whisper_command python_exe wav_path out_dir model lang)
                  WHISPER_PROJECT_DIR unbuffered (disk os)
                  (exec (hid os) (disk os)
                        (explain_whisper_command python_exe wav_path out_dir model lang)
                        WHISPER_PROJECT_DIR unbuffered)).
  { unfold run_whisper, bind, ret. rewrite run_cmd_stream_eq. cbn zeta.
    cbn [r_val r_trace r_os].
    destruct (succeeded _); cbn [r_trace]; rewrite ?app_nil_r; reflexivity. }
  split; [|split; [|split; [|split; [exact T|split]]]].
  - unfold explain_whisper_command. destruct (negb (String.eqb lang "auto")); reflexivity.
  - unfold explain_whisper_command.
    destruct (String.eqb_spec lang "auto") as [E|N]; cbn [negb skipn app];
      split; try congruence; try discriminate; reflexivity.
  - unfold explain_whisper_command.
    destruct (String.eqb_spec lang "auto") as [E|N]; cbn [negb skipn app];
      split; try congruence; try discriminate; reflexivity.
  - rewrite T. apply attempts_launch.
  - intros F. rewrite T. unfold launch_trace. rewrite F. reflexivity.
Qed.

Lemma to_mp4_eq input mp4_dir mp4_path (os : OS H) :
  to_mp4 exec input mp4_dir mp4_path os =
  let fs1 := makedirs (disk os) mp4_dir in
  let x1 := exec (hid os) fs1 (remux_cmd input mp4_path) mp4_dir [] in
  let t1 := launch_trace (remux_cmd input mp4_path) mp4_dir [] fs1 x1 in
  let fs2 := disk_after fs1 x1 in
  if succeeded x1
  then mkRes t1 {| disk := fs2; hid := x_hid x1 |} (inr tt)
  else
    let x2 := exec (x_hid x1) fs2 (reencode_cmd input mp4_path) mp4_dir [] in
    mkRes (t1 ++ Log msg_remux_fallback
              :: launch_trace (reencode_cmd input mp4_path) mp4_dir [] fs2 x2)%list
          {| disk := disk_after fs2 x2; hid := x_hid x2 |}
          (if succeeded x2 then inr tt else inl (failure_of x2)).
Proof.
  unfold to_mp4, bind, catch, safe_makedirs, log, ret.
  cbn [r_val r_trace r_os disk hid app]. rewrite !run_cmd_stream_eq. cbn zeta.
  cbn [r_val r_trace r_os disk hid app].
  destruct (succeeded (exec (hid os) (makedirs (disk os) mp4_dir) _ _ _));
    cbn [r_val r_trace r_os disk hid app]; rewrite ?app_nil_r; [reflexivity|].
  rewrite !run_cmd_stream_eq. cbn zeta. cbn [r_val r_trace r_os disk hid app].
  destruct (succeeded (exec _ _ (reencode_cmd input mp4_path) _ _));
    cbn [r_val r_trace r_os disk hid app]; rewrite ?app_nil_r; reflexivity.
Qed.

(** C3.  In the Normalize stage the stream-copy command (ffmpeg copying the
    video stream, audio to AAC 192k, faststart) is attempted first.  When it
    does not succeed, and so whenever it exits with a non-zero status, the
    re-encode command (ffmpeg with libx264, preset veryfast, crf 22, audio
    as before) is attempted exactly once after it, and nothing else; when
    the stream-copy succeeds no other command is attempted; there are never
    more than two attempts.  The stage fails only when both commands failed,
    with the failure of the second, or when one of them succeeded and the
    MP4 is not on disk afterwards. *)
Theorem normalize_fallback input mp4_dir mp4_path (os : OS H) :
  let remux := ["ffmpeg"; "-y"; "-i"; input;
                "-c:v"; "copy"; "-c:a"; "aac"; "-b:a"; "192k";
                "-movflags"; "+faststart"; mp4_path] in
  let reencode := ["ffmpeg"; "-y"; "-i"; input;
                   "-c:v"; "libx264"; "-preset"; "veryfast"; "-crf"; "22";
                   "-c:a"; "aac"; "-b:a"; "192k";
                   "-movflags"; "+faststart"; mp4_path] in
  let fs1 := makedirs (disk os) mp4_dir in
  let x1 := exec (hid os) fs1 remux mp4_dir [] in
  let x2 := exec (x_hid x1) (disk_after fs1 x1) reencode mp4_dir [] in
  let r := pipeline_normalize exec input mp4_dir mp4_path os in
  let tr := r_trace r in
  (forall rc, x_status x1 = Some rc -> rc <> 0%Z ->
     attempts tr = [(remux, mp4_dir, []); (reencode, mp4_dir, [])])
  /\ (succeeded x1 = false ->
      attempts tr = [(remux, mp4_dir, []); (reencode, mp4_dir, [])])
  /\ (succeeded x1 = true -> attempts tr = [(remux, mp4_dir, [])])
  /\ (length (attempts tr) <= 2)%nat
  /\ (raised r = true <->
      (succeeded x1 = false /\ succeeded x2 = false)
      \/ ((succeeded x1 = true \/ succeeded x2 = true)
          /\ isfile (disk (r_os r)) mp4_path = false))
  /\ (succeeded x1 = false -> succeeded x2 = false -> r_val r = inl (failure_of x2))
  /\ ((succeeded x1 = true \/ succeeded x2 = true) ->
      isfile (disk (r_os r)) mp4_path = false ->
      r_val r = inl (RuntimeError "Conversion MP4 terminée, mais fichier MP4 introuvable.")).
Proof.
  cbn zeta.
  change ["ffmpeg"; "-y"; "-i"; input; "-c:v"; "copy"; "-c:a"; "aac"; "-b:a"; "192k";
          "-movflags"; "+faststart"; mp4_path] with (remux_cmd input mp4_path).
  change ["ffmpeg"; "-y"; "-i"; input; "-c:v"; "libx264"; "-preset"; "veryfast";
          "-crf"; "22"; "-c:a"; "aac"; "-b:a"; "192k"; "-movflags"; "+faststart"; mp4_path]
    with (reencode_cmd input mp4_path).
  change (RuntimeError "Conversion MP4 terminée, mais fichier MP4 introuvable.")
    with (RuntimeError msg_mp4_missing).
  unfold pipeline_normalize, bind, log, os_isfile, raised.
  cbn [r_val r_trace r_os app]. rewrite to_mp4_eq. cbn zeta.
  generalize (exec (hid os) (makedirs (disk os) mp4_dir) (remux_cmd input mp4_path) mp4_dir []).
  intros x1.
  generalize (exec (x_hid x1) (disk_after (makedirs (disk os) mp4_dir) x1)
                   (reencode_cmd input mp4_path) mp4_dir []).
  intros x2.
  assert (S1 : forall rc, x_status x1 = Some rc -> rc <> 0%Z -> succeeded x1 = false).
  { intros rc S N. destruct (succeeded x1) eqn:E; [|reflexivity].
    apply succeeded_status in E. rewrite E in S. inversion S. congruence. }
  destruct (succeeded x1) eqn:E1; cbn [r_val r_trace r_os disk hid].
  - destruct (isfile (disk_after (makedirs (disk os) mp4_dir) x1) mp4_path) eqn:F;
      cbn [negb r_val r_trace r_os disk hid raise ret];
      rewrite ?F, ?app_nil_r;
      change (Log banner_normalize :: ?l)%list with ([Log banner_normalize] ++ l)%list;
      rewrite ?attempts_app, ?attempts_launch;
      cbn [attempts flat_map app length];
      (split; [intros rc S N; specialize (S1 rc S N); discriminate S1|]);
      repeat split; try congruence; try lia; try tauto; try discriminate;
      try (intros [[? ?]|[? ?]]; congruence); try (intros; right; tauto).
  - destruct (succeeded x2) eqn:E2; cbn [r_val r_trace r_os disk hid].
    + destruct (isfile (disk_after (disk_after (makedirs (disk os) mp4_dir) x1) x2) mp4_path)
        eqn:F;
        cbn [negb r_val r_trace r_os disk hid raise ret];
        rewrite ?F, ?app_nil_r;
        change (Log banner_normalize :: ?l)%list with ([Log banner_normalize] ++ l)%list;
        change (Log msg_remux_fallback :: ?l)%list with ([Log msg_remux_fallback] ++ l)%list;
        rewrite ?attempts_app, ?attempts_launch;
        cbn [attempts flat_map app length];
        repeat split; try congruence; try lia; try tauto; try discriminate;
        try (intros [[? ?]|[? ?]]; congruence); try (intros; right; tauto).
    + change (Log banner_normalize :: ?l)%list with ([Log banner_normalize] ++ l)%list;
        change (Log msg_remux_fallback :: ?l)%list with ([Log msg_remux_fallback] ++ l)%list;
        rewrite ?attempts_app, ?attempts_launch;
        cbn [attempts flat_map app length];
        repeat split; try congruence; try lia; try tauto; try discriminate;
        try (intros [? | ?]; congruence).
Qed.

Lemma download_youtube_val url video_dir base (os : OS H) :
  let x := exec (hid os) (makedirs (disk os) video_dir)
                (ytdlp_cmd url video_dir base) video_dir [] in
  let cand := printed_path (PyStr.join PyStr.LF (x_lines x)) in
  r_val (download_youtube exec url video_dir base os) =
  if negb (succeeded x) then inl (failure_of x)
  else if PyStr.truthy cand && isfile (x_disk x) cand then inr cand
  else match first_entry_with_prefix (x_disk x) video_dir (base ++ ".") with
       | Some c => inr c
       | None => inl (RuntimeError msg_download_missing)
       end.
Proof.
  cbn zeta. unfold download_youtube, bind, safe_makedirs, os_isfile, os_listdir, peek, ret, raise.
  cbn [r_val r_trace r_os disk hid]. rewrite run_cmd_stream_eq. cbn zeta.
  cbn [r_val r_trace r_os disk hid].
  generalize (exec (hid os) (makedirs (disk os) video_dir)
                   (ytdlp_cmd url video_dir base) video_dir []). intros x.
  destruct (succeeded x) eqn:S; cbn [negb r_val r_trace r_os disk hid]; [|reflexivity].
  assert (D : disk_after (makedirs (disk os) video_dir) x = x_disk x).
  { unfold disk_after. unfold succeeded in S. destruct (x_fault x); [discriminate S|].
    reflexivity. }
  rewrite D.
  unfold first_entry_with_prefix. rewrite <- scan_video_find.
  destruct (PyStr.truthy (printed_path _)); cbn [andb r_val r_trace r_os disk hid].
  - destruct (isfile (x_disk x) _); cbn [r_val r_trace r_os disk hid]; [reflexivity|].
    destruct (scan_video _ _ _ _); reflexivity.
  - destruct (scan_video _ _ _ _); reflexivity.
Qed.

(** C4.  When the downloader was launched, its output read to the end and
    its exit status is 0, the Fetch stage takes a candidate from what the
    downloader printed and returns it if it is a regular file; otherwise it
    returns the first entry of the destination directory that is a regular
    file whose name starts with the literal part of the file-name template,
    [base_with_date ++ "."]; when neither exists it raises the download
    failure.  The candidate is the last non-blank line of the output,
    stripped; the output being the lines read from the downloader joined by
    line feeds, this is the last non-blank line the downloader printed: the
    last line [l] read that is followed by blank lines only.  (The lines as
    read hold no line feed or carriage return; the statement asks that they
    hold none of the rarer boundaries that [splitlines] also cuts at.)  Whatever the stage returns is a regular
    file.  A launch that does not succeed raises the runner's failure. *)
Theorem fetch_resolves url video_dir base (os : OS H) :
  let x := exec (hid os) (makedirs (disk os) video_dir)
                ["yt-dlp"; "--no-playlist"; "--restrict-filenames"; "-f"; "bv*+ba/best";
                 "-o"; OsPath.join video_dir (base ++ ".%(ext)s");
                 "--print"; "after_move:filepath"; url]
                video_dir [] in
  let cand := printed_path (PyStr.join PyStr.LF (x_lines x)) in
  r_val (download_youtube exec url video_dir base os) =
    (if negb (succeeded x) then inl (failure_of x)
     else if PyStr.truthy cand && isfile (x_disk x) cand then inr cand
     else match first_entry_with_prefix (x_disk x) video_dir (base ++ ".") with
          | Some c => inr c
          | None =>
              inl (RuntimeError
                     "Téléchargement terminé, mais fichier vidéo introuvable dans /video.")
          end)
  /\ cand = last_nonblank_line (PyStr.splitlines (PyStr.join PyStr.LF (x_lines x)))
  /\ (forallb PyStr.one_line (x_lines x) = true ->
      cand = last_nonblank_line (x_lines x))
  /\ (forall pre l post,
        forallb PyStr.one_line (x_lines x) = true ->
        x_lines x = (pre ++ l :: post)%list ->
        PyStr.truthy (PyStr.strip l) = true ->
        Forall (fun b => PyStr.truthy (PyStr.strip b) = false) post ->
        cand = PyStr.strip l)
  /\ (forallb PyStr.one_line (x_lines x) = true ->
      Forall (fun b => PyStr.truthy (PyStr.strip b) = false) (x_lines x) ->
      cand = "")
  /\ (forall d, r_val (download_youtube exec url video_dir base os) = inr d ->
                isfile (x_disk x) d = true).
Proof.
  cbn zeta.
  change ["yt-dlp"; "--no-playlist"; "--restrict-filenames"; "-f"; "bv*+ba/best";
          "-o"; OsPath.join video_dir (base ++ ".%(ext)s");
          "--print"; "after_move:filepath"; url] with (ytdlp_cmd url video_dir base).
  change (RuntimeError "Téléchargement terminé, mais fichier vidéo introuvable dans /video.")
    with (RuntimeError msg_download_missing).
  split; [apply download_youtube_val|]. split; [reflexivity|].
  split; [apply printed_path_last_line|]. split; [|split].
  - intros pre l post O S T B. rewrite (printed_path_last_line _ O).
    unfold last_nonblank_line. rewrite S. apply last_nonblank; assumption.
  - intros O B. rewrite (printed_path_last_line _ O).
    unfold last_nonblank_line. apply all_blank_gives_empty. exact B.
  - intros d. rewrite download_youtube_val. cbn zeta.
    generalize (exec (hid os) (makedirs (disk os) video_dir)
                   (ytdlp_cmd url video_dir base) video_dir []). intros x.
    destruct (succeeded x); cbn [negb]; [|discriminate].
    destruct (PyStr.truthy (printed_path _)) eqn:T; cbn [andb].
    + destruct (isfile (x_disk x) (printed_path _)) eqn:F.
      * intros E. inversion E; subst. exact F.
      * unfold first_entry_with_prefix.
        destruct (find _ _) eqn:Fd; cbn [option_map]; [|discriminate].
        intros E. inversion E; subst. apply find_some in Fd as [_ Fd].
        apply andb_true_iff in Fd. tauto.
    + unfold first_entry_with_prefix.
      destruct (find _ _) eqn:Fd; cbn [option_map]; [|discriminate].
      intros E. inversion E; subst. apply find_some in Fd as [_ Fd].
      apply andb_true_iff in Fd. tauto.
Qed.

(** C10.  When the downloader exits with status 0 and prints no line at all,
    the candidate path is the empty string and the Fetch stage goes on to the
    directory scan: it returns the first matching regular file, and raises
    its download failure only when the scan finds none. *)
Theorem fetch_silent url video_dir base (os : OS H) :
  let x := exec (hid os) (makedirs (disk os) video_dir)
                (ytdlp_cmd url video_dir base) video_dir [] in
  x_lines x = [] ->
  x_status x = Some 0%Z ->
  printed_path (PyStr.join PyStr.LF (x_lines x)) = ""
  /\ r_val (download_youtube exec url video_dir base os) =
     match first_entry_with_prefix (x_disk x) video_dir (base ++ ".") with
     | Some c => inr c
     | None => inl (RuntimeError msg_download_missing)
     end.
Proof.
  cbn zeta. intros L R. rewrite download_youtube_val. cbn zeta.
  apply succeeded_status in R. rewrite L, R. split; reflexivity.
Qed.

End Stages.

(* ================================================================== *)
(** ** The Transcribe stage and the WAV *)
(* ================================================================== *)

Section Cleanup.
Variable H : Type.
Variable exec : H -> FS -> list string -> string -> list (string * string) -> exec_result H.
Variable WHISPER_PROJECT_DIR : string.

Lemma pipeline_transcribe_eq py wav txt_dir workdir base model lang (os : OS H) :
  pipeline_transcribe exec WHISPER_PROJECT_DIR py wav txt_dir workdir base model lang os =
  let cmd := explain_whisper_command py wav txt_dir model lang in
  let x := exec (hid os) (disk os) cmd WHISPER_PROJECT_DIR unbuffered in
  let t0 := (Log banner_transcribe
               :: launch_trace cmd WHISPER_PROJECT_DIR unbuffered (disk os) x)%list in
  if succeeded x then
    let t := chosen_txt (x_disk x) txt_dir workdir base in
    match unlink (x_disk x) wav with
    | Some fs' =>
        mkRes (t0 ++ [Unlink wav; Log msg_wav_removed])%list
              {| disk := fs'; hid := x_hid x |}
              (if isfile fs' t then inr t else inl (RuntimeError msg_txt_missing))
    | None =>
        mkRes t0 {| disk := x_disk x; hid := x_hid x |}
              (if isfile (x_disk x) t then inr t else inl (RuntimeError msg_txt_missing))
    end
  else mkRes t0 {| disk := disk_after (disk os) x; hid := x_hid x |} (inl (failure_of x)).
Proof.
  apply wp_known. wp_go idtac.
  all: cbn zeta; cbn [disk hid] in *;
    repeat match goal with
           | Hn : negb _ = true |- _ => apply negb_true_iff in Hn
           | Hn : negb _ = false |- _ => apply negb_false_iff in Hn
           end;
    repeat match goal with
           | Hx : exec _ _ _ _ _ = _ |- _ => rewrite Hx; clear Hx
           end;
    unfold succeeded, launch_trace, disk_after, failure_of;
    cbn [x_fault x_rc x_lines x_disk x_hid ext trace_observer]; unfold chosen_txt;
    repeat match goal with
           | Hb : _ = _ |- _ => rewrite Hb
           end;
    cbn [negb]; rewrite <- ?app_assoc; cbn [app]; try reflexivity; try congruence.
Qed.


End Cleanup.

(* ================================================================== *)
(** ** The artifact observer *)
(* ================================================================== *)

Lemma stage_after_app (cur : option stage) (t1 t2 : list event) :
  stage_after cur (t1 ++ t2) = stage_after (stage_after cur t1) t2.
Proof.
  revert cur. induction t1 as [|e t1 IH]; intros cur; simpl; [reflexivity|].
  destruct e; auto. destruct (stage_of_msg msg); auto.
Qed.

Lemma inputs_ready_app need (cur : option stage) (t1 t2 : list event) :
  inputs_ready need cur (t1 ++ t2) =
  inputs_ready need cur t1 && inputs_ready need (stage_after cur t1) t2.
Proof.
  revert cur. induction t1 as [|e t1 IH]; intros cur; simpl; [reflexivity|].
  destruct e; auto.
  - destruct (stage_of_msg msg); auto.
  - rewrite IH. apply andb_assoc.
  - rewrite IH. apply andb_assoc.
Qed.

Lemma input_ext_nil need (o : option stage * bool) : input_ext need o [] = o.
Proof. destruct o as [cur b]. unfold input_ext. simpl. rewrite andb_true_r. reflexivity. Qed.

Lemma input_ext_app need (o : option stage * bool) (t1 t2 : list event) :
  input_ext need o (t1 ++ t2) = input_ext need (input_ext need o t1) t2.
Proof.
  destruct o as [cur b]. unfold input_ext. simpl.
  rewrite stage_after_app, inputs_ready_app, andb_assoc. reflexivity.
Qed.

Definition input_observer (need : stage -> list string) : observer (option stage * bool) :=
  {| ext := input_ext need; ext_nil := input_ext_nil need; ext_app := input_ext_app need |}.

Lemma input_plain need cur b (msg : string) :
  is_banner msg = false ->
  ext (input_observer need) (cur, b) [Log msg] = (cur, b).
Proof.
  intros N. cbn [ext input_observer]. unfold input_ext. simpl.
  rewrite (plain_stage _ N), andb_true_r. reflexivity.
Qed.

Lemma input_banner need cur b (s : stage) :
  ext (input_observer need) (cur, b) [Log (banner_of s)] = (Some s, b).
Proof.
  cbn [ext input_observer]. unfold input_ext.
  destruct s; simpl; rewrite andb_true_r; reflexivity.
Qed.

Lemma input_check need cur b :
  ext (input_observer need) (cur, b) [Log banner_check] = (cur, b).
Proof.
  cbn [ext input_observer]. unfold input_ext. cbn [fst snd stage_after inputs_ready].
  replace (stage_of_msg banner_check) with (@None stage) by reflexivity.
  rewrite andb_true_r. reflexivity.
Qed.

Lemma input_unlink need cur b p :
  ext (input_observer need) (cur, b) [Unlink p] = (cur, b).
Proof. cbn [ext input_observer]. unfold input_ext. simpl. rewrite andb_true_r. reflexivity. Qed.

Lemma stage_after_outs cur (ls : list string) : stage_after cur (map Out ls) = cur.
Proof. induction ls; simpl; auto. Qed.

Lemma inputs_ready_outs need cur (ls : list string) :
  inputs_ready need cur (map Out ls) = true.
Proof. induction ls; simpl; auto. Qed.

Lemma input_proc need cur b cmd cwd env fs lines rc :
  ext (input_observer need) (cur, b) (proc_trace cmd cwd env fs lines rc)
  = (cur, b && match cur with
               | Some s => forallb (isfile fs) (need s)
               | None => true
               end).
Proof.
  cbn [ext input_observer]. unfold input_ext. cbn [fst snd].
  rewrite proc_trace_split, !stage_after_app, !inputs_ready_app.
  rewrite stage_after_outs, inputs_ready_outs.
  pose proof (plain_stage _ (cmdline_plain cmd)) as P.
  cbn [stage_after inputs_ready]. rewrite P. cbn [stage_after inputs_ready].
  rewrite !andb_true_r. reflexivity.
Qed.

Lemma input_refused need cur b cmd cwd env fs :
  ext (input_observer need) (cur, b) (refused_trace cmd cwd env fs)
  = (cur, b && match cur with
               | Some s => forallb (isfile fs) (need s)
               | None => true
               end).
Proof.
  cbn [ext input_observer]. unfold input_ext, refused_trace. cbn [fst snd].
  pose proof (plain_stage _ (cmdline_plain cmd)) as P.
  cbn [stage_after inputs_ready]. rewrite P. cbn [stage_after inputs_ready].
  rewrite !andb_true_r. reflexivity.
Qed.

Lemma input_undecoded need cur b cmd cwd env fs lines :
  ext (input_observer need) (cur, b) (undecoded_trace cmd cwd env fs lines)
  = (cur, b && match cur with
               | Some s => forallb (isfile fs) (need s)
               | None => true
               end).
Proof.
  cbn [ext input_observer]. unfold input_ext. cbn [fst snd].
  rewrite undecoded_trace_split, !stage_after_app, !inputs_ready_app.
  rewrite stage_after_outs, inputs_ready_outs.
  pose proof (plain_stage _ (cmdline_plain cmd)) as P.
  cbn [stage_after inputs_ready]. rewrite P. cbn [stage_after inputs_ready].
  rewrite !andb_true_r. reflexivity.
Qed.

Lemma join_starts_same (b s1 s2 : string) :
  PyStr.startswith s1 "/" = false -> PyStr.startswith s2 "/" = false ->
  PyStr.truthy s1 = true -> PyStr.truthy s2 = true ->
  PyStr.startswith (b ++ s1) "/" = PyStr.startswith (b ++ s2) "/".
Proof.
  unfold PyStr.startswith. intros A1 A2 T1 T2.
  destruct b as [|c b].
  - simpl. rewrite A1, A2. reflexivity.
  - cbn [append String.prefix].
    destruct (b ++ s1)%string, (b ++ s2)%string; reflexivity.
Qed.

Lemma append_inj_l (a x y : string) : (a ++ x = a ++ y)%string -> x = y.
Proof. induction a; simpl; intros E; [exact E | inversion E; auto]. Qed.

Lemma rev_string_append (a b : string) : PyStr.rev (a ++ b) = (PyStr.rev b ++ PyStr.rev a)%string.
Proof.
  unfold PyStr.rev.
  assert (L : forall x y, list_ascii_of_string (x ++ y)
                         = (list_ascii_of_string x ++ list_ascii_of_string y)%list).
  { induction x; simpl; intros; [reflexivity | f_equal; auto]. }
  assert (S : forall x y, string_of_list_ascii (x ++ y)%list
                         = (string_of_list_ascii x ++ string_of_list_ascii y)%string).
  { induction x; simpl; intros; [reflexivity | f_equal; auto]. }
  rewrite L, rev_app_distr, S. reflexivity.
Qed.

Lemma join_suffix_differs (a b s1 s2 : string) :
  PyStr.startswith s1 "/" = false -> PyStr.startswith s2 "/" = false ->
  PyStr.truthy s1 = true -> PyStr.truthy s2 = true ->
  s1 <> s2 ->
  OsPath.join a (b ++ s1) <> OsPath.join a (b ++ s2).
Proof.
  intros A1 A2 T1 T2 N. unfold OsPath.join.
  rewrite (join_starts_same b s1 s2 A1 A2 T1 T2).
  destruct (PyStr.startswith (b ++ s2) "/").
  - intros E. apply append_inj_l in E. auto.
  - destruct (negb (PyStr.truthy a) || PyStr.endswith a "/").
    + intros E. apply append_inj_l, append_inj_l in E. auto.
    + intros E. apply append_inj_l in E. simpl in E. inversion E as [E'].
      apply append_inj_l in E'. auto.
Qed.

Lemma mp4_is_not_wav (w base : string) : mp4_path_of w base <> wav_path_of w base.
Proof.
  unfold mp4_path_of, wav_path_of. apply join_suffix_differs; try reflexivity.
  discriminate.
Qed.

Lemma insert_sorted_in (x y : string) (l : list string) :
  In y (insert_sorted x l) -> y = x \/ In y l.
Proof.
  induction l as [|z l IH]; simpl.
  - intros [E|[]]; auto.
  - destruct (String.leb x z); simpl.
    + intros [E|[E|I]]; auto.
    + intros [E|I]; auto. destruct (IH I); auto.
Qed.

Lemma sorted_in (y : string) (l : list string) : In y (sorted l) -> In y l.
Proof.
  induction l as [|x l IH]; simpl; [auto|].
  intros I. apply insert_sorted_in in I as [E|I]; auto.
Qed.

(** The text path settled on is the declared one, or an entry of the work
    directory whose name starts with the base and ends in ".txt". *)
Lemma chosen_txt_shape (fs : FS) (txt_dir workdir base : string) :
  chosen_txt fs txt_dir workdir base = OsPath.join txt_dir (base ++ ".txt")
  \/ exists c, chosen_txt fs txt_dir workdir base = OsPath.join workdir c
               /\ In c (listdir fs workdir)
               /\ PyStr.startswith c base = true
               /\ PyStr.endswith (PyStr.lower c) ".txt" = true.
Proof.
  unfold chosen_txt. destruct (isfile fs _); [left; reflexivity|].
  destruct (sorted _) as [|c cs] eqn:S; [left; reflexivity|].
  right. exists c. split; [reflexivity|].
  assert (I : In c (sorted (txt_candidates (listdir fs workdir) base))).
  { rewrite S. left. reflexivity. }
  apply sorted_in in I. unfold txt_candidates in I. apply filter_In in I as [I F].
  apply andb_true_iff in F. tauto.
Qed.

(* ================================================================== *)
(** ** Artifacts *)
(* ================================================================== *)

Ltac input_simp :=
  first
    [ rewrite input_proc
    | rewrite input_refused
    | rewrite input_undecoded
    | rewrite input_unlink
    | rewrite input_check
    | rewrite (input_banner _ _ _ Fetch)
    | rewrite (input_banner _ _ _ Normalize)
    | rewrite (input_banner _ _ _ ExtractAudio)
    | rewrite (input_banner _ _ _ Transcribe)
    | rewrite input_plain by plain
    | idtac ].

(** Files known to exist are followed through directory creation and
    through every process, by the hypothesis [Hmono] on the processes. *)
Ltac carry Hmono :=
  repeat match goal with
  | Hx : _ _ (makedirs ?fs0 ?dir) _ _ _ = _, Hf : isfile ?fs0 ?p = true |- _ =>
      lazymatch goal with
      | _ : isfile (makedirs fs0 dir) p = true |- _ => fail
      | _ => idtac
      end;
      assert (isfile (makedirs fs0 dir) p = true) by (rewrite isfile_makedirs; exact Hf)
  | Hx : ?exec ?h ?fs ?cmd ?cwd ?env
         = {| x_fault := _; x_lines := _; x_rc := _; x_disk := ?fs'; x_hid := _ |},
    Hf : isfile ?fs ?p = true |- _ =>
      lazymatch goal with
      | _ : isfile fs' p = true |- _ => fail
      | _ => idtac
      end;
      let K := fresh "K" in
      pose proof (Hmono h fs cmd cwd env p Hf) as K; rewrite Hx in K; cbn [x_disk] in K
  end.

Ltac art_leaf Hmono :=
  cbn beta zeta; cbn [disk hid] in *;
  repeat match goal with
         | Hn : negb _ = true |- _ => apply negb_true_iff in Hn
         | Hn : negb _ = false |- _ => apply negb_false_iff in Hn
         end;
  carry Hmono;
  cbn [fst snd inputs_of forallb andb];
  repeat match goal with
         | Hf : isfile ?fs ?p = true |- context [isfile ?fs ?p] => rewrite Hf
         end;
  cbn [andb];
  repeat match goal with
         | |- _ /\ _ => split
         | |- _ = _ => first [reflexivity | assumption]
         end.

Lemma sorted_head_candidate (names : list string) (base c : string) (l : list string) :
  sorted (txt_candidates names base) = c :: l ->
  In c names /\ PyStr.startswith c base = true
  /\ PyStr.endswith (PyStr.lower c) ".txt" = true.
Proof.
  intros S.
  assert (I : In c (sorted (txt_candidates names base))) by (rewrite S; left; reflexivity).
  apply sorted_in in I. unfold txt_candidates in I. apply filter_In in I as [I F].
  apply andb_true_iff in F. tauto.
Qed.

Lemma scan_video_isfile (fs : FS) (dir prefix : string) (names : list string) (c : string) :
  scan_video fs dir prefix names = Some c -> isfile fs c = true.
Proof.
  induction names as [|fn rest IH]; simpl; [discriminate|].
  destruct (PyStr.startswith fn prefix); [|exact IH].
  destruct (isfile fs (OsPath.join dir fn)) eqn:F; [|exact IH].
  intros E. inversion E; subst. exact F.
Qed.

Section Artifacts.
Variable H : Type.
Variable exec : H -> FS -> list string -> string -> list (string * string) -> exec_result H.
Variable WHISPER_PROJECT_DIR : string.
Hypothesis Hmono : preserves_files exec.

Lemma art_normalize d dir mp4 wav cur (os : OS H) :
  isfile (disk os) d = true ->
  wp (input_observer (inputs_of d mp4 wav)) (pipeline_normalize exec d dir mp4)
     (fun _ os' o' => o' = (Some Normalize, true)
                      /\ isfile (disk os') d = true /\ isfile (disk os') mp4 = true)
     (fun _ _ o' => snd o' = true) os (cur, true).
Proof.
  intros Hd. destruct os as [fs h]. cbn [disk] in Hd.
  wp_go input_simp. all: art_leaf Hmono.
Qed.

Lemma art_extract d mp4 wav o (os : OS H) :
  o = (Some Normalize, true)
  /\ isfile (disk os) d = true /\ isfile (disk os) mp4 = true ->
  wp (input_observer (inputs_of d mp4 wav)) (pipeline_extract exec mp4 wav)
     (fun _ os' o' => o' = (Some ExtractAudio, true)
                      /\ isfile (disk os') d = true /\ isfile (disk os') mp4 = true
                      /\ isfile (disk os') wav = true)
     (fun _ _ o' => snd o' = true) os o.
Proof.
  intros (-> & Hd & Hm). destruct os as [fs h]. cbn [disk] in Hd, Hm.
  wp_go input_simp. all: art_leaf Hmono.
Qed.

Lemma art_transcribe d mp4 wav py td wd b m l o (os : OS H) :
  mp4 <> wav ->
  o = (Some ExtractAudio, true)
  /\ isfile (disk os) d = true /\ isfile (disk os) mp4 = true
  /\ isfile (disk os) wav = true ->
  wp (input_observer (inputs_of d mp4 wav))
     (pipeline_transcribe exec WHISPER_PROJECT_DIR py wav td wd b m l)
     (fun txt os' o' =>
        snd o' = true
        /\ isfile (disk os') txt = true
        /\ isfile (disk os') mp4 = true
        /\ (d <> wav -> isfile (disk os') d = true)
        /\ (txt = OsPath.join td (b ++ ".txt")
            \/ exists c, txt = OsPath.join wd c /\ PyStr.startswith c b = true
                         /\ PyStr.endswith (PyStr.lower c) ".txt" = true))
     (fun _ _ o' => snd o' = true) os o.
Proof.
  intros Nmw (-> & Hd & Hm & Hw). destruct os as [fs h]. cbn [disk] in Hd, Hm, Hw.
  wp_go input_simp.
  all: cbn beta zeta; cbn [disk hid] in *;
    cbn [snd inputs_of forallb]; rewrite ?Hd, ?Hm, ?Hw; cbn [andb];
    try reflexivity; carry Hmono.
  all: split; [reflexivity|]; split; [assumption|]; split; [|split].
  all: try (intros Nd).
  all: try match goal with
           | Hu : unlink _ _ = Some ?f |- isfile ?f _ = true =>
               rewrite (unlink_keeps_others _ _ _ _ Hu) by assumption
           end.
  all: try assumption.
  all: try (left; reflexivity).
  all: right; eexists; split; [reflexivity|];
    match goal with
    | Hs : sorted _ = _ :: _ |- _ => apply sorted_head_candidate in Hs; tauto
    end.
Qed.

Lemma art_fetch d' m' w' host a (os : OS H) :
  wp (input_observer (inputs_of d' m' w')) (pipeline_fetch exec WHISPER_PROJECT_DIR host a)
     (fun d os' o' => o' = (Some Fetch, true) /\ isfile (disk os') d = true)
     (fun _ _ o' => snd o' = true) os (None, true).
Proof.
  destruct os as [fs h]. wp_go input_simp.
  all: cbn beta zeta; cbn [disk hid snd inputs_of forallb andb] in *; try reflexivity.
  all: split; [reflexivity|].
  all: try assumption.
  all: match goal with
       | Hs : scan_video _ _ _ _ = Some _ |- _ => exact (scan_video_isfile _ _ _ _ _ Hs)
       end.
Qed.

Lemma art_rest host a d o (os : OS H) :
  o = (Some Fetch, true) /\ isfile (disk os) d = true ->
  let workdir := run_workdir host a in
  let base := base_of d in
  let mp4 := mp4_path_of workdir base in
  let wav := wav_path_of workdir base in
  wp (input_observer (inputs_of d mp4 wav)) (pipeline_rest exec WHISPER_PROJECT_DIR host a d)
     (fun txt os' o' =>
        snd o' = true
        /\ isfile (disk os') txt = true
        /\ isfile (disk os') mp4 = true
        /\ (d <> wav -> isfile (disk os') d = true)
        /\ (txt = txt_path_of workdir base
            \/ exists c, txt = OsPath.join workdir c /\ PyStr.startswith c base = true
                         /\ PyStr.endswith (PyStr.lower c) ".txt" = true))
     (fun _ _ o' => snd o' = true) os o.
Proof.
  intros (-> & Hd). cbn zeta. unfold pipeline_rest.
  apply wp_bind, wp_log. rewrite input_plain by plain.
  apply wp_bind, wp_log. rewrite input_plain by plain.
  apply wp_bind.
  eapply wp_mono; [apply (art_normalize d _ _ (wav_path_of (run_workdir host a) (base_of d)));
                   exact Hd | | auto].
  intros u1 os1 o1 H1. cbn beta. apply wp_bind.
  eapply wp_mono; [apply (art_extract d); exact H1 | | auto].
  intros u2 os2 o2 H2. cbn beta.
  apply (art_transcribe d); [apply mp4_is_not_wav | exact H2].
Qed.

Lemma pipeline_body_eq host a (os : OS H) :
  pipeline_body exec WHISPER_PROJECT_DIR host a os =
  let rf := pipeline_fetch exec WHISPER_PROJECT_DIR host a os in
  match r_val rf with
  | inl e => mkRes (r_trace rf) (r_os rf) (inl e)
  | inr d =>
      let rr := pipeline_rest exec WHISPER_PROJECT_DIR host a d (r_os rf) in
      mkRes (r_trace rf ++ r_trace rr)%list (r_os rr)
            match r_val rr with
            | inl e => inl e
            | inr t => inr (d, mp4_path_of (run_workdir host a) (base_of d), t)
            end
  end.
Proof.
  unfold pipeline_body, bind, ret. cbv zeta.
  generalize (pipeline_fetch exec WHISPER_PROJECT_DIR host a os). intros rf.
  destruct (r_val rf) as [e|d]; [reflexivity|].
  generalize (pipeline_rest exec WHISPER_PROJECT_DIR host a d (r_os rf)). intros rr.
  destruct (r_val rr); cbn [r_val r_trace r_os]; rewrite ?app_nil_r; reflexivity.
Qed.


End Artifacts.

(* ================================================================== *)
(** ** The controller *)
(* ================================================================== *)

Section Reentrancy.
Variable H : Type.
Variable exec : H -> FS -> list string -> string -> list (string * string) -> exec_result H.
Variable WHISPER_PROJECT_DIR : string.

(** An accepted request leaves the run button disabled. *)
Lemma start_pipeline_disables host a (os : OS H) a' :
  r_val (start_pipeline host a os) = inr (a', true) -> btn_run a' = disabled.
Proof.
  intros E.
  assert (W : wp trace_observer (start_pipeline host a)
                 (fun p _ _ => snd p = true -> btn_run (fst p) = disabled)
                 (fun _ _ _ => False) os []).
  { unfold start_pipeline. wp_go idtac.
    all: cbn [fst snd]; first [discriminate | reflexivity]. }
  apply wp_read in W. rewrite E in W. apply W. reflexivity.
Qed.

(** A request does not raise. *)
Lemma start_pipeline_returns host a (os : OS H) :
  raised (start_pipeline host a os) = false.
Proof.
  assert (W : wp trace_observer (start_pipeline host a)
                 (fun _ _ _ => True) (fun _ _ _ => False) os []).
  { unfold start_pipeline. wp_go idtac. all: exact I. }
  apply wp_read in W. unfold raised.
  destruct (r_val (start_pipeline host a os)); [contradiction | reflexivity].
Qed.

(** While a worker is alive the run button is disabled, and there is at most
    one worker. *)
Definition one_worker (c : Ctl H) : Prop :=
  (c_jobs c <> [] -> btn_run (c_app c) = disabled) /\ (length (c_jobs c) <= 1)%nat.

Lemma one_worker_step host (c : Ctl H) (i : input) :
  one_worker c -> one_worker (ctl_step exec WHISPER_PROJECT_DIR host c i).
Proof.
  intros [B L]. destruct i as [u w m l| |]; cbn [ctl_step].
  - split; cbn [c_app c_jobs edit_fields btn_run]; [exact B | exact L].
  - unfold press_run. destruct (btn_run (c_app c)) eqn:Bn;
      [|split; [intros _; exact Bn | exact L]].
    assert (J : c_jobs c = []).
    { destruct (c_jobs c); [reflexivity|].
      assert (normal = disabled) by (apply B; discriminate). discriminate. }
    cbv zeta. destruct (r_val (start_pipeline host (c_app c) (c_os c))) as [e|[a' [|]]] eqn:E.
    + split; [rewrite J; congruence | exact L].
    + split; cbn [c_app c_jobs].
      * intros _. exact (start_pipeline_disables _ _ _ _ E).
      * rewrite J. cbn. lia.
    + split; cbn [c_app c_jobs]; rewrite J; [congruence | cbn; lia].
  - unfold finish_job. destruct (c_jobs c) as [|job rest] eqn:J.
    + split; [rewrite J; congruence | rewrite J; cbn; lia].
    + cbv zeta.
      destruct (r_val (_pipeline_thread exec WHISPER_PROJECT_DIR host job (c_os c))) as [e|done].
      * split; [intros _; apply B; congruence | rewrite J; exact L].
      * cbn [length] in L. assert (rest = []) by (destruct rest; [reflexivity | cbn in L; lia]).
        subst rest. split; cbn [c_app c_jobs]; [congruence | cbn; lia].
Qed.

Lemma reachable_one_worker (c : Ctl H) :
  reachable exec WHISPER_PROJECT_DIR c -> one_worker c.
Proof.
  induction 1 as [a os Bn | host c i R IH].
  - split; cbn [c_jobs c_app]; [congruence | cbn; lia].
  - apply one_worker_step. exact IH.
Qed.

(** C9.  In every state the application can reach, while a run is in
    progress (a worker started and not finished) a press on the run button
    changes nothing: no worker is started, no field, status or file is
    touched; and there is never more than one worker. *)
Theorem no_reentry host (c : Ctl H) :
  reachable exec WHISPER_PROJECT_DIR c ->
  idle c = false ->
  ctl_step exec WHISPER_PROJECT_DIR host c Press = c
  /\ (length (c_jobs c) <= 1)%nat.
Proof.
  intros R Bz. apply reachable_one_worker in R. destruct R as [B L].
  assert (D : btn_run (c_app c) = disabled).
  { apply B. unfold idle in Bz. destruct (c_jobs c); [discriminate | discriminate]. }
  cbn [ctl_step]. unfold press_run. rewrite D. repeat split; auto.
Qed.

End Reentrancy.

(* ================================================================== *)
(** ** Scripted runs *)
(* ================================================================== *)

(** The scripted tools only add files. *)
Lemma demo_tools_preserve (s : Demo.script) : preserves_files (Demo.tools s).
Proof.
  intros h fs cmd cwd env p F. unfold Demo.tools.
  destruct (Demo.tools_do s cmd cwd) as [[lines rc] new]. cbn [x_disk].
  rewrite isfile_app, F. reflexivity.
Qed.



(** A stream-copy whose output cannot be decoded is given up without being
    waited for: the re-encode is attempted next, with the stream-copy
    possibly still running, and the run ends in success with six launches
    and five exits. *)
Lemma stream_copy_abandoned :
  let exec := Demo.undecodable Demo.is_remux (Demo.tools Demo.all_well) in
  let r := _pipeline_thread exec Demo.whisper_dir Demo.host Demo.app Demo.os0 in
  Demo.final_status r = status_done
  /\ ordered (r_trace r) = true
  /\ quiescent (r_trace r) = false
  /\ stage_starts (r_trace r) = all_stages
  /\ abandoned (r_trace r) = [remux_cmd Demo.video Demo.mp4]
  /\ length (spawned (r_trace r)) = 6%nat
  /\ exits (r_trace r) = [0; 0; 0; 0; 0]%Z.
Proof. vm_compute. repeat split; reflexivity. Qed.

(** The engine check cannot be launched (the whisper directory is missing):
    it is attempted, no process is spawned, and the run ends in error before
    any stage. *)
Lemma check_not_launched :
  let exec := Demo.unlaunchable Demo.is_check (Demo.tools Demo.all_well) in
  let r := _pipeline_thread exec Demo.whisper_dir Demo.host Demo.app Demo.os0 in
  Demo.final_status r = status_error
  /\ ordered (r_trace r) = true
  /\ stage_starts (r_trace r) = []
  /\ length (attempts (r_trace r)) = 1%nat
  /\ spawned (r_trace r) = []
  /\ last (notifications (r_trace r)) ""
     = "[Errno 2] No such file or directory: '/home/u/whisper-gpu'".
Proof. vm_compute. repeat split; reflexivity. Qed.

(** C5.  The engine writes [<base>-partial.txt] into the text directory, the
    directory it was told to write to, and nothing else.  The selection in
    the words of the specification finds that file; the program scans the
    work directory instead, finds no candidate, and the run ends in error
    with the missing-text message. *)
Theorem txt_fallback_wrong_directory :
  let r := Demo.run (Demo.with_txt Demo.all_well (Some "-partial.txt")) in
  let fs := disk (r_os r) in
  let base := base_of Demo.video in
  let workdir := run_workdir Demo.host Demo.app in
  isfile fs (txt_path_of workdir base) = false
  /\ spec_txt_fallback fs (txt_dir_of workdir) base
     = Some "/tmp/run1/txt/Talk_abc_20240101-partial.txt"
  /\ isfile fs "/tmp/run1/txt/Talk_abc_20240101-partial.txt" = true
  /\ txt_candidates (listdir fs workdir) base = []
  /\ chosen_txt fs (txt_dir_of workdir) workdir base = txt_path_of workdir base
  /\ exits (r_trace r) = [0; 0; 0; 0; 0]%Z
  /\ Demo.final_status r = status_error
  /\ last (notifications (r_trace r)) "" = msg_txt_missing.
Proof. vm_compute. repeat split; reflexivity. Qed.


(** The failure raised for a command that exits with status 1 carries the
    code and neither the command line nor the name of the program. *)
Lemma failure_message_lacks_command :
  let cmd := remux_cmd "in.webm" "out.mp4" in
  let r := run_cmd_stream (Demo.tools (Demo.with_remux_rc Demo.all_well 1))
                          cmd "/tmp" [] Demo.os0 in
  r_val r = inl (RuntimeError "Commande échouée (code 1).")
  /\ PyStr.contains "Commande échouée (code 1)." (_pretty_cmd cmd) = false
  /\ PyStr.contains "Commande échouée (code 1)." "ffmpeg" = false.
Proof. vm_compute. repeat split; reflexivity. Qed.

Lemma no_reentry_witness :
  let exec := Demo.tools Demo.all_well in
  let c0 := {| c_app := Demo.app; c_jobs := []; c_os := Demo.os0 |} in
  let c1 := ctl_step exec Demo.whisper_dir Demo.host c0 Press in
  idle c1 = false
  /\ ctl_step exec Demo.whisper_dir Demo.host c1 Press = c1
  /\ (length (c_jobs c1) <= 1)%nat.
Proof.
  cbv zeta.
  assert (Z : idle (ctl_step (Demo.tools Demo.all_well) Demo.whisper_dir Demo.host
                             {| c_app := Demo.app; c_jobs := []; c_os := Demo.os0 |} Press)
              = false) by (vm_compute; reflexivity).
  split; [exact Z|].
  apply (no_reentry unit (Demo.tools Demo.all_well) Demo.whisper_dir Demo.host).
  - apply reach_step. apply reach_init. reflexivity.
  - exact Z.
Defined.

Lemma fetch_silent_witness :
  let exec := Demo.tools (Demo.with_prints Demo.all_well []) in
  r_val (download_youtube exec "https://x/y" "/tmp/run1/video" "Talk_abc_20240101" Demo.os0)
  = inr Demo.video.
Proof.
  cbv zeta.
  destruct (fetch_silent unit (Demo.tools (Demo.with_prints Demo.all_well []))
              "https://x/y" "/tmp/run1/video" "Talk_abc_20240101" Demo.os0) as [_ R].
  - vm_compute. reflexivity.
  - vm_compute. reflexivity.
  - rewrite R. vm_compute. reflexivity.
Defined.

Lemma fetch_resolves_witness :
  let prints := ["[download] 100% of 3.21MiB";
                 "/tmp/run1/video/Talk_abc_20240101.webm"; "  "] in
  let exec := Demo.tools (Demo.with_prints Demo.all_well prints) in
  forallb PyStr.one_line prints = true
  /\ printed_path (PyStr.join PyStr.LF prints) = "/tmp/run1/video/Talk_abc_20240101.webm"
  /\ r_val (download_youtube exec "https://x/y" "/tmp/run1/video" "Talk_abc_20240101" Demo.os0)
     = inr Demo.video.
Proof.
  cbv zeta.
  destruct (fetch_resolves unit
              (Demo.tools (Demo.with_prints Demo.all_well
                             ["[download] 100% of 3.21MiB";
                              "/tmp/run1/video/Talk_abc_20240101.webm"; "  "]))
              "https://x/y" "/tmp/run1/video" "Talk_abc_20240101" Demo.os0)
    as (V & _ & _ & P & _).
  split; [vm_compute; reflexivity|]. split.
  - refine (eq_trans _ (P ["[download] 100% of 3.21MiB"]
                          "/tmp/run1/video/Talk_abc_20240101.webm" ["  "] _ _ _ _)).
    + vm_compute. reflexivity.
    + vm_compute. reflexivity.
    + vm_compute. reflexivity.
    + vm_compute. reflexivity.
    + repeat constructor.
  - rewrite V. vm_compute. reflexivity.
Defined.

(* ================================================================== *)
(** ** The request check of [start_pipeline] *)
(* ================================================================== *)

Section Request.
Variable H : Type.

(** [start_pipeline] goes ahead exactly when the stripped URL is non-empty
    and starts with http:// or https://, both tools are found on the path
    and the work directory (the field, or the current directory when the
    field is blank) is a directory.  Either way it returns without raising,
    launches no process, creates and removes nothing itself, and notifies
    exactly one line (which the logger may append to its log file). *)
Theorem start_pipeline_accepts host a (os : OS H) :
  let url := PyStr.strip (url_var a) in
  let workdir := str_or (PyStr.strip (workdir_var a)) (getcwd host) in
  exists a' ok m,
    start_pipeline host a os = mkRes [Log m] os (inr (a', ok))
    /\ (ok = true <->
        PyStr.truthy url = true
        /\ (PyStr.startswith url "http://" = true \/ PyStr.startswith url "https://" = true)
        /\ which_ok host YTDLP_BIN = true
        /\ which_ok host FFMPEG_BIN = true
        /\ isdir (disk os) workdir = true).
Proof.
  cbv zeta. unfold start_pipeline.
  generalize (PyStr.strip (url_var a)). intros url.
  generalize (str_or (PyStr.strip (workdir_var a)) (getcwd host)). intros workdir.
  destruct (PyStr.truthy url) eqn:T;
    destruct (PyStr.startswith url "http://") eqn:S1;
    destruct (PyStr.startswith url "https://") eqn:S2;
    destruct (which_ok host YTDLP_BIN) eqn:Y;
    destruct (which_ok host FFMPEG_BIN) eqn:F;
    cbn [negb orb andb];
    unfold bind, log, ret, peek; cbn [r_val r_os r_trace app];
    try (destruct (isdir (disk os) workdir) eqn:D; cbn [negb r_val r_os r_trace app]);
    do 3 eexists; (split; [reflexivity|]);
    split; intros; try discriminate; intuition (try discriminate; try congruence).
Qed.

(** What [start_pipeline] does to the application object.  It never edits
    the request fields.  When it goes ahead it disables both buttons, clears
    the reported path, shows the running status and points the log file at
    [whisper_youtube_log.txt] in the work directory; when it refuses it
    leaves buttons, reported path and log file alone and shows a status and
    a log line that both start with the error mark. *)
Theorem start_pipeline_effects host a (os : OS H) :
  let workdir := str_or (PyStr.strip (workdir_var a)) (getcwd host) in
  let r := start_pipeline host a os in
  match r_val r with
  | inl _ => False
  | inr (a', ok) =>
      (python_exe a' = python_exe a /\ url_var a' = url_var a
       /\ workdir_var a' = workdir_var a /\ model_var a' = model_var a
       /\ lang_var a' = lang_var a)
      /\ (ok = true ->
          btn_run a' = disabled /\ btn_copy a' = disabled
          /\ output_txt_var a' = "" /\ status_var a' = status_running
          /\ logfile_path a' = Some (OsPath.join workdir "whisper_youtube_log.txt")
          /\ r_trace r = [Log "=== Début du process ==="])
      /\ (ok = false ->
          btn_run a' = btn_run a /\ btn_copy a' = btn_copy a
          /\ output_txt_var a' = output_txt_var a
          /\ logfile_path a' = logfile_path a
          /\ PyStr.startswith (status_var a') "Erreur: " = true
          /\ exists m, r_trace r = [Log m] /\ PyStr.startswith m "❌ Erreur: " = true)
  end.
Proof.
  cbv zeta. unfold start_pipeline.
  generalize (PyStr.strip (url_var a)). intros url.
  generalize (str_or (PyStr.strip (workdir_var a)) (getcwd host)). intros workdir.
  destruct (negb (PyStr.truthy url) || _);
    [|destruct (negb (which_ok host YTDLP_BIN));
      [|destruct (negb (which_ok host FFMPEG_BIN))]];
    unfold bind, log, ret, peek; cbn [r_val r_os r_trace app];
    try (destruct (negb (isdir (disk os) workdir)); cbn [r_val r_os r_trace app]);
    (split; [repeat split|]);
    (split; [intros X; try discriminate X; repeat split
            |intros X; try discriminate X; repeat split; try reflexivity;
             eexists; split; reflexivity]).
Qed.

End Request.

(* ================================================================== *)
(** ** What the worker thread leaves behind *)
(* ================================================================== *)

Section Outcome.
Variable H : Type.
Variable exec : H -> FS -> list string -> string -> list (string * string) -> exec_result H.
Variable WHISPER_PROJECT_DIR : string.

Lemma wp_any {O A} (ob : observer O) (c : OS H -> Res H A) os o :
  wp ob c (fun _ _ _ => True) (fun _ _ _ => True) os o.
Proof. unfold wp. cbv zeta. destruct (r_val (c os)); exact I. Qed.

(** The Transcribe stage returns only a path that is a regular file when it
    returns. *)
Lemma transcribe_returns_file py wav td wd b m l (os : OS H) o :
  wp trace_observer (pipeline_transcribe exec WHISPER_PROJECT_DIR py wav td wd b m l)
     (fun t os' _ => isfile (disk os') t = true) (fun _ _ _ => True) os o.
Proof. wp_go idtac. all: first [exact I | assumption]. Qed.

Lemma body_returns_file host a (os : OS H) :
  wp trace_observer (pipeline_body exec WHISPER_PROJECT_DIR host a)
     (fun p os' _ => isfile (disk os') (snd p) = true) (fun _ _ _ => True) os [].
Proof.
  unfold pipeline_body. apply wp_bind.
  eapply wp_mono; [apply wp_any | | auto].
  intros d os1 o1 _. apply wp_bind. unfold pipeline_rest.
  apply wp_bind, wp_log. apply wp_bind, wp_log. apply wp_bind.
  eapply wp_mono; [apply wp_any | | auto].
  intros u1 os2 o2 _. apply wp_bind.
  eapply wp_mono; [apply wp_any | | auto].
  intros u2 os3 o3 _.
  eapply wp_mono; [apply transcribe_returns_file | | auto].
  intros t os4 o4 F. cbn beta. apply wp_ret. exact F.
Qed.

(** What the thread writes into the application object. *)
Lemma thread_outcome_wp host a (os : OS H) :
  wp trace_observer (_pipeline_thread exec WHISPER_PROJECT_DIR host a)
     (fun a' os' _ =>
        btn_run a' = normal
        /\ (python_exe a' = python_exe a /\ url_var a' = url_var a
            /\ workdir_var a' = workdir_var a /\ model_var a' = model_var a
            /\ lang_var a' = lang_var a /\ logfile_path a' = logfile_path a)
        /\ ((status_var a' = status_done /\ btn_copy a' = normal
             /\ isfile (disk os') (output_txt_var a') = true)
            \/ (status_var a' = status_error /\ btn_copy a' = btn_copy a
                /\ output_txt_var a' = output_txt_var a)))
     (fun _ _ _ => False) os [].
Proof.
  unfold _pipeline_thread. apply wp_bind, wp_catch.
  eapply wp_mono; [apply body_returns_file | | ].
  - intros [[d m] t] os1 o1 F. cbn [snd] in F. cbn beta iota.
    wp_go idtac. cbn [btn_run set_btn_run]. split; [reflexivity|].
    split; [repeat split|]. left. repeat split. exact F.
  - intros e os1 o1 _. cbn beta iota.
    wp_go idtac. cbn [btn_run set_btn_run]. split; [reflexivity|].
    split; [repeat split|]. right. repeat split.
Qed.

(** Whatever the tools do, the worker thread returns, with the run button
    enabled again and the request fields and the log file untouched.  It
    ends in one of two ways: with the done status, the copy button enabled
    and a reported path that is a regular file on disk at that moment; or
    with the error status, the copy button and the reported path as they
    were. *)
Theorem thread_outcome host a (os : OS H) :
  let r := _pipeline_thread exec WHISPER_PROJECT_DIR host a os in
  exists a',
    r_val r = inr a'
    /\ btn_run a' = normal
    /\ (python_exe a' = python_exe a /\ url_var a' = url_var a
        /\ workdir_var a' = workdir_var a /\ model_var a' = model_var a
        /\ lang_var a' = lang_var a /\ logfile_path a' = logfile_path a)
    /\ ((status_var a' = status_done /\ btn_copy a' = normal
         /\ isfile (disk (r_os r)) (output_txt_var a') = true)
        \/ (status_var a' = status_error /\ btn_copy a' = btn_copy a
            /\ output_txt_var a' = output_txt_var a)).
Proof.
  cbv zeta. pose proof (wp_read _ _ _ _ _ _ _ (thread_outcome_wp host a os)) as W.
  revert W. generalize (_pipeline_thread exec WHISPER_PROJECT_DIR host a os).
  intros r W. destruct r as [t os' v]. cbn [r_val r_os r_trace] in *.
  destruct v as [e|a']; [contradiction|]. exists a'. split; [reflexivity | exact W].
Qed.

End Outcome.

(* ================================================================== *)
(** ** The engine check and the ExtractAudio stage *)
(* ================================================================== *)

(** A branch of the program that the known exit status rules out. *)
Ltac known_exit :=
  cbn [disk hid] in *;
  try match goal with
      | X : ?f ?h ?fs ?c ?w ?e = _, Hx : ?f ?h ?fs ?c ?w ?e = _ |- _ =>
          rewrite X in Hx; inversion Hx; subst; clear Hx
      end;
  try match goal with
      | N : ?rc <> 0%Z, E : (?rc =? 0)%Z = true |- _ =>
          exfalso; apply N; apply Z.eqb_eq; exact E
      | N : ?rc = 0%Z, E : (?rc =? 0)%Z = false |- _ =>
          exfalso; rewrite N in E; discriminate E
      end.

(** Steps through a program up to its next process. *)
Ltac wp_upto_run :=
  repeat (cbn beta iota zeta; cbn [disk hid];
          lazymatch goal with
          | |- wp _ (run_cmd_stream _ _ _ _) _ _ _ _ => fail
          | _ => wp_step idtac
          end).

Lemma last_notifications_log (t : list event) (m : string) :
  last (notifications (t ++ [Log m])) "" = m.
Proof. unfold notifications. rewrite flat_map_app. cbn [flat_map app]. apply last_last. Qed.

(** No failure of the runner reads as a stage banner. *)
Lemma failure_plain {H} (x : exec_result H) : is_banner (str_exn (failure_of x)) = false.
Proof.
  unfold failure_of. destruct (x_fault x) as [[n d|c d]|].
  - apply popen_error_plain.
  - apply decode_error_plain.
  - unfold msg_cmd_failed, str_exn. cbn [append]. apply not_banner_head. reflexivity.
Qed.

Section Check.
Variable H : Type.
Variable exec : H -> FS -> list string -> string -> list (string * string) -> exec_result H.
Variable WHISPER_PROJECT_DIR : string.

(** When the engine check does not succeed the run stops there: the check is
    the only command ever attempted, no stage banner is notified, nothing is
    unlinked, nothing is written beyond the three directories and what the
    check itself did, and the thread ends with the error status, the failure
    of the runner being the last line notified.  When the check was launched
    and exited with a non-zero status, it is the only process launched, its
    exit was waited for, and that last line gives the exit code. *)
Theorem engine_unavailable_aborts host a (os : OS H) :
  let workdir := run_workdir host a in
  let fs0 := makedirs (makedirs (makedirs (disk os) (video_dir_of workdir))
                                (mp4_dir_of workdir)) (txt_dir_of workdir) in
  let cmd := [python_exe a; "-c"; "import whisper; print('OK: whisper importable')"] in
  let x := exec (hid os) fs0 cmd WHISPER_PROJECT_DIR unbuffered in
  let r := _pipeline_thread exec WHISPER_PROJECT_DIR host a os in
  succeeded x = false ->
  attempts (r_trace r) = [(cmd, WHISPER_PROJECT_DIR, [("PYTHONUNBUFFERED", "1")])]
  /\ stage_starts (r_trace r) = []
  /\ unlinked (r_trace r) = []
  /\ r_os r = {| disk := disk_after fs0 x; hid := x_hid x |}
  /\ r_val r = inr (set_btn_run (set_status a status_error) normal)
  /\ last (notifications (r_trace r)) "" = str_exn (failure_of x)
  /\ (x_fault x = None ->
      x_rc x <> 0%Z
      /\ spawned (r_trace r) = [cmd]
      /\ exits (r_trace r) = [x_rc x]
      /\ r_os r = {| disk := x_disk x; hid := x_hid x |}
      /\ last (notifications (r_trace r)) "" = msg_cmd_failed (x_rc x)).
Proof.
  cbv zeta. intros N.
  change [python_exe a; "-c"; "import whisper; print('OK: whisper importable')"]
    with (whisper_check_cmd (python_exe a)) in *.
  change [("PYTHONUNBUFFERED", "1")] with unbuffered.
  destruct os as [fs h]. cbn [disk hid] in *.
  set (fs0 := makedirs (makedirs (makedirs fs (video_dir_of (run_workdir host a)))
                                 (mp4_dir_of (run_workdir host a)))
                       (txt_dir_of (run_workdir host a))) in *.
  assert (K : _pipeline_thread exec WHISPER_PROJECT_DIR host a {| disk := fs; hid := h |} =
              let x := exec h fs0 (whisper_check_cmd (python_exe a)) WHISPER_PROJECT_DIR
                            unbuffered in
              mkRes (([Log ("Langue=" ++ run_lang a ++ " | Modèle=" ++ run_model a);
                      Log ("Workdir: " ++ run_workdir host a);
                      Log ("video/: " ++ video_dir_of (run_workdir host a));
                      Log ("mp4/:   " ++ mp4_dir_of (run_workdir host a));
                      Log banner_check]
                       ++ launch_trace (whisper_check_cmd (python_exe a)) WHISPER_PROJECT_DIR
                            unbuffered fs0 x
                       ++ [Log "=== Erreur ❌ ==="]) ++ [Log (str_exn (failure_of x))])%list
                    {| disk := disk_after fs0 x; hid := x_hid x |}
                    (inr (set_btn_run (set_status a status_error) normal))).
  { cbv zeta. apply wp_known. unfold _pipeline_thread, pipeline_body.
    apply wp_bind, wp_catch, wp_bind.
    wp_upto_run.
    apply wp_run_cmd_stream. intros f lines0 rc0 fs1 h0 Hx. cbn [disk hid] in Hx.
    fold fs0 in Hx. rewrite Hx in N |- *. unfold succeeded in N. cbn [x_fault x_rc] in N.
    unfold launch_trace, disk_after, failure_of. cbn [x_fault x_lines x_rc x_disk x_hid].
    destruct f as [[n d|c d]|]; cbn beta iota zeta.
    - wp_go idtac. cbn [ext trace_observer app str_exn].
      rewrite <- !app_assoc. reflexivity.
    - wp_go idtac. cbn [ext trace_observer app str_exn].
      rewrite <- !app_assoc. reflexivity.
    - split; intros E; [congruence|].
      wp_go idtac. cbn [ext trace_observer app str_exn].
      rewrite <- !app_assoc. reflexivity. }
  cbv zeta in K. rewrite K. cbn [r_val r_os r_trace].
  rewrite !attempts_app, !spawned_app, !exits_app, !stage_starts_app, !unlinked_app.
  rewrite attempts_launch, stage_starts_launch, unlinked_launch.
  rewrite (stage_starts_plain _ (failure_plain _)).
  split; [reflexivity|]. split; [reflexivity|]. split; [reflexivity|].
  split; [reflexivity|]. split; [reflexivity|].
  split; [apply last_notifications_log|].
  intros F. unfold launch_trace, disk_after, failure_of. unfold succeeded in N.
  rewrite F in N |- *. rewrite spawned_proc, exits_proc.
  split; [intros Z0; rewrite Z0 in N; discriminate N|].
  split; [reflexivity|]. split; [reflexivity|]. split; [reflexivity|].
  apply last_notifications_log.
Qed.

Lemma pipeline_extract_eq mp4 wav (os : OS H) :
  pipeline_extract exec mp4 wav os =
  let cmd := wav_cmd mp4 wav in
  let x := exec (hid os) (disk os) cmd (OsPath.dirname mp4) [] in
  mkRes (Log banner_extract :: launch_trace cmd (OsPath.dirname mp4) [] (disk os) x)%list
        {| disk := disk_after (disk os) x; hid := x_hid x |}
        (if succeeded x
         then if isfile (x_disk x) wav then inr tt else inl (RuntimeError msg_wav_missing)
         else inl (failure_of x)).
Proof.
  apply wp_known. wp_go idtac.
  all: cbn zeta; cbn [disk hid] in *;
    repeat match goal with
           | Hn : negb _ = true |- _ => apply negb_true_iff in Hn
           | Hn : negb _ = false |- _ => apply negb_false_iff in Hn
           end;
    repeat match goal with
           | Hx : exec _ _ _ _ _ = _ |- _ => rewrite Hx; clear Hx
           end;
    unfold succeeded, launch_trace, disk_after, failure_of;
    cbn [x_fault x_rc x_lines x_disk x_hid ext trace_observer];
    repeat match goal with
           | Hb : _ = _ |- _ => rewrite Hb
           end;
    rewrite <- ?app_assoc; cbn [app]; reflexivity.
Qed.

(** The ExtractAudio stage attempts one command and no more: ffmpeg on the
    MP4, in the directory of the MP4, asking for mono 16 kHz PCM into the
    WAV path.  Its trace is the banner followed by that one launch, whatever
    becomes of it.  The stage succeeds exactly when the process was
    launched, its output read to the end, its exit status 0 and the WAV a
    regular file afterwards; any other outcome of the launch is the runner's
    failure, and the WAV is then not even looked for; the stage itself
    changes nothing on disk. *)
Theorem extract_stage mp4 wav (os : OS H) :
  let cmd := ["ffmpeg"; "-y"; "-i"; mp4; "-vn"; "-ac"; "1"; "-ar"; "16000";
              "-c:a"; "pcm_s16le"; wav] in
  let x := exec (hid os) (disk os) cmd (OsPath.dirname mp4) [] in
  let r := pipeline_extract exec mp4 wav os in
  r_trace r = (Log "[3/4] Extraction WAV 16k mono…"
                 :: launch_trace cmd (OsPath.dirname mp4) [] (disk os) x)%list
  /\ attempts (r_trace r) = [(cmd, OsPath.dirname mp4, [])]
  /\ r_os r = {| disk := disk_after (disk os) x; hid := x_hid x |}
  /\ (r_val r = inr tt <-> x_status x = Some 0%Z /\ isfile (x_disk x) wav = true)
  /\ (forall rc, x_status x = Some rc -> rc <> 0%Z ->
      r_val r = inl (RuntimeError (msg_cmd_failed rc)))
  /\ (succeeded x = false -> r_val r = inl (failure_of x))
  /\ (x_status x = Some 0%Z -> isfile (x_disk x) wav = false ->
      r_val r = inl (RuntimeError msg_wav_missing))
  /\ (x_fault x = None ->
      spawned (r_trace r) = [cmd] /\ exits (r_trace r) = [x_rc x]
      /\ r_os r = {| disk := x_disk x; hid := x_hid x |}).
Proof.
  cbv zeta. rewrite pipeline_extract_eq. cbv zeta.
  change ["ffmpeg"; "-y"; "-i"; mp4; "-vn"; "-ac"; "1"; "-ar"; "16000";
          "-c:a"; "pcm_s16le"; wav] with (wav_cmd mp4 wav).
  change "[3/4] Extraction WAV 16k mono…" with banner_extract.
  generalize (exec (hid os) (disk os) (wav_cmd mp4 wav) (OsPath.dirname mp4) []).
  intros x. cbn [r_val r_os r_trace].
  pose proof (succeeded_status x) as SS.
  split; [reflexivity|]. split.
  { change (Log banner_extract :: ?l)%list with ([Log banner_extract] ++ l)%list.
    rewrite attempts_app, attempts_launch. reflexivity. }
  split; [reflexivity|].
  assert (L : x_fault x = None ->
              spawned (Log banner_extract
                         :: launch_trace (wav_cmd mp4 wav) (OsPath.dirname mp4) [] (disk os) x)
              = [wav_cmd mp4 wav]
              /\ exits (Log banner_extract
                          :: launch_trace (wav_cmd mp4 wav) (OsPath.dirname mp4) [] (disk os) x)
                 = [x_rc x]
              /\ {| disk := disk_after (disk os) x; hid := x_hid x |}
                 = {| disk := x_disk x; hid := x_hid x |}).
  { intros F. unfold launch_trace, disk_after. rewrite F.
    change (Log banner_extract :: ?l)%list with ([Log banner_extract] ++ l)%list.
    rewrite spawned_app, exits_app, spawned_proc, exits_proc. repeat split. }
  destruct (succeeded x) eqn:E.
  - assert (S0 : x_status x = Some 0%Z) by (apply SS; reflexivity).
    destruct (isfile (x_disk x) wav) eqn:F.
    + split; [split; [intros _; split; [exact S0 | reflexivity] | reflexivity]|].
      split; [intros rc S N; congruence|].
      split; [discriminate|]. split; [discriminate|]. exact L.
    + split; [split; [discriminate | intros [_ X]; discriminate X]|].
      split; [intros rc S N; congruence|].
      split; [discriminate|]. split; [reflexivity|]. exact L.
  - assert (S0 : x_status x <> Some 0%Z) by (intros X; apply SS in X; discriminate X).
    split; [split; [discriminate | intros [X _]; congruence]|].
    split.
    { intros rc S N. unfold x_status in S. unfold failure_of.
      destruct (x_fault x); [discriminate S|]. injection S as ->. reflexivity. }
    split; [reflexivity|]. split; [intros X; congruence|]. exact L.
Qed.

End Check.

Definition no_engine : Demo.script :=
  {| Demo.s_check_rc := 1; Demo.s_fetch_rc := 0;
     Demo.s_fetch_prints := []; Demo.s_video_name := None;
     Demo.s_remux_rc := 0; Demo.s_reencode_rc := 0; Demo.s_wav_rc := 0;
     Demo.s_wav_pinned := false; Demo.s_whisper_rc := 0; Demo.s_txt_suffix := None |}.

Lemma engine_unavailable_witness :
  let r := _pipeline_thread (Demo.tools no_engine) Demo.whisper_dir Demo.host Demo.app
                            Demo.os0 in
  spawned (r_trace r) = [whisper_check_cmd "/usr/bin/python3"]
  /\ exits (r_trace r) = [1%Z]
  /\ stage_starts (r_trace r) = []
  /\ last (notifications (r_trace r)) "" = "Commande échouée (code 1).".
Proof.
  cbv zeta.
  destruct (engine_unavailable_aborts unit (Demo.tools no_engine) Demo.whisper_dir
              Demo.host Demo.app Demo.os0) as (_ & C & _ & _ & _ & _ & K).
  - vm_compute. reflexivity.
  - destruct K as (_ & A & B & _ & L); [vm_compute; reflexivity|].
    split; [exact A|]. split; [exact B|]. split; [exact C|]. exact L.
Defined.

(* ================================================================== *)
(** ** The footprint of a run *)
(* ================================================================== *)

(** The program named by a command is the interpreter of the request or one
    of the two tools of the configuration. *)
Definition tool_of (py : string) (cmd : list string) : bool :=
  match cmd with
  | c :: _ => String.eqb c py || String.eqb c YTDLP_BIN || String.eqb c FFMPEG_BIN
  | [] => false
  end.

(** The commands a trace attempted to launch, in order. *)
Definition attempted (tr : list event) : list (list string) :=
  map (fun t => fst (fst t)) (attempts tr).

(** The summary kept for the footprint: launches attempted, processes
    spawned, processes waited for, processes given up unwaited, whether
    every command named a known program, paths unlinked. *)
Record footprint := {
  f_tries : nat;
  f_spawns : nat;
  f_waits : nat;
  f_lost : nat;
  f_tools : bool;
  f_dels : list string
}.

Definition footprint_ext (py : string) (o : footprint) (t : list event) : footprint :=
  {| f_tries := f_tries o + length (attempts t);
     f_spawns := f_spawns o + length (spawned t);
     f_waits := f_waits o + length (exits t);
     f_lost := f_lost o + length (abandoned t);
     f_tools := f_tools o && forallb (tool_of py) (attempted t);
     f_dels := (f_dels o ++ unlinked t)%list |}.

Lemma footprint_ext_nil py (o : footprint) : footprint_ext py o [] = o.
Proof.
  destruct o as [k n w l b d]. unfold footprint_ext. cbn.
  rewrite !Nat.add_0_r, andb_true_r, app_nil_r. reflexivity.
Qed.

Lemma footprint_ext_app py (o : footprint) (t1 t2 : list event) :
  footprint_ext py o (t1 ++ t2) = footprint_ext py (footprint_ext py o t1) t2.
Proof.
  unfold footprint_ext, attempted. cbn [f_tries f_spawns f_waits f_lost f_tools f_dels].
  rewrite attempts_app, spawned_app, exits_app, abandoned_app, unlinked_app.
  rewrite map_app, !length_app, forallb_app.
  rewrite !Nat.add_assoc, andb_assoc, app_assoc. reflexivity.
Qed.

Definition footprint_observer (py : string) : observer footprint :=
  {| ext := footprint_ext py; ext_nil := footprint_ext_nil py;
     ext_app := footprint_ext_app py |}.

Lemma foot_log py k n w l b d (m : string) :
  ext (footprint_observer py)
      {| f_tries := k; f_spawns := n; f_waits := w; f_lost := l; f_tools := b; f_dels := d |}
      [Log m]
  = {| f_tries := k; f_spawns := n; f_waits := w; f_lost := l; f_tools := b; f_dels := d |}.
Proof.
  cbn [ext footprint_observer]. unfold footprint_ext. cbn.
  rewrite !Nat.add_0_r, andb_true_r, app_nil_r. reflexivity.
Qed.

Lemma foot_unlink py k n w l b d (p : string) :
  ext (footprint_observer py)
      {| f_tries := k; f_spawns := n; f_waits := w; f_lost := l; f_tools := b; f_dels := d |}
      [Unlink p]
  = {| f_tries := k; f_spawns := n; f_waits := w; f_lost := l; f_tools := b;
       f_dels := (d ++ [p])%list |}.
Proof.
  cbn [ext footprint_observer]. unfold footprint_ext. cbn.
  rewrite !Nat.add_0_r, andb_true_r. reflexivity.
Qed.

Lemma foot_proc py k n w l b d cmd cwd env fs lines rc :
  ext (footprint_observer py)
      {| f_tries := k; f_spawns := n; f_waits := w; f_lost := l; f_tools := b; f_dels := d |}
      (proc_trace cmd cwd env fs lines rc)
  = {| f_tries := S k; f_spawns := S n; f_waits := S w; f_lost := l;
       f_tools := b && tool_of py cmd; f_dels := d |}.
Proof.
  cbn [ext footprint_observer]. unfold footprint_ext, attempted.
  rewrite attempts_proc, spawned_proc, exits_proc, abandoned_proc, unlinked_proc. cbn.
  rewrite !Nat.add_1_r, Nat.add_0_r, andb_true_r, app_nil_r. reflexivity.
Qed.

Lemma foot_refused py k n w l b d cmd cwd env fs :
  ext (footprint_observer py)
      {| f_tries := k; f_spawns := n; f_waits := w; f_lost := l; f_tools := b; f_dels := d |}
      (refused_trace cmd cwd env fs)
  = {| f_tries := S k; f_spawns := n; f_waits := w; f_lost := l;
       f_tools := b && tool_of py cmd; f_dels := d |}.
Proof.
  cbn [ext footprint_observer]. unfold footprint_ext, attempted.
  rewrite attempts_refused, spawned_refused, exits_refused, abandoned_refused,
    unlinked_refused. cbn.
  rewrite !Nat.add_1_r, !Nat.add_0_r, andb_true_r, app_nil_r. reflexivity.
Qed.

Lemma foot_undecoded py k n w l b d cmd cwd env fs lines :
  ext (footprint_observer py)
      {| f_tries := k; f_spawns := n; f_waits := w; f_lost := l; f_tools := b; f_dels := d |}
      (undecoded_trace cmd cwd env fs lines)
  = {| f_tries := S k; f_spawns := S n; f_waits := w; f_lost := S l;
       f_tools := b && tool_of py cmd; f_dels := d |}.
Proof.
  cbn [ext footprint_observer]. unfold footprint_ext, attempted.
  rewrite attempts_undecoded, spawned_undecoded, exits_undecoded, abandoned_undecoded,
    unlinked_undecoded. cbn.
  rewrite !Nat.add_1_r, !Nat.add_0_r, andb_true_r, app_nil_r. reflexivity.
Qed.

Lemma tool_check py : tool_of py (whisper_check_cmd py) = true.
Proof. cbn. rewrite String.eqb_refl. reflexivity. Qed.

Lemma tool_ytdlp py u v b : tool_of py (ytdlp_cmd u v b) = true.
Proof. cbn [tool_of ytdlp_cmd]. rewrite String.eqb_refl, orb_true_r. reflexivity. Qed.

Lemma tool_remux py i o : tool_of py (remux_cmd i o) = true.
Proof. cbn [tool_of remux_cmd]. rewrite String.eqb_refl, orb_true_r. reflexivity. Qed.

Lemma tool_reencode py i o : tool_of py (reencode_cmd i o) = true.
Proof. cbn [tool_of reencode_cmd]. rewrite String.eqb_refl, orb_true_r. reflexivity. Qed.

Lemma tool_wav py i o : tool_of py (wav_cmd i o) = true.
Proof. cbn [tool_of wav_cmd]. rewrite String.eqb_refl, orb_true_r. reflexivity. Qed.

Lemma tool_whisper py w o m l : tool_of py (explain_whisper_command py w o m l) = true.
Proof.
  unfold explain_whisper_command. destruct (negb (String.eqb l "auto"));
    cbn [tool_of app]; rewrite String.eqb_refl; reflexivity.
Qed.

Ltac foot_simp :=
  first [ first [rewrite foot_proc | rewrite foot_refused | rewrite foot_undecoded];
          rewrite ?tool_check, ?tool_ytdlp, ?tool_remux, ?tool_reencode, ?tool_wav,
                  ?tool_whisper; cbn [andb]
        | rewrite foot_unlink
        | rewrite foot_log
        | idtac ].

Ltac foot_leaf :=
  cbn [f_tries f_spawns f_waits f_lost f_tools f_dels];
  repeat match goal with
         | |- _ /\ _ => split
         | |- (_ <= _)%nat => lia
         | |- _ = _ :> nat => lia
         | |- _ = _ => reflexivity
         | |- _ \/ _ => first [left; reflexivity | right; reflexivity]
         end.

Section Footprint.
Variable H : Type.
Variable exec : H -> FS -> list string -> string -> list (string * string) -> exec_result H.
Variable WHISPER_PROJECT_DIR : string.

(** What a finished computation returned can be used in what is shown of
    it. *)
Lemma wp_val {O A} (ob : observer O) (c : OS H -> Res H A) Q E os o :
  wp ob c (fun a os' o' => r_val (c os) = inr a -> Q a os' o')
          (fun e os' o' => r_val (c os) = inl e -> E e os' o') os o ->
  wp ob c Q E os o.
Proof.
  unfold wp. cbv zeta. destruct (r_val (c os)); intros W; apply W; reflexivity.
Qed.

(** After [k] more attempts at most: every process spawned was waited for or
    given up, no more processes than attempts, known programs only, and the
    same unlinked paths. *)
Definition foot_within (k : nat) (o o' : footprint) : Prop :=
  (f_tries o' <= f_tries o + k)%nat
  /\ (f_waits o' + f_lost o') + f_spawns o = (f_waits o + f_lost o) + f_spawns o'
  /\ (f_spawns o' + f_tries o <= f_spawns o + f_tries o')%nat
  /\ f_tools o' = f_tools o
  /\ f_dels o' = f_dels o.

Lemma foot_fetch host a (os : OS H) o :
  f_tools o = true ->
  wp (footprint_observer (python_exe a)) (pipeline_fetch exec WHISPER_PROJECT_DIR host a)
     (fun _ _ o' => foot_within 2 o o') (fun _ _ o' => foot_within 2 o o') os o.
Proof.
  destruct o as [k n w l b d]. cbn [f_tools]. intros ->. unfold foot_within.
  wp_go foot_simp. all: foot_leaf.
Qed.

Lemma foot_normalize py i dir p (os : OS H) o :
  f_tools o = true ->
  wp (footprint_observer py) (pipeline_normalize exec i dir p)
     (fun _ _ o' => foot_within 2 o o') (fun _ _ o' => foot_within 2 o o') os o.
Proof.
  destruct o as [k n w l b d]. cbn [f_tools]. intros ->. unfold foot_within.
  wp_go foot_simp. all: foot_leaf.
Qed.

Lemma foot_extract py m wv (os : OS H) o :
  f_tools o = true ->
  wp (footprint_observer py) (pipeline_extract exec m wv)
     (fun _ _ o' => foot_within 1 o o') (fun _ _ o' => foot_within 1 o o') os o.
Proof.
  destruct o as [k n w l b d]. cbn [f_tools]. intros ->. unfold foot_within.
  wp_go foot_simp. all: foot_leaf.
Qed.

(** The same, where the path [wav] may have been unlinked, once. *)
Definition foot_more (k : nat) (wav : string) (o o' : footprint) : Prop :=
  (f_tries o' <= f_tries o + k)%nat
  /\ (f_waits o' + f_lost o') + f_spawns o = (f_waits o + f_lost o) + f_spawns o'
  /\ (f_spawns o' + f_tries o <= f_spawns o + f_tries o')%nat
  /\ f_tools o' = f_tools o
  /\ (f_dels o' = f_dels o \/ f_dels o' = (f_dels o ++ [wav])%list).

Lemma foot_transcribe py wv td wd bs m l (os : OS H) o :
  f_tools o = true ->
  wp (footprint_observer py)
     (pipeline_transcribe exec WHISPER_PROJECT_DIR py wv td wd bs m l)
     (fun _ _ o' => foot_more 1 wv o o') (fun _ _ o' => foot_more 1 wv o o') os o.
Proof.
  destruct o as [k n w lo b d]. cbn [f_tools]. intros ->. unfold foot_more.
  wp_go foot_simp. all: foot_leaf.
Qed.

Lemma foot_rest host a d (os : OS H) o :
  f_tools o = true ->
  wp (footprint_observer (python_exe a)) (pipeline_rest exec WHISPER_PROJECT_DIR host a d)
     (fun _ _ o' => foot_more 4 (wav_path_of (run_workdir host a) (base_of d)) o o')
     (fun _ _ o' => foot_more 4 (wav_path_of (run_workdir host a) (base_of d)) o o') os o.
Proof.
  intros T. unfold pipeline_rest.
  destruct o as [k n w l b dl]. cbn [f_tools] in T. subst b.
  apply wp_bind, wp_log. rewrite foot_log.
  apply wp_bind, wp_log. rewrite foot_log.
  apply wp_bind.
  eapply wp_mono; [apply foot_normalize; reflexivity | | ].
  - intros u1 os1 o1 F1. cbn beta. apply wp_bind.
    assert (T1 : f_tools o1 = true) by (unfold foot_within in F1; cbn in F1; tauto).
    eapply wp_mono; [apply foot_extract; exact T1 | | ].
    + intros u2 os2 o2 F2. cbn beta.
      assert (T2 : f_tools o2 = true) by (unfold foot_within in F2; intuition congruence).
      eapply wp_mono; [apply foot_transcribe; exact T2 | | ];
        intros x os3 o3 F3; unfold foot_within, foot_more in *;
        cbn [f_tries f_spawns f_waits f_lost f_tools f_dels] in *;
        destruct F1 as (A1 & B1 & S1 & C1 & D1), F2 as (A2 & B2 & S2 & C2 & D2),
                 F3 as (A3 & B3 & S3 & C3 & D3);
        (split; [lia|]); (split; [lia|]); (split; [lia|]); (split; [congruence|]);
        rewrite D2, D1 in D3; exact D3.
    + intros e os2 o2 F2. unfold foot_within, foot_more in *.
      cbn [f_tries f_spawns f_waits f_lost f_tools f_dels] in *.
      destruct F1 as (A1 & B1 & S1 & C1 & D1), F2 as (A2 & B2 & S2 & C2 & D2).
      (split; [lia|]); (split; [lia|]); (split; [lia|]); (split; [congruence|]).
      left. congruence.
  - intros e os1 o1 F1. unfold foot_within, foot_more in *.
    cbn [f_tries f_spawns f_waits f_lost f_tools f_dels] in *.
    destruct F1 as (A1 & B1 & S1 & C1 & D1).
    (split; [lia|]); (split; [lia|]); (split; [lia|]); (split; [congruence|]).
    left. congruence.
Qed.

Definition foot_init : footprint :=
  {| f_tries := 0; f_spawns := 0; f_waits := 0; f_lost := 0; f_tools := true; f_dels := [] |}.

(** The footprint a whole run may have, [fetched] being what the Fetch stage
    returned. *)
Definition foot_run (host : Host) (a : App) (fetched : exn + string) (o : footprint) : Prop :=
  (f_tries o <= 6)%nat
  /\ (f_spawns o <= f_tries o)%nat
  /\ f_waits o + f_lost o = f_spawns o
  /\ f_tools o = true
  /\ (f_dels o = []
      \/ exists d, fetched = inr d
                   /\ f_dels o = [wav_path_of (run_workdir host a) (base_of d)]).

Lemma foot_body host a (os : OS H) :
  let fetched := r_val (pipeline_fetch exec WHISPER_PROJECT_DIR host a os) in
  wp (footprint_observer (python_exe a)) (pipeline_body exec WHISPER_PROJECT_DIR host a)
     (fun _ _ o' => foot_run host a fetched o') (fun _ _ o' => foot_run host a fetched o')
     os foot_init.
Proof.
  cbv zeta. unfold pipeline_body. apply wp_bind. apply wp_val.
  eapply wp_mono; [apply foot_fetch; reflexivity | | ].
  - intros d os1 o1 F1 Ed. cbn beta. apply wp_bind.
    assert (T1 : f_tools o1 = true) by (unfold foot_within in F1; cbn in F1; tauto).
    eapply wp_mono; [apply (foot_rest host a d); exact T1 | | ].
    + intros t os2 o2 F2. cbn beta. apply wp_ret.
      unfold foot_within, foot_more, foot_run, foot_init in *.
      cbn [f_tries f_spawns f_waits f_lost f_tools f_dels] in *.
      destruct F1 as (A1 & B1 & S1 & C1 & D1), F2 as (A2 & B2 & S2 & C2 & D2).
      (split; [lia|]); (split; [lia|]); (split; [lia|]); (split; [congruence|]).
      rewrite D1 in D2. destruct D2 as [D2|D2]; [left; exact D2 | right; eauto].
    + intros e os2 o2 F2.
      unfold foot_within, foot_more, foot_run, foot_init in *.
      cbn [f_tries f_spawns f_waits f_lost f_tools f_dels] in *.
      destruct F1 as (A1 & B1 & S1 & C1 & D1), F2 as (A2 & B2 & S2 & C2 & D2).
      (split; [lia|]); (split; [lia|]); (split; [lia|]); (split; [congruence|]).
      rewrite D1 in D2. destruct D2 as [D2|D2]; [left; exact D2 | right; eauto].
  - intros e os1 o1 F1 Ee. unfold foot_within, foot_run, foot_init in *.
    cbn [f_tries f_spawns f_waits f_lost f_tools f_dels] in *.
    destruct F1 as (A1 & B1 & S1 & C1 & D1).
    (split; [lia|]); (split; [lia|]); (split; [lia|]); (split; [congruence|]).
    left. exact D1.
Qed.

Lemma foot_thread host a (os : OS H) :
  let fetched := r_val (pipeline_fetch exec WHISPER_PROJECT_DIR host a os) in
  wp (footprint_observer (python_exe a)) (_pipeline_thread exec WHISPER_PROJECT_DIR host a)
     (fun _ _ o' => foot_run host a fetched o') (fun _ _ _ => False) os foot_init.
Proof.
  cbv zeta. unfold _pipeline_thread. apply wp_bind, wp_catch.
  eapply wp_mono; [apply foot_body | | ].
  - intros [[d m] t] os1 o1 F. cbn beta iota. destruct o1 as [k n w l b dl].
    wp_go foot_simp. exact F.
  - intros e os1 o1 F. cbn beta iota. destruct o1 as [k n w l b dl].
    wp_go foot_simp. exact F.
Qed.

(** A run attempts at most six launches; every process it spawned was either
    waited for or, its output being undecodable, given up unwaited; each
    command names the interpreter of the request, yt-dlp or ffmpeg; and the
    only path the run ever unlinks is the WAV path derived from the file the
    Fetch stage of this run returned, at most once. *)
Theorem run_footprint host a (os : OS H) :
  let tr := r_trace (_pipeline_thread exec WHISPER_PROJECT_DIR host a os) in
  (length (attempts tr) <= 6)%nat
  /\ (length (spawned tr) <= length (attempts tr))%nat
  /\ length (exits tr) + length (abandoned tr) = length (spawned tr)
  /\ forallb (tool_of (python_exe a)) (attempted tr) = true
  /\ (unlinked tr = []
      \/ exists d, r_val (pipeline_fetch exec WHISPER_PROJECT_DIR host a os) = inr d
                   /\ unlinked tr = [OsPath.join (OsPath.join (run_workdir host a) "mp4")
                                                 (base_of d ++ ".wav")]).
Proof.
  cbv zeta. pose proof (wp_read _ _ _ _ _ _ _ (foot_thread host a os)) as W.
  revert W. generalize (_pipeline_thread exec WHISPER_PROJECT_DIR host a os).
  generalize (r_val (pipeline_fetch exec WHISPER_PROJECT_DIR host a os)).
  intros fetched r W. destruct r as [t os' v]. cbn [r_val r_os r_trace] in *.
  destruct v as [e|a']; [contradiction|].
  unfold foot_run in W. cbn [ext footprint_observer] in W.
  unfold footprint_ext, foot_init in W.
  cbn [f_tries f_spawns f_waits f_lost f_tools f_dels] in W.
  cbn [Nat.add andb app] in W. exact W.
Qed.

End Footprint.

(* ================================================================== *)
(** ** Quoting of the logged command line *)
(* ================================================================== *)

Lemma length_append (a b : string) :
  String.length (a ++ b) = (String.length a + String.length b)%nat.
Proof. induction a; simpl; [reflexivity | f_equal; assumption]. Qed.

Lemma replace_char_length (a : ascii) (b s : string) :
  (1 <= String.length b)%nat ->
  (String.length s <= String.length (PyStr.replace_char a b s))%nat.
Proof.
  intros L. induction s as [|c r IH]; simpl; [lia|].
  destruct (Ascii.eqb c a); [rewrite length_append | simpl]; lia.
Qed.

(** A word that needs no quoting: not empty, and made of the characters
    [shlex.quote] leaves alone. *)
Definition plain_word (s : string) : bool :=
  PyStr.truthy s && forallb shlex_safe (list_ascii_of_string s).

(** [shlex.quote] returns its argument unchanged exactly when the argument
    is a plain word; every other argument comes back longer by at least the
    two single quotes put around it, and these are its first and last
    characters.  The result is never empty. *)
Theorem shlex_quote_cases (s : string) :
  (shlex_quote s = s <-> plain_word s = true)
  /\ (plain_word s = false ->
      (String.length s + 2 <= String.length (shlex_quote s))%nat
      /\ PyStr.startswith (shlex_quote s) "'" = true
      /\ PyStr.endswith (shlex_quote s) "'" = true)
  /\ PyStr.truthy (shlex_quote s) = true.
Proof.
  unfold plain_word, shlex_quote.
  destruct s as [|c r]; [cbn; repeat split; try discriminate; lia|].
  cbn [PyStr.truthy andb].
  destruct (forallb shlex_safe (list_ascii_of_string (String c r))) eqn:S.
  - repeat split; try discriminate.
  - set (q := PyStr.replace_char _ _ _).
    assert (L : (String.length (String c r) <= String.length q)%nat)
      by (apply replace_char_length; cbn; lia).
    assert (Len : String.length (PyStr.SQUOTE ++ q ++ PyStr.SQUOTE)
                  = (String.length q + 2)%nat).
    { rewrite !length_append. cbn. lia. }
    split; [split; [|discriminate]|].
    + intros E. exfalso. apply (f_equal String.length) in E. rewrite Len in E. lia.
    + split; [|reflexivity]. intros _. split; [rewrite Len; lia|].
      clearbody q. split.
      * exact (prefix_refl_app "'" (q ++ PyStr.SQUOTE)).
      * unfold PyStr.endswith. rewrite !rev_string_append.
        exact (prefix_refl_app "'" (PyStr.rev q ++ "'")).
Qed.

Lemma join_map_plain (cmd : list string) :
  forallb plain_word cmd = true -> map shlex_quote cmd = cmd.
Proof.
  induction cmd as [|x rest IH]; cbn [forallb map]; [reflexivity|].
  intros A. apply andb_true_iff in A as [P R].
  rewrite (IH R). f_equal. apply (proj1 (shlex_quote_cases x)). exact P.
Qed.

(** When every argument is a plain word, the command line that is logged is
    the arguments joined by single spaces, with no quote added. *)
Theorem pretty_cmd_plain (cmd : list string) :
  forallb plain_word cmd = true ->
  _pretty_cmd cmd = PyStr.join " " cmd.
Proof. intros P. unfold _pretty_cmd. rewrite (join_map_plain cmd P). reflexivity. Qed.

Lemma pretty_cmd_plain_witness :
  _pretty_cmd (wav_cmd "/tmp/run1/mp4/a.mp4" "/tmp/run1/mp4/a.wav")
  = PyStr.join " " (wav_cmd "/tmp/run1/mp4/a.mp4" "/tmp/run1/mp4/a.wav").
Proof. apply pretty_cmd_plain. vm_compute. reflexivity. Defined.

(* ================================================================== *)
(** ** The logger *)
(* ================================================================== *)

(** [class Logger] (lines 35-70).  The logger owns a queue and the path of
    the log file; it writes into the Text widget it was given and appends to
    the log file.  Worker threads call [log]; the Tk main loop calls [_pump]
    every 60 ms.  [can_open] says whether [open(path, "a")] succeeds on the
    files as they are.  The embedding of the pipeline records each call of
    [log] as an event and keeps the content of the log file out of [FS];
    this model says what the logger does with those calls. *)
Module Logger.

Definition Files := list (string * string).

Fixpoint read (fs : Files) (p : string) : option string :=
  match fs with
  | [] => None
  | (q, c) :: rest => if String.eqb q p then Some c else read rest p
  end.

(** [f.write(line)] on a file opened for appending: created when absent. *)
Fixpoint append_to (fs : Files) (p line : string) : Files :=
  match fs with
  | [] => [(p, line)]
  | (q, c) :: rest =>
      if String.eqb q p then (q, c ++ line) :: rest
      else (q, c) :: append_to rest p line
  end.

Record t := {
  text : string;
  text_state : widget_state;
  q : list string;
  logfile_path : option string;
  files : Files
}.

Section Ops.
Variable can_open : Files -> string -> bool.

(** [Logger.__init__]: the widget is disabled; the first [_pump] finds the
    queue empty. *)
Definition init (widget_text : string) (fs : Files) : t :=
  {| text := widget_text; text_state := disabled; q := [];
     logfile_path := None; files := fs |}.

Definition set_logfile (lg : t) (path : string) : t :=
  {| text := text lg; text_state := text_state lg; q := q lg;
     logfile_path := Some path; files := files lg |}.

(** [_write_file]: nothing without a path; a failure to open or write is
    swallowed. *)
Definition _write_file (lg : t) (msg : string) : t :=
  match logfile_path lg with
  | None => lg
  | Some p =>
      if negb (PyStr.truthy p) then lg
      else if can_open (files lg) p then
        {| text := text lg; text_state := text_state lg; q := q lg;
           logfile_path := logfile_path lg;
           files := append_to (files lg) p (msg ++ PyStr.LF) |}
      else lg
  end.

(** [log]: the file first, then the queue. *)
Definition log (lg : t) (msg : string) : t :=
  let lg' := _write_file lg msg in
  {| text := text lg'; text_state := text_state lg'; q := (q lg' ++ [msg])%list;
     logfile_path := logfile_path lg'; files := files lg' |}.

(** The loop of [_pump]: each queued message is inserted at the end of the
    widget, which is enabled for the insertion and disabled again. *)
Fixpoint drain (txt : string) (st : widget_state) (queue : list string)
  : string * widget_state :=
  match queue with
  | [] => (txt, st)
  | m :: rest => drain (txt ++ m ++ PyStr.LF) disabled rest
  end.

Definition _pump (lg : t) : t :=
  let (txt, st) := drain (text lg) (text_state lg) (q lg) in
  {| text := txt; text_state := st; q := [];
     logfile_path := logfile_path lg; files := files lg |}.

(** What can happen to a logger, in any order. *)
Inductive op :=
| Log (msg : string)
| Pump
| SetLogfile (path : string).

Definition step (lg : t) (o : op) : t :=
  match o with
  | Log m => log lg m
  | Pump => _pump lg
  | SetLogfile p => set_logfile lg p
  end.

Definition run (lg : t) (ops : list op) : t := fold_left step ops lg.

(** The messages logged by a sequence of operations, in order. *)
Definition logged (ops : list op) : list string :=
  flat_map (fun o => match o with Log m => [m] | _ => [] end) ops.

Definition no_set (ops : list op) : bool :=
  forallb (fun o => match o with SetLogfile _ => false | _ => true end) ops.

(** The lines [msgs] make, each closed by a line feed. *)
Definition lines (msgs : list string) : string :=
  String.concat "" (map (fun m => m ++ PyStr.LF) msgs).

End Ops.
End Logger.

Lemma lines_cons (m : string) (ms : list string) :
  Logger.lines (m :: ms) = (m ++ PyStr.LF) ++ Logger.lines ms.
Proof.
  unfold Logger.lines. cbn [map String.concat].
  destruct (map _ ms) eqn:E; [cbn; rewrite append_empty_r; reflexivity | reflexivity].
Qed.

Lemma lines_app (a b : list string) :
  Logger.lines (a ++ b) = Logger.lines a ++ Logger.lines b.
Proof.
  induction a as [|m a IH]; [reflexivity|].
  cbn [app]. rewrite !lines_cons, IH, !append_assoc3. reflexivity.
Qed.

Lemma drain_text (txt : string) (st : widget_state) (queue : list string) :
  fst (Logger.drain txt st queue) = txt ++ Logger.lines queue.
Proof.
  revert txt st. induction queue as [|m r IH]; intros txt st; cbn [Logger.drain].
  - cbn. rewrite append_empty_r. reflexivity.
  - rewrite IH, lines_cons, !append_assoc3. reflexivity.
Qed.

Lemma drain_state (txt : string) (st : widget_state) (queue : list string) :
  st = disabled -> snd (Logger.drain txt st queue) = disabled.
Proof.
  revert txt st. induction queue as [|m r IH]; intros txt st E; cbn [Logger.drain].
  - exact E.
  - apply IH. reflexivity.
Qed.

Section LoggerFacts.
Variable can_open : Logger.Files -> string -> bool.

Lemma write_file_frame (lg : Logger.t) (msg : string) :
  Logger.text (Logger._write_file can_open lg msg) = Logger.text lg
  /\ Logger.text_state (Logger._write_file can_open lg msg) = Logger.text_state lg
  /\ Logger.q (Logger._write_file can_open lg msg) = Logger.q lg
  /\ Logger.logfile_path (Logger._write_file can_open lg msg) = Logger.logfile_path lg.
Proof.
  unfold Logger._write_file. destruct (Logger.logfile_path lg) as [p|] eqn:P.
  - destruct (negb (PyStr.truthy p)); [rewrite P; auto|].
    destruct (can_open (Logger.files lg) p); cbn; rewrite ?P; auto.
  - rewrite P. auto.
Qed.

(** What is shown and what is still queued, together, after one step. *)
Lemma step_shown (lg : Logger.t) (o : Logger.op) :
  Logger.text (Logger.step can_open lg o)
    ++ Logger.lines (Logger.q (Logger.step can_open lg o))
  = (Logger.text lg ++ Logger.lines (Logger.q lg)) ++ Logger.lines (Logger.logged [o]).
Proof.
  destruct o as [m| |p]; cbn [Logger.step Logger.logged flat_map app].
  - unfold Logger.log. cbv zeta. cbn [Logger.text Logger.q].
    destruct (write_file_frame lg m) as (T & _ & Q & _). rewrite T, Q.
    rewrite lines_app, append_assoc3. reflexivity.
  - unfold Logger._pump.
    pose proof (drain_text (Logger.text lg) (Logger.text_state lg) (Logger.q lg)) as D.
    destruct (Logger.drain _ _ _) as [txt st]. cbn [fst] in D.
    cbn [Logger.text Logger.q]. rewrite D. cbn. rewrite !append_empty_r. reflexivity.
  - cbn. rewrite append_empty_r. reflexivity.
Qed.

Lemma step_disabled (lg : Logger.t) (o : Logger.op) :
  Logger.text_state lg = disabled ->
  Logger.text_state (Logger.step can_open lg o) = disabled.
Proof.
  intros E. destruct o as [m| |p]; cbn [Logger.step].
  - unfold Logger.log. cbv zeta. cbn [Logger.text_state].
    destruct (write_file_frame lg m) as (_ & S & _). rewrite S. exact E.
  - unfold Logger._pump.
    pose proof (drain_state (Logger.text lg) (Logger.text_state lg) (Logger.q lg) E) as D.
    destruct (Logger.drain _ _ _) as [txt st]. exact D.
  - exact E.
Qed.

Lemma logged_app (a b : list Logger.op) :
  Logger.logged (a ++ b) = (Logger.logged a ++ Logger.logged b)%list.
Proof. apply flat_map_app. Qed.

Lemma run_shown (lg : Logger.t) (ops : list Logger.op) :
  Logger.text (Logger.run can_open lg ops)
    ++ Logger.lines (Logger.q (Logger.run can_open lg ops))
  = (Logger.text lg ++ Logger.lines (Logger.q lg)) ++ Logger.lines (Logger.logged ops).
Proof.
  revert lg. induction ops as [|o ops IH]; intros lg.
  - cbn. rewrite append_empty_r. reflexivity.
  - change (Logger.run can_open lg (o :: ops))
      with (Logger.run can_open (Logger.step can_open lg o) ops).
    rewrite IH, step_shown.
    change (o :: ops)%list with ([o] ++ ops)%list.
    rewrite logged_app, lines_app, !append_assoc3. reflexivity.
Qed.

Lemma run_disabled (lg : Logger.t) (ops : list Logger.op) :
  Logger.text_state lg = disabled ->
  Logger.text_state (Logger.run can_open lg ops) = disabled.
Proof.
  revert lg. induction ops as [|o ops IH]; intros lg E; [exact E|].
  apply IH. apply step_disabled. exact E.
Qed.

Lemma run_app (lg : Logger.t) (a b : list Logger.op) :
  Logger.run can_open lg (a ++ b) = Logger.run can_open (Logger.run can_open lg a) b.
Proof. unfold Logger.run. apply fold_left_app. Qed.

Lemma pump_text (lg : Logger.t) :
  Logger.text (Logger._pump lg) = Logger.text lg ++ Logger.lines (Logger.q lg).
Proof.
  unfold Logger._pump.
  pose proof (drain_text (Logger.text lg) (Logger.text_state lg) (Logger.q lg)) as D.
  destruct (Logger.drain _ _ _) as [txt st]. exact D.
Qed.

Lemma pump_queue (lg : Logger.t) : Logger.q (Logger._pump lg) = [].
Proof. unfold Logger._pump. destruct (Logger.drain _ _ _). reflexivity. Qed.

(** Whatever the order in which worker threads log and the main loop pumps,
    no message is lost, repeated or reordered: what the widget shows followed
    by what is still queued is the initial text followed by the logged
    messages, one per line, in the order of the calls.  After a pump the
    queue is empty and the widget shows them all.  The widget is disabled
    whenever the logger is at rest. *)
Theorem logger_fifo (widget_text : string) (fs : Logger.Files) (ops : list Logger.op) :
  let lg := Logger.run can_open (Logger.init widget_text fs) ops in
  let lg' := Logger.run can_open (Logger.init widget_text fs) (ops ++ [Logger.Pump]) in
  Logger.text lg ++ Logger.lines (Logger.q lg)
    = widget_text ++ Logger.lines (Logger.logged ops)
  /\ Logger.text lg' = widget_text ++ Logger.lines (Logger.logged ops)
  /\ Logger.q lg' = []
  /\ Logger.text_state lg = disabled.
Proof.
  cbv zeta. rewrite run_app.
  change (Logger.run can_open ?x [Logger.Pump]) with (Logger._pump x).
  rewrite pump_text, pump_queue, run_shown.
  cbn [Logger.init Logger.text Logger.q Logger.lines map String.concat].
  rewrite append_empty_r. repeat split. apply run_disabled. reflexivity.
Qed.

Lemma read_append_same (fs : Logger.Files) (p line : string) :
  Logger.read (Logger.append_to fs p line) p
  = Some (match Logger.read fs p with Some c => c | None => "" end ++ line).
Proof.
  induction fs as [|[q0 c] rest IH]; cbn [Logger.append_to Logger.read].
  - rewrite String.eqb_refl. reflexivity.
  - destruct (String.eqb q0 p) eqn:E; cbn [Logger.read]; rewrite E; [reflexivity | exact IH].
Qed.

Lemma read_append_other (fs : Logger.Files) (p p' line : string) :
  p' <> p -> Logger.read (Logger.append_to fs p line) p' = Logger.read fs p'.
Proof.
  intros N. induction fs as [|[q0 c] rest IH]; cbn [Logger.append_to Logger.read].
  - destruct (String.eqb_spec p p'); [congruence | reflexivity].
  - destruct (String.eqb q0 p) eqn:E; cbn [Logger.read].
    + apply String.eqb_eq in E. subst q0.
      destruct (String.eqb_spec p p'); [congruence | reflexivity].
    + destruct (String.eqb q0 p'); [reflexivity | exact IH].
Qed.

(** The content of a file, empty when the file is absent. *)
Definition content (fs : Logger.Files) (p : string) : string :=
  match Logger.read fs p with Some c => c | None => "" end.

Lemma step_path (lg : Logger.t) (o : Logger.op) :
  match o with Logger.SetLogfile _ => False | _ => True end ->
  Logger.logfile_path (Logger.step can_open lg o) = Logger.logfile_path lg.
Proof.
  destruct o as [m| |p]; cbn [Logger.step]; intros N; [| |contradiction].
  - unfold Logger.log. cbv zeta. cbn [Logger.logfile_path].
    apply (write_file_frame lg m).
  - unfold Logger._pump. destruct (Logger.drain _ _ _). reflexivity.
Qed.

Lemma pump_files (lg : Logger.t) : Logger.files (Logger._pump lg) = Logger.files lg.
Proof. unfold Logger._pump. destruct (Logger.drain _ _ _). reflexivity. Qed.

(** Once the log file is set and can be opened, every message logged is
    appended to it as one line, in the order of the calls and whether or not
    the widget has been pumped; the file is created by the first message;
    no other file is touched. *)
Theorem logger_file_appends (p : string) (lg : Logger.t) (ops : list Logger.op) :
  Logger.logfile_path lg = Some p ->
  PyStr.truthy p = true ->
  (forall fs, can_open fs p = true) ->
  Logger.no_set ops = true ->
  let lg' := Logger.run can_open lg ops in
  content (Logger.files lg') p
    = content (Logger.files lg) p ++ Logger.lines (Logger.logged ops)
  /\ (Logger.logged ops <> [] -> Logger.read (Logger.files lg') p <> None)
  /\ (forall p', p' <> p ->
        Logger.read (Logger.files lg') p' = Logger.read (Logger.files lg) p').
Proof.
  intros P T C. revert lg P. induction ops as [|o ops IH]; intros lg P N; cbv zeta.
  - cbn. rewrite append_empty_r. repeat split; congruence.
  - cbn [Logger.no_set forallb] in N. apply andb_true_iff in N as [No N].
    change (Logger.run can_open lg (o :: ops))
      with (Logger.run can_open (Logger.step can_open lg o) ops).
    assert (P' : Logger.logfile_path (Logger.step can_open lg o) = Some p).
    { rewrite step_path; [exact P|]. destruct o; [exact I | exact I | discriminate]. }
    destruct (IH (Logger.step can_open lg o) P' N) as (A & B & F). cbv zeta in A, B, F.
    destruct o as [m| |q0]; [| |discriminate No].
    + assert (W : Logger.files (Logger.step can_open lg (Logger.Log m))
                  = Logger.append_to (Logger.files lg) p (m ++ PyStr.LF)).
      { cbn [Logger.step]. unfold Logger.log. cbv zeta. cbn [Logger.files].
        unfold Logger._write_file. rewrite P, T, C. reflexivity. }
      rewrite W in A, F.
      split; [|split].
      * rewrite A. unfold content at 1. rewrite read_append_same.
        change (Logger.logged (Logger.Log m :: ops)) with (m :: Logger.logged ops).
        rewrite lines_cons, !append_assoc3. reflexivity.
      * intros _ Hn. unfold content in A. rewrite Hn, read_append_same in A.
        unfold PyStr.LF in A.
        destruct (Logger.read (Logger.files lg) p) as [[|c0 x]|]; destruct m;
          cbn in A; discriminate A.
      * intros p' Np. rewrite (F p' Np). apply read_append_other. exact Np.
    + cbn [Logger.step] in A, B, F. rewrite pump_files in A, F.
      change (Logger.logged (Logger.Pump :: ops)) with (Logger.logged ops).
      repeat split; assumption.
Qed.

(** Without a log file, with an empty path, or while the file cannot be
    opened, logging leaves every file as it is and raises nothing: the
    failure is swallowed and the message still reaches the queue. *)
Theorem logger_write_failure_silent (lg : Logger.t) (ops : list Logger.op) :
  match Logger.logfile_path lg with
  | None => True
  | Some p => PyStr.truthy p = false \/ forall fs, can_open fs p = false
  end ->
  Logger.no_set ops = true ->
  Logger.files (Logger.run can_open lg ops) = Logger.files lg.
Proof.
  revert lg. induction ops as [|o ops IH]; intros lg M N; [reflexivity|].
  cbn [Logger.no_set forallb] in N. apply andb_true_iff in N as [No N].
  change (Logger.run can_open lg (o :: ops))
    with (Logger.run can_open (Logger.step can_open lg o) ops).
  assert (P' : Logger.logfile_path (Logger.step can_open lg o) = Logger.logfile_path lg).
  { apply step_path. destruct o; [exact I | exact I | discriminate]. }
  rewrite IH; [| rewrite P'; exact M | exact N].
  destruct o as [m| |q0]; [| |discriminate No].
  - cbn [Logger.step]. unfold Logger.log. cbv zeta. cbn [Logger.files].
    unfold Logger._write_file. destruct (Logger.logfile_path lg) as [p|]; [|reflexivity].
    destruct M as [M|M]; [rewrite M; reflexivity|].
    destruct (negb (PyStr.truthy p)); [reflexivity|]. rewrite M. reflexivity.
  - apply pump_files.
Qed.

End LoggerFacts.

Lemma logger_file_appends_witness :
  let can_open := fun (_ : Logger.Files) (_ : string) => true in
  let p := "/tmp/run1/whisper_youtube_log.txt" in
  let lg := Logger.set_logfile (Logger.log can_open (Logger.init "" []) "early") p in
  let lg' := Logger.run can_open lg [Logger.Log "a"; Logger.Pump; Logger.Log "b"] in
  Logger.read (Logger.files lg') p = Some ("a" ++ PyStr.LF ++ "b" ++ PyStr.LF)
  /\ Logger.text lg' = "early" ++ PyStr.LF ++ "a" ++ PyStr.LF.
Proof.
  cbv zeta.
  destruct (logger_file_appends (fun _ _ => true) "/tmp/run1/whisper_youtube_log.txt"
              (Logger.set_logfile (Logger.log (fun _ _ => true) (Logger.init "" []) "early")
                                  "/tmp/run1/whisper_youtube_log.txt")
              [Logger.Log "a"; Logger.Pump; Logger.Log "b"]
              eq_refl eq_refl (fun _ => eq_refl) eq_refl) as (A & B & _).
  cbv zeta in A, B. split; [|reflexivity].
  unfold content in A.
  destruct (Logger.read _ _) as [c|] eqn:R; [|exfalso; apply B; [discriminate | reflexivity]].
  rewrite A. reflexivity.
Defined.

Lemma logger_write_failure_witness :
  let can_open := fun (_ : Logger.Files) (_ : string) => false in
  let lg := Logger.set_logfile (Logger.init "" [("/ro/log.txt", "kept")]) "/ro/log.txt" in
  Logger.files (Logger.run can_open lg [Logger.Log "a"; Logger.Pump; Logger.Log "b"])
  = [("/ro/log.txt", "kept")].
Proof.
  cbv zeta.
  apply (logger_write_failure_silent (fun _ _ => false)
           (Logger.set_logfile (Logger.init "" [("/ro/log.txt", "kept")]) "/ro/log.txt")).
  - right. intros fs. reflexivity.
  - reflexivity.
Defined.

(* ================================================================== *)
(** ** The removal of the WAV spares the other artifacts *)
(* ================================================================== *)

(** [s] ends with the character [c]. *)
Definition ends_in (c : ascii) (s : string) : Prop := exists u, s = u ++ String c "".

Lemma ends_in_append (c : ascii) (a b : string) : ends_in c b -> ends_in c (a ++ b).
Proof. intros [u ->]. exists (a ++ u). symmetry. apply append_assoc3. Qed.

Lemma ends_in_join (c : ascii) (a b : string) : ends_in c b -> ends_in c (OsPath.join a b).
Proof.
  intros E. unfold OsPath.join. destruct (PyStr.startswith b "/"); [exact E|].
  destruct (negb (PyStr.truthy a) || PyStr.endswith a "/").
  - apply ends_in_append. exact E.
  - apply ends_in_append. apply (ends_in_append c "/"). exact E.
Qed.

Lemma snoc_inj (u v : string) (c d : ascii) :
  u ++ String c "" = v ++ String d "" -> c = d.
Proof.
  revert v. induction u as [|x u IH]; intros v E.
  - destruct v as [|y v]; cbn in E; [inversion E; reflexivity|].
    inversion E as [[X Y]]. destruct v; discriminate Y.
  - destruct v as [|y v]; cbn in E.
    + inversion E as [[X Y]]. destruct u; discriminate Y.
    + inversion E as [[X Y]]. apply (IH v Y).
Qed.

Lemma ends_in_unique (c d : ascii) (s : string) : ends_in c s -> ends_in d s -> c = d.
Proof. intros [u ->] [v E]. exact (snoc_inj u v c d E). Qed.

Lemma last_char_exists (c : ascii) (s : string) :
  exists u x, String c s = u ++ String x "".
Proof.
  revert c. induction s as [|y s IH]; intros c.
  - exists "", c. reflexivity.
  - destruct (IH y) as (u & x & E). exists (String c u), x. cbn. rewrite E. reflexivity.
Qed.

Lemma lower_append (a b : string) : PyStr.lower (a ++ b) = PyStr.lower a ++ PyStr.lower b.
Proof. induction a; cbn; [reflexivity | f_equal; assumption]. Qed.

(** A name whose lower-case form ends in ".txt" ends with [t] or [T]. *)
Lemma txt_name_ends (c : string) :
  PyStr.endswith (PyStr.lower c) ".txt" = true ->
  exists x, ends_in x c /\ PyStr.lower_char x = "t"%char.
Proof.
  destruct c as [|c0 c]; [cbn; discriminate|].
  destruct (last_char_exists c0 c) as (u & x & E). rewrite E.
  intros P. exists x. split; [exists u; reflexivity|].
  unfold PyStr.endswith in P. rewrite lower_append, rev_string_append in P.
  cbn [PyStr.lower] in P.
  change (PyStr.rev (String (PyStr.lower_char x) ""))
    with (String (PyStr.lower_char x) "") in P.
  change (PyStr.rev ".txt") with "txt." in P.
  cbn [append String.prefix] in P.
  destruct (ascii_dec "t" (PyStr.lower_char x)) as [T|T]; [symmetry; exact T | discriminate P].
Qed.

(** The text path the Transcribe stage settles on is never a WAV path. *)
Lemma chosen_txt_not_wav (fs : FS) (td wd b dir b' : string) :
  chosen_txt fs td wd b <> OsPath.join dir (b' ++ ".wav").
Proof.
  assert (V : ends_in "v" (OsPath.join dir (b' ++ ".wav"))).
  { apply ends_in_join. exists (b' ++ ".wa"). rewrite append_assoc3. reflexivity. }
  assert (T : ends_in "t" (OsPath.join td (b ++ ".txt"))).
  { apply ends_in_join. exists (b ++ ".tx"). rewrite append_assoc3. reflexivity. }
  intros E. rewrite <- E in V. clear E.
  unfold chosen_txt in V. destruct (isfile fs _).
  - pose proof (ends_in_unique _ _ _ V T). discriminate.
  - destruct (sorted _) as [|c cs] eqn:S.
    + pose proof (ends_in_unique _ _ _ V T). discriminate.
    + apply sorted_head_candidate in S as (_ & _ & L).
      apply txt_name_ends in L as (x & X & Lx).
      pose proof (ends_in_unique _ _ _ V (ends_in_join x wd c X)) as Q.
      subst x. vm_compute in Lx. discriminate Lx.
Qed.

Lemma path_suffix_differs (dir b s1 s2 : string) (c1 c2 : ascii) :
  ends_in c1 s1 -> ends_in c2 s2 -> c1 <> c2 ->
  OsPath.join dir (b ++ s1) <> OsPath.join dir (b ++ s2).
Proof.
  intros E1 E2 N E.
  apply N. apply (ends_in_unique c1 c2 (OsPath.join dir (b ++ s1))).
  - apply ends_in_join, ends_in_append. exact E1.
  - rewrite E. apply ends_in_join, ends_in_append. exact E2.
Qed.

Section Spare.
Variable H : Type.
Variable exec : H -> FS -> list string -> string -> list (string * string) -> exec_result H.
Variable WHISPER_PROJECT_DIR : string.


End Spare.

(* ================================================================== *)
(** ** The closing report and the controller after a run *)
(* ================================================================== *)

Section Report.
Variable H : Type.
Variable exec : H -> FS -> list string -> string -> list (string * string) -> exec_result H.
Variable WHISPER_PROJECT_DIR : string.

Lemma body_names_mp4 host a (os : OS H) o :
  wp trace_observer (pipeline_body exec WHISPER_PROJECT_DIR host a)
     (fun p _ _ => snd (fst p) = mp4_path_of (run_workdir host a) (base_of (fst (fst p))))
     (fun _ _ _ => True) os o.
Proof.
  unfold pipeline_body. apply wp_bind.
  eapply wp_mono; [apply wp_any | | auto].
  intros d os1 o1 _. apply wp_bind.
  eapply wp_mono; [apply wp_any | | auto].
  intros t os2 o2 _. cbn beta. apply wp_ret. reflexivity.
Qed.

Lemma thread_report_wp host a (os : OS H) :
  wp trace_observer (_pipeline_thread exec WHISPER_PROJECT_DIR host a)
     (fun a' _ tr =>
        (status_var a' = status_done ->
         exists pre d,
           tr = (pre ++ [Log "=== Terminé ✅ ===";
                         Log ("VIDEO: " ++ d);
                         Log ("MP4:   " ++ mp4_path_of (run_workdir host a) (base_of d));
                         Log ("TXT:   " ++ output_txt_var a')])%list)
        /\ (status_var a' = status_error ->
            exists pre msg, tr = (pre ++ [Log "=== Erreur ❌ ==="; Log msg])%list))
     (fun _ _ _ => False) os [].
Proof.
  unfold _pipeline_thread. apply wp_bind, wp_catch.
  eapply wp_mono; [apply body_names_mp4 | | ].
  - intros [[d m] t] os1 o1 F. cbn [fst snd] in F. subst m. cbn beta iota.
    wp_go idtac. cbn [status_var output_txt_var set_btn_run set_status set_btn_copy
                      set_output_txt ext trace_observer].
    split; [intros _ | intros X; vm_compute in X; discriminate X].
    exists o1, d. rewrite <- !app_assoc. reflexivity.
  - intros e os1 o1 _. cbn beta iota.
    wp_go idtac. cbn [status_var set_btn_run set_status ext trace_observer].
    split; [intros X; vm_compute in X; discriminate X | intros _].
    exists o1, (str_exn e). rewrite <- !app_assoc. reflexivity.
Qed.

(** The last lines of a run.  A run that ends with the done status closes
    its log with the done line followed by the paths of the video, of the
    MP4 (the declared one for the base of the video) and of the text file,
    the same path it reports to the copy button; a run that ends with the
    error status closes it with the error line followed by one message. *)
Theorem thread_report host a (os : OS H) :
  let r := _pipeline_thread exec WHISPER_PROJECT_DIR host a os in
  match r_val r with
  | inl _ => False
  | inr a' =>
      (status_var a' = status_done ->
       exists pre d,
         r_trace r
         = (pre ++ [Log "=== Terminé ✅ ===";
                    Log ("VIDEO: " ++ d);
                    Log ("MP4:   " ++ mp4_path_of (run_workdir host a) (base_of d));
                    Log ("TXT:   " ++ output_txt_var a')])%list)
      /\ (status_var a' = status_error ->
          exists pre msg, r_trace r = (pre ++ [Log "=== Erreur ❌ ==="; Log msg])%list)
  end.
Proof.
  cbv zeta. pose proof (wp_read _ _ _ _ _ _ _ (thread_report_wp host a os)) as W.
  revert W. generalize (_pipeline_thread exec WHISPER_PROJECT_DIR host a os).
  intros r W. destruct r as [t os' v]. cbn [r_val r_os r_trace] in *.
  destruct v as [e|a']; [contradiction|]. exact W.
Qed.

(** The worker returns an application object whose run button is enabled. *)
Lemma thread_returns_enabled host a (os : OS H) :
  exists a', r_val (_pipeline_thread exec WHISPER_PROJECT_DIR host a os) = inr a'
             /\ btn_run a' = normal.
Proof.
  pose proof (wp_read _ _ _ _ _ _ _ (thread_outcome_wp H exec WHISPER_PROJECT_DIR host a os))
    as W.
  revert W. generalize (_pipeline_thread exec WHISPER_PROJECT_DIR host a os).
  intros r W. destruct r as [t os' v]. cbn [r_val r_os r_trace] in *.
  destruct v as [e|a']; [contradiction|]. exists a'. split; [reflexivity | tauto].
Qed.

(** When the worker ends, the controller is idle again and the run button is
    enabled. *)
Theorem worker_end_reenables host (c : Ctl H) :
  reachable exec WHISPER_PROJECT_DIR c ->
  idle c = false ->
  let c' := ctl_step exec WHISPER_PROJECT_DIR host c Finish in
  idle c' = true /\ btn_run (c_app c') = normal.
Proof.
  intros R Bz. apply reachable_one_worker in R. destruct R as [_ L].
  cbv zeta. cbn [ctl_step]. unfold finish_job.
  destruct (c_jobs c) as [|job rest] eqn:J; [unfold idle in Bz; rewrite J in Bz; discriminate|].
  assert (rest = []) by (destruct rest; [reflexivity | cbn in L; lia]). subst rest.
  cbv zeta.
  destruct (thread_returns_enabled host job (c_os c)) as (a' & E & B).
  rewrite E. unfold idle. cbn [c_app c_jobs publish btn_run]. split; [reflexivity | exact B].
Qed.

Lemma start_pipeline_button host a (os : OS H) :
  match r_val (start_pipeline host a os) with
  | inl _ => False
  | inr (a', ok) =>
      r_os (start_pipeline host a os) = os
      /\ btn_run a' = (if ok then disabled else btn_run a)
  end.
Proof.
  assert (W : wp trace_observer (start_pipeline host a)
                 (fun p os' _ => os' = os
                                 /\ btn_run (fst p) = (if snd p then disabled else btn_run a))
                 (fun _ _ _ => False) os []).
  { unfold start_pipeline. wp_go idtac. all: cbn [fst snd]; split; reflexivity. }
  apply wp_read in W.
  destruct (r_val (start_pipeline host a os)) as [e|[a' ok]]; [contradiction | exact W].
Qed.

(** An idle controller has its run button enabled. *)
Definition idle_enabled (c : Ctl H) : Prop :=
  c_jobs c = [] -> btn_run (c_app c) = normal.

Lemma reachable_idle_enabled (c : Ctl H) :
  reachable exec WHISPER_PROJECT_DIR c -> idle_enabled c.
Proof.
  induction 1 as [a os Bn | host c i R IH]; [intros _; exact Bn|].
  pose proof (reachable_one_worker _ _ _ _ R) as [_ L].
  unfold idle_enabled in *. destruct i as [u w m l| |]; cbn [ctl_step].
  - cbn [c_app c_jobs edit_fields btn_run]. exact IH.
  - unfold press_run. destruct (btn_run (c_app c)) eqn:Bn;
      [|intros J0; rewrite Bn; exact (IH J0)]. cbv zeta.
    pose proof (start_pipeline_button host (c_app c) (c_os c)) as S.
    destruct (r_val (start_pipeline host (c_app c) (c_os c))) as [e|[a' [|]]];
      [contradiction | cbn [c_jobs]; discriminate |].
    cbn [c_app c_jobs]. intros _. destruct S as [_ S]. rewrite S. exact Bn.
  - unfold finish_job. destruct (c_jobs c) as [|job rest] eqn:J; [rewrite J; exact IH|].
    cbv zeta. destruct (thread_returns_enabled host job (c_os c)) as (a' & E & B).
    rewrite E. cbn [c_app c_jobs publish btn_run]. intros _. exact B.
Qed.

(** A press on the run button of an idle controller always reaches
    [start_pipeline] (the button is enabled), on the application object and
    the machine as they are.  An accepted request starts exactly one worker,
    for the application object [start_pipeline] left, and leaves the button
    disabled; a refused one starts none and leaves the button enabled.  No
    process is launched by the press itself. *)
Theorem idle_press_starts host (c : Ctl H) :
  reachable exec WHISPER_PROJECT_DIR c ->
  idle c = true ->
  let c' := ctl_step exec WHISPER_PROJECT_DIR host c Press in
  match r_val (start_pipeline host (c_app c) (c_os c)) with
  | inl _ => False
  | inr (a', true) =>
      c' = {| c_app := a'; c_jobs := [a']; c_os := c_os c |} /\ btn_run a' = disabled
  | inr (a', false) =>
      c' = {| c_app := a'; c_jobs := []; c_os := c_os c |} /\ btn_run a' = normal
  end.
Proof.
  intros R Iz. pose proof (reachable_idle_enabled c R) as En.
  assert (J : c_jobs c = []) by (unfold idle in Iz; destruct (c_jobs c); [reflexivity | discriminate]).
  specialize (En J). cbv zeta. cbn [ctl_step]. unfold press_run. rewrite En. cbv zeta.
  pose proof (start_pipeline_button host (c_app c) (c_os c)) as S.
  destruct (r_val (start_pipeline host (c_app c) (c_os c))) as [e|[a' [|]]];
    [contradiction | |]; destruct S as [S1 S2]; rewrite S1, J.
  - split; [reflexivity | exact S2].
  - split; [reflexivity | rewrite S2; exact En].
Qed.

End Report.

Lemma worker_end_witness :
  let exec := Demo.tools Demo.all_well in
  let c0 := {| c_app := Demo.app; c_jobs := []; c_os := Demo.os0 |} in
  let c1 := ctl_step exec Demo.whisper_dir Demo.host c0 Press in
  let c2 := ctl_step exec Demo.whisper_dir Demo.host c1 Finish in
  idle c1 = false /\ idle c2 = true /\ btn_run (c_app c2) = normal.
Proof.
  cbv zeta.
  assert (Z : idle (ctl_step (Demo.tools Demo.all_well) Demo.whisper_dir Demo.host
                             {| c_app := Demo.app; c_jobs := []; c_os := Demo.os0 |} Press)
              = false) by (vm_compute; reflexivity).
  split; [exact Z|].
  apply (worker_end_reenables unit (Demo.tools Demo.all_well) Demo.whisper_dir Demo.host).
  - apply reach_step. apply reach_init. reflexivity.
  - exact Z.
Defined.

Lemma idle_press_witness :
  let exec := Demo.tools Demo.all_well in
  let c0 := {| c_app := Demo.app; c_jobs := []; c_os := Demo.os0 |} in
  let c1 := ctl_step exec Demo.whisper_dir Demo.host c0 Press in
  length (c_jobs c1) = 1%nat /\ btn_run (c_app c1) = disabled /\ c_os c1 = Demo.os0.
Proof.
  cbv zeta.
  pose proof (idle_press_starts unit (Demo.tools Demo.all_well) Demo.whisper_dir Demo.host
                {| c_app := Demo.app; c_jobs := []; c_os := Demo.os0 |}
                (reach_init unit (Demo.tools Demo.all_well) Demo.whisper_dir
                            Demo.app Demo.os0 eq_refl) eq_refl) as P.
  cbv zeta in P. cbn [c_app c_os] in P.
  destruct (r_val (start_pipeline Demo.host Demo.app Demo.os0)) as [e|[a' [|]]] eqn:E;
    [contradiction | | vm_compute in E; discriminate E].
  destruct P as [P B]. rewrite P. cbn [c_jobs c_app c_os length].
  split; [reflexivity|]. split; [exact B | reflexivity].
Defined.

(* ================================================================== *)
(** ** The Fetch stage as a single launch *)
(* ================================================================== *)

Section FetchLaunch.
Variable H : Type.
Variable exec : H -> FS -> list string -> string -> list (string * string) -> exec_result H.
Variable WHISPER_PROJECT_DIR : string.

Lemma download_youtube_run url video_dir base (os : OS H) :
  let fs := makedirs (disk os) video_dir in
  let x := exec (hid os) fs (ytdlp_cmd url video_dir base) video_dir [] in
  wp trace_observer (download_youtube exec url video_dir base)
     (fun _ os' tr =>
        tr = launch_trace (ytdlp_cmd url video_dir base) video_dir [] fs x
        /\ os' = {| disk := disk_after fs x; hid := x_hid x |})
     (fun _ os' tr =>
        tr = launch_trace (ytdlp_cmd url video_dir base) video_dir [] fs x
        /\ os' = {| disk := disk_after fs x; hid := x_hid x |}) os [].
Proof.
  cbv zeta. destruct os as [fs h]. wp_go idtac.
  all: cbn zeta; cbn [disk hid] in *;
    repeat match goal with
           | Hx : exec _ _ _ _ _ = _ |- _ => rewrite Hx; clear Hx
           end;
    unfold launch_trace, disk_after;
    cbn [x_fault x_rc x_lines x_disk x_hid ext trace_observer app]; split; reflexivity.
Qed.

(** What a finished computation is, when its trace and final machine are
    known whatever the outcome. *)
Lemma wp_same {A} (c : OS H -> Res H A) (T : list event) (S : OS H) os :
  wp trace_observer c (fun _ os' tr => tr = T /\ os' = S)
     (fun _ os' tr => tr = T /\ os' = S) os [] ->
  r_trace (c os) = T /\ r_os (c os) = S.
Proof.
  intros W. apply wp_read in W. revert W. generalize (c os). intros r.
  destruct r as [t os' v]. cbn [r_val r_os r_trace ext trace_observer app].
  destruct v; auto.
Qed.


End FetchLaunch.
